(** * dsp/utils/cache.py: the SQLite result cache and its wrapper

    A shallow embedding of [filter_keys], [_hash], the [SQLiteCache] class and
    [sqlite_cache_wrapper.wrapper].

    Conventions of the embedding.
    - A Python [str] is a Rocq [string] holding its UTF-8 bytes; byte-wise
      lexicographic order on UTF-8 coincides with Python's code-point order,
      and [str.encode()] is the identity.
    - A [dict] is an association list in insertion order with pairwise
      distinct keys.
    - A number that reaches the store is a rational ([Q]) or
      [float("inf")]; line 302 of the wrapper raises on every other float.
      A rational that is not whole stands for a Python float; a whole one
      for the [int] or the float of that value, which SQLite treats alike as
      long as it fits in 64 bits.  Beyond 64 bits a whole number is taken
      as an [int], which cannot be bound ([number_binds]).  Of a number
      stored in it the REAL column [timestamp] keeps the nearest double
      ([sqlite_real]).  A branch index is a Python [int] ([in_int64]).
    - The interpreter, the SQLite file, the clocks and the trace of
      effects live in a [World], threaded through a state-and-exception
      monad [M]. *)

From Stdlib Require Import List String Ascii Bool ZArith QArith Qround Qabs.
From Stdlib Require Import Lia Lqa Permutation Sorted RelationClasses.
From Stdlib Require Import DecimalString DecimalNat.
Import ListNotations.

Set Implicit Arguments.
Open Scope string_scope.

(** ** Opaque Python values and library functions the module relies on *)

(** Finite floats and [float("inf")]. *)
Inductive pyfloat :=
| Finite (q : Q)
| PosInf.

(** What the embedding needs from the interpreter and the standard library:
    - [Any]: Python objects passed as arguments and results;
    - [py_none]: [None];
    - [py_str]: [str(x)], also what an f-string renders;
    - [of_str]: a Python [str] as an object;
    - [sha256_hexdigest]: [hashlib.sha256(s.encode()).hexdigest()];
    - [as_int]: the integer an object denotes when bound to an INTEGER column
      (the wrapper's [cast(int, ...)] does nothing at run time);
    - [as_float]: the float an object denotes, [None] for what is no float,
      a NaN or [-inf], on which [datetime.fromtimestamp] raises;
    - [isoformat]: [datetime.fromtimestamp(t).isoformat()], [None] when
      [fromtimestamp] raises (year out of range). *)
Class PyRuntime := {
  Any : Type;
  py_none : Any;
  py_str : Any -> string;
  of_str : string -> Any;
  sha256_hexdigest : string -> string;
  as_int : Any -> Z;
  as_float : Any -> option pyfloat;
  isoformat : Q -> option string
}.

(** A small concrete runtime used to run the embedding on examples: objects
    are [None], integers, floats or strings; the digest is a toy one (the
    hexadecimal of the first 32 bytes, padded with zeros); a timestamp
    is formatted, as one text for all, when it lies in the years 1 to
    9999. *)
Inductive pyobj :=
| PyNone
| PyInt (n : Z)
| PyFloat (x : pyfloat)
| PyStr (s : string).

Definition hex_digit (n : N) : ascii :=
  nth (N.to_nat n) (list_ascii_of_string "0123456789abcdef") "0"%char.

Fixpoint hex_bytes (s : string) : string :=
  match s with
  | EmptyString => EmptyString
  | String c r =>
      String (hex_digit (N_of_ascii c / 16))
        (String (hex_digit (N_of_ascii c mod 16)) (hex_bytes r))
  end.

Fixpoint pad_to (n : nat) (s : string) : string :=
  match n with
  | O => EmptyString
  | S k =>
      match s with
      | EmptyString => String "0"%char (pad_to k EmptyString)
      | String c r => String c (pad_to k r)
      end
  end.

Definition demo_digest (s : string) : string := pad_to 64 (hex_bytes s).

Definition demo_str (x : pyobj) : string :=
  match x with
  | PyNone => "None"
  | PyInt n => if (n =? 0)%Z then "0" else if (n =? 1)%Z then "1" else "n"
  | PyFloat _ => "x"
  | PyStr s => s
  end.

Definition demo_runtime : PyRuntime := {|
  Any := pyobj;
  py_none := PyNone;
  py_str := demo_str;
  of_str := PyStr;
  sha256_hexdigest := demo_digest;
  as_int := fun x => match x with PyInt n => n | _ => 0%Z end;
  as_float := fun x =>
    match x with
    | PyInt n => Some (Finite (inject_Z n))
    | PyFloat f => Some f
    | _ => None
    end;
  isoformat := fun t =>
    if Qle_bool (-62135596800) t && Qle_bool t 253402300799
    then Some "t" else None
|}.

(** ** Lists: stable sort, as Python's [sorted] *)

Section StableSort.
Variable A : Type.
Variable leb : A -> A -> bool.

Fixpoint insert_sorted (x : A) (l : list A) : list A :=
  match l with
  | [] => [x]
  | y :: l' => if leb x y then x :: l else y :: insert_sorted x l'
  end.

(** [sorted(l, key=...)]: stable, an element goes before the equal
    elements that followed it in [l]. *)
Fixpoint sorted (l : list A) : list A :=
  match l with
  | [] => []
  | x :: l' => insert_sorted x (sorted l')
  end.
End StableSort.

(** The order a comparison function decides. *)
Definition le_by {A : Type} (leb : A -> A -> bool) (a b : A) : Prop :=
  leb a b = true.

(** Order of the keyword names: [sorted(..., key=lambda x: x[0])]. *)
Definition key_leb {V : Type} (a b : string * V) : bool :=
  String.leb (fst a) (fst b).

(** ** SQLite's LIKE operator

    [%] matches any run of characters, [_] exactly one, every other
    character itself, ASCII letters without regard to case.  A character
    is read off the UTF-8 bytes as SQLite reads it: a byte from 0xC0 on
    leads a character and takes the continuation bytes (0x80 to 0xBF)
    behind it, any other byte is a character of its own. *)

Definition ascii_lower (c : ascii) : ascii :=
  let n := nat_of_ascii c in
  if ((65 <=? n) && (n <=? 90))%nat then ascii_of_nat (n + 32) else c.

Definition ascii_eqb_nocase (c d : ascii) : bool :=
  Ascii.eqb (ascii_lower c) (ascii_lower d).

Definition is_continuation (c : ascii) : bool :=
  let n := nat_of_ascii c in
  ((128 <=? n) && (n <? 192))%nat.

Fixpoint skip_continuation (s : string) : string :=
  match s with
  | EmptyString => EmptyString
  | String c s' => if is_continuation c then skip_continuation s' else s
  end.

(** What is left of [String c s'] behind its first character. *)
Definition skip_char (c : ascii) (s' : string) : string :=
  if (192 <=? nat_of_ascii c)%nat then skip_continuation s' else s'.

Fixpoint sql_like (p s : string) : bool :=
  match p with
  | EmptyString => match s with EmptyString => true | _ => false end
  | String c p' =>
      if Ascii.eqb c "%"%char then
        (fix star (t : string) : bool :=
           sql_like p' t
           || match t with
              | EmptyString => false
              | String _ t' => star t'
              end) s
      else if Ascii.eqb c "_"%char then
        match s with
        | EmptyString => false
        | String d s' => sql_like p' (skip_char d s')
        end
      else
        match s with
        | EmptyString => false
        | String d s' => ascii_eqb_nocase c d && sql_like p' s'
        end
  end.

(** The alphabet of [hexdigest()]: digits and lower-case a..f. *)
Definition is_lower_hex (c : ascii) : bool :=
  let n := nat_of_ascii c in
  ((48 <=? n) && (n <=? 57) || (97 <=? n) && (n <=? 102))%nat.

Fixpoint all_chars (P : ascii -> bool) (s : string) : bool :=
  match s with
  | EmptyString => true
  | String c s' => P c && all_chars P s'
  end.

(** A SHA-256 hex digest: 64 lower-case hexadecimal digits. *)
Definition is_hexdigest (s : string) : bool :=
  (String.length s =? 64)%nat && all_chars is_lower_hex s.

(** ** filter_keys and _hash (lines 25-52) *)

Definition dict (V : Type) := list (string * V).

(** [key in keys_to_ignore] *)
Definition key_in (key : string) (keys : list string) : bool :=
  existsb (String.eqb key) keys.

Definition filter_keys {V : Type} (input_dict : dict V)
    (keys_to_ignore : list string) : dict V :=
  filter (fun kv => negb (key_in (fst kv) keys_to_ignore)) input_dict.

(** [dict.get(key)], [None] when the key is absent. *)
Fixpoint dict_get {V : Type} (d : dict V) (key : string) : option V :=
  match d with
  | [] => None
  | (k, v) :: d' => if String.eqb k key then Some v else dict_get d' key
  end.

(** The wrapped callable: its [__name__] and what a call does.  A call either
    returns an object or raises an [Exception] with some text. *)
Inductive outcome (R : Type) :=
| Returns (r : R)
| Fails (text : string).
Arguments Returns {R} r.
Arguments Fails {R} text.

Record operation `{PyRuntime} := {
  func_name : string;
  call : list Any -> dict Any -> outcome Any
}.

Section Hash.
Context `{RT : PyRuntime}.

Definition _hash (func : operation) (args : list Any) (kwargs : dict Any)
  : string :=
  let func_name := func_name func in
  let sorted_kwargs := sorted key_leb kwargs in
  let args_str := String.concat "," (map py_str args) in
  let kwargs_str :=
    String.concat ","
      (map (fun kv => fst kv ++ "=" ++ py_str (snd kv)) sorted_kwargs) in
  let combined_str :=
    func_name ++ "(" ++ args_str ++ "," ++ kwargs_str ++ ")" in
  let func_hash := sha256_hexdigest combined_str in
  func_hash.
End Hash.

(** ** The cache table (lines 96-107) *)

(** The [status] column: 0, 1 and 2.  The column is declared TEXT, so SQLite
    keeps the integers bound to it as the texts '0', '1', '2' and compares a
    bound integer with them as text; equality and order are those of the
    integers. *)
Inductive op_status :=
| FAILED
| PENDING
| COMPLETED.

Definition status_code (s : op_status) : Z :=
  match s with
  | FAILED => 0
  | PENDING => 1
  | COMPLETED => 2
  end.

Definition status_eqb (a b : op_status) : bool :=
  (status_code a =? status_code b)%Z.

(** [str(uuid.uuid4())], abstractly. *)
Definition uuid := nat.

(** One row of [cache].  [insert_timestamp] is SQLite's CURRENT_TIMESTAMP,
    whole seconds; [result] is the BLOB, [None] for NULL. *)
Record row := {
  row_idx : uuid;
  branch_idx : Z;
  operation_hash : string;
  insert_timestamp : Z;
  timestamp : Q;
  status : op_status;
  payload : option string;
  result : option string
}.

(** ** The world an invocation runs in *)

(** The statements the module hands to [cursor.execute], with the values
    for their placeholders. *)
Inductive statement :=
| CreateTable
| Insert (r : row)
| UpdateById (id : uuid) (st : op_status)
| UpdatePending (h : string) (b : Z) (s : Q) (st : op_status)
| SelectCount (h : string) (b : Z) (st : op_status) (s : Q) (e : pyfloat)
| SelectBest (h : string) (b : Z) (s : Q) (e : pyfloat)
    (st : option op_status)
| SelectRecord (h : string) (b : Z) (s : Q) (e : pyfloat).

(** [sqlite3.OperationalError] stands for every engine failure (no such
    table, read-only file, file that cannot be opened); [OverflowError] is
    raised when a Python [int] too large for an INTEGER is bound;
    [NoContextManager] is what [with None:] raises
    (AttributeError before Python 3.11, TypeError from it on) and
    [AttributeError] what [None.close()] raises;
    [PickleTypeError] is the TypeError of [pickle.dump] called without a file
    and of [pickle.load] called on something that is no file;
    [HashTypeError] is the TypeError of [_hash(func, ..., func=...)];
    [TimerangeError] is whatever line 302 raises; [PyException] is a plain
    [Exception(arg)] and [OperationError] the exception of the wrapped
    callable.  [OutOfFuel] is the embedding's own: the polling loop is run
    with a bound, shown below never to be reached. *)
Inductive exn :=
| NoContextManager
| AttributeError
| ProgrammingError
| OperationalError
| IntegrityError
| OverflowError
| PickleTypeError
| HashTypeError
| TimerangeError
| PyException (arg : string)
| OperationError (text : string)
| OutOfFuel.

Inductive result_of (A : Type) :=
| Ok (a : A)
| Raise (e : exn).
Arguments Ok {A} a.
Arguments Raise {A} e.

Section Store.
Context `{RT : PyRuntime}.

Inductive event :=
| Connect (path : string)
| Acquire
| Release
| Execute (stmt : statement)
| Sleep
| Call (args : list Any) (kwargs : dict Any).

(** - [cache_table]: the table [cache] of the database file at the
      configured path, [None] while it does not exist;
    - [unwritable]: the engine refuses to write to that file;
    - [unopenable]: [sqlite3.connect] cannot open that file;
    - [env_path]: [os.getenv("DSP_CACHE_SQLITE_PATH")];
    - [now]: [datetime.now().timestamp()];
    - [timer]: [default_timer()];
    - [next_uuid]: the next [uuid.uuid4()], and [later_uuids] those drawn
      after it, in the order of the draws; they are random, so nothing is
      known of them;
    - [others]: what other threads and processes write to the table while
      this one sleeps, one entry consumed by each [time.sleep];
    - [trace]: the effects so far, latest first. *)
Record World := {
  cache_table : option (list row);
  unwritable : bool;
  unopenable : bool;
  env_path : option string;
  now : Q;
  timer : Q;
  next_uuid : uuid;
  later_uuids : nat -> uuid;
  others : list (list row -> list row);
  trace : list event
}.

Definition M (A : Type) := World -> result_of A * World.

Definition ret {A} (a : A) : M A := fun w => (Ok a, w).
Definition raise {A} (e : exn) : M A := fun w => (Raise e, w).
Definition bind {A B} (c : M A) (k : A -> M B) : M B :=
  fun w =>
    match c w with
    | (Ok a, w') => k a w'
    | (Raise e, w') => (Raise e, w')
    end.

(** [try: body except Exception as e: handler(e)] *)
Definition try_except {A} (body : M A) (handler : exn -> M A) : M A :=
  fun w =>
    match body w with
    | (Ok a, w') => (Ok a, w')
    | (Raise e, w') => handler e w'
    end.

Definition emit (e : event) : M unit :=
  fun w =>
    (Ok tt,
     {| cache_table := cache_table w; unwritable := unwritable w;
        unopenable := unopenable w;
        env_path := env_path w; now := now w; timer := timer w;
        next_uuid := next_uuid w; later_uuids := later_uuids w;
        others := others w; trace := e :: trace w |}).

Definition set_table (t : option (list row)) : M unit :=
  fun w =>
    (Ok tt,
     {| cache_table := t; unwritable := unwritable w;
        unopenable := unopenable w;
        env_path := env_path w; now := now w; timer := timer w;
        next_uuid := next_uuid w; later_uuids := later_uuids w;
        others := others w; trace := trace w |}).

Definition get {A} (f : World -> A) : M A := fun w => (Ok (f w), w).
End Store.

Declare Scope cache_scope.
Delimit Scope cache_scope with cache.
Notation "x <- c ;; k" := (bind c (fun x => k))
  (at level 61, c at next level, right associativity) : cache_scope.
Notation "c ;;; k" := (bind c (fun _ => k))
  (at level 61, right associativity) : cache_scope.
Open Scope cache_scope.

(** ** Numbers as SQLite keeps them *)

(** An INTEGER is a signed 64-bit integer; binding a Python [int] outside
    that range raises OverflowError. *)
Definition in_int64 (z : Z) : bool :=
  ((- 2 ^ 63 <=? z) && (z <? 2 ^ 63))%Z.

(** A number can be bound to a placeholder: a float can, an [int] when
    it fits in 64 bits. *)
Definition is_whole (q : Q) : bool := Qeq_bool (inject_Z (Qfloor q)) q.

Definition number_binds (q : Q) : bool :=
  negb (is_whole q) || in_int64 (Qfloor q).

(** The integer part of the binary logarithm of a positive rational. *)
Definition floor_log2 (a : Q) : Z :=
  let k := (Z.log2 (Qnum a) - Z.log2 (Zpos (Qden a)))%Z in
  if Qle_bool (Qpower 2 k) a then k else (k - 1)%Z.

(** The double nearest to a number within the range of the doubles: 53
    bits of mantissa, exponents from -1074 on, a tie going to the even
    mantissa. *)
Definition nearest_double (q : Q) : Q :=
  if Qeq_bool q 0 then 0
  else
    let a := Qabs q in
    let u := Z.max (floor_log2 a - 52) (-1074) in
    let scaled := a / Qpower 2 u in
    let m := Qfloor scaled in
    let twice_rest := 2 * (scaled - inject_Z m) in
    let m' :=
      if negb (Qle_bool 1 twice_rest) then m
      else if negb (Qle_bool twice_rest 1) then (m + 1)%Z
      else if Z.even m then m else (m + 1)%Z in
    let r := inject_Z m' * Qpower 2 u in
    Qred (if Qle_bool 0 q then r else - r).

(** What a column of REAL affinity ([timestamp FLOAT]) keeps of a number
    stored in it: a double as it is, any other number as the nearest
    double. *)
Definition sqlite_real (t : Q) : Q :=
  if Qeq_bool (nearest_double t) t then t else nearest_double t.

(** ** SQL of the store: WHERE clauses and ORDER BY *)

(** [timestamp >= ?], and [AND timestamp <= ?] unless the end is
    [float("inf")]. *)
Definition in_timerange (s : Q) (e : pyfloat) (r : row) : bool :=
  Qle_bool s (timestamp r)
  && match e with
     | PosInf => true
     | Finite e' => Qle_bool (timestamp r) e'
     end.

(** Lines 190-195:
    [operation_hash = ? AND branch_idx = ? AND status = ? AND timestamp >= ?]. *)
Definition where_exists (h : string) (b : Z) (st : op_status) (s : Q)
    (e : pyfloat) (r : row) : bool :=
  String.eqb (operation_hash r) h
  && (branch_idx r =? b)%Z
  && status_eqb (status r) st
  && in_timerange s e r.

(** Lines 227-235:
    [operation_hash LIKE ? AND branch_idx = ? AND timestamp >= ?], and
    [AND status = ?] when a status is asked for. *)
Definition where_retrieve (h : string) (b : Z) (s : Q) (e : pyfloat)
    (st : option op_status) (r : row) : bool :=
  sql_like h (operation_hash r)
  && (branch_idx r =? b)%Z
  && in_timerange s e r
  && match st with
     | None => true
     | Some st' => status_eqb (status r) st'
     end.

(** Line 156:
    [operation_hash = ? AND branch_idx = ? AND status = 1 AND timestamp >= ?]. *)
Definition where_update_pending (h : string) (b : Z) (s : Q) (r : row)
  : bool :=
  String.eqb (operation_hash r) h
  && (branch_idx r =? b)%Z
  && status_eqb (status r) PENDING
  && Qle_bool s (timestamp r).

(** Line 164: [row_idx = ?]. *)
Definition where_row_idx (id : uuid) (r : row) : bool :=
  (row_idx r =? id)%nat.

(** Line 236: [ORDER BY status DESC, insert_timestamp ASC]. *)
Definition order_best (r1 r2 : row) : bool :=
  (status_code (status r2) <? status_code (status r1))%Z
  || ((status_code (status r1) =? status_code (status r2))%Z
      && (insert_timestamp r1 <=? insert_timestamp r2)%Z).

(** [SET status = ?, result = ?] *)
Definition set_status_result (st : op_status) (blob : string) (r : row)
  : row :=
  {| row_idx := row_idx r; branch_idx := branch_idx r;
     operation_hash := operation_hash r;
     insert_timestamp := insert_timestamp r; timestamp := timestamp r;
     status := st; payload := payload r; result := Some blob |}.

Definition MAX_POLL_TIME : Q := 10.
Definition POLL_INTERVAL : Q := 3 # 1000.

Definition reserved_keys : list string :=
  ["worker_id"; "cache_branch"; "experiment_start_timestamp";
   "experiment_end_timestamp"].

Inductive connection :=
| Opened
| Closed.

(** The attributes of a [SQLiteCache] object; [conn] is [None] until
    [__enter__] runs.  The lock carries no data: taking and releasing it are
    events of the trace. *)
Record SQLiteCache := {
  conn : option connection
}.

Section Clients.
Context `{RT : PyRuntime}.

(** *** Clocks, identifiers, pickle *)

Definition datetime_now : M Q := get now.
Definition default_timer : M Q := get timer.

Definition interfere (w : World)
  : option (list row) * list (list row -> list row) :=
  match others w with
  | [] => (cache_table w, [])
  | f :: rest => (option_map f (cache_table w), rest)
  end.

(** [time.sleep(d)]: both clocks advance by [d]; the other writers take a
    turn. *)
Definition sleep (d : Q) : M unit :=
  fun w =>
    (Ok tt,
     {| cache_table := fst (interfere w); unwritable := unwritable w;
        unopenable := unopenable w;
        env_path := env_path w; now := Qred (now w + d);
        timer := Qred (timer w + d); next_uuid := next_uuid w;
        later_uuids := later_uuids w;
        others := snd (interfere w); trace := Sleep :: trace w |}).

(** [uuid.uuid4()]: the next identifier is drawn, the one after it comes
    up. *)
Definition uuid4 : M uuid :=
  fun w =>
    (Ok (next_uuid w),
     {| cache_table := cache_table w; unwritable := unwritable w;
        unopenable := unopenable w;
        env_path := env_path w; now := now w; timer := timer w;
        next_uuid := later_uuids w O;
        later_uuids := fun n => later_uuids w (S n);
        others := others w; trace := trace w |}).

(** [pickle.dump(result)] (line 150): [dump] takes the object and a file;
    called with the object alone it raises TypeError. *)
Definition pickle_dump (obj : Any) : M string := raise PickleTypeError.

(** [pickle.load(row[3])] (lines 249, 276): [load] takes a file object;
    the column value is [bytes] or [None], on which it raises TypeError. *)
Definition pickle_load (blob : option string) : M Any :=
  raise PickleTypeError.

(** *** SQLiteCache (lines 55-252) *)

(** [SQLiteCache()]: the object [__init__] leaves. *)
Definition __init__ : SQLiteCache := {| conn := None |}.

(** [with self.lock: body] *)
Definition with_lock {A} (body : M A) : M A :=
  fun w =>
    let (r, w') := (emit Acquire ;;; body) w in
    (r, snd (emit Release w')).

(** [with self.conn: cursor = self.conn.cursor(); body] *)
Definition with_conn {A} (self : SQLiteCache) (body : M A) : M A :=
  match conn self with
  | None => raise NoContextManager
  | Some Closed => raise ProgrammingError
  | Some Opened => body
  end.

(** The values of a query can be bound: the branch and the start of the
    window, and its end, which is bound unless it is [float("inf")]. *)
Definition window_binds (b : Z) (s : Q) (e : pyfloat) : bool :=
  in_int64 b && number_binds s
  && match e with
     | Finite e' => number_binds e'
     | PosInf => true
     end.

(** The values of an insertion can be bound: the branch and the
    timestamp. *)
Definition row_binds (b : Z) (t : Q) : bool :=
  in_int64 b && number_binds t.

(** The values of the statement can be bound to its placeholders. *)
Definition bindable (stmt : statement) : bool :=
  match stmt with
  | CreateTable => true
  | Insert r => row_binds (branch_idx r) (timestamp r)
  | UpdateById _ _ => true
  | UpdatePending _ b s _ => row_binds b s
  | SelectCount _ b _ s e => window_binds b s e
  | SelectBest _ b s e _ => window_binds b s e
  | SelectRecord _ b s e => window_binds b s e
  end.

(** [cursor.execute] of a SELECT: the statement is compiled, which fails
    without the table, then its values are bound; the rows of the table are
    what it reads. *)
Definition execute_select (stmt : statement) : M (list row) :=
  emit (Execute stmt) ;;;
  t <- get cache_table ;;
  match t with
  | None => raise OperationalError
  | Some rows => if bindable stmt then ret rows else raise OverflowError
  end.

(** [cursor.execute] of an INSERT or UPDATE: compiled, bound, then run. *)
Definition execute_write (stmt : statement)
    (f : list row -> result_of (list row)) : M unit :=
  emit (Execute stmt) ;;;
  t <- get cache_table ;;
  ro <- get unwritable ;;
  match t with
  | None => raise OperationalError
  | Some rows =>
      if bindable stmt then
        if ro then raise OperationalError
        else match f rows with
             | Ok rows' => set_table (Some rows')
             | Raise e => raise e
             end
      else raise OverflowError
  end.

(** [CREATE TABLE IF NOT EXISTS cache (...)] *)
Definition execute_create : M unit :=
  emit (Execute CreateTable) ;;;
  t <- get cache_table ;;
  ro <- get unwritable ;;
  match t with
  | Some _ => ret tt
  | None => if ro then raise OperationalError else set_table (Some [])
  end.

Definition create_table_if_not_exists (self : SQLiteCache) : M unit :=
  with_lock
    (with_conn self
       (try_except execute_create
          (fun e => (* logger.warn *) raise e))).

Definition cache_file_path : M string :=
  p <- get env_path ;;
  match p with
  | Some s => if String.eqb s "" then ret "sqlite_cache.db" else ret s
  | None => ret "sqlite_cache.db"
  end.

(** [sqlite3.connect(cache_file_path, ...)] *)
Definition connect (path : string) : M connection :=
  emit (Connect path) ;;;
  bad <- get unopenable ;;
  if (bad : bool) then raise OperationalError else ret Opened.

(** A method that assigns to the attributes of [self]: what the call
    returns or raises, the object as the call leaves it, and the world. *)
Definition method (A : Type) : Type :=
  World -> (result_of A * SQLiteCache) * World.

(** [__enter__] returns nothing.  [self.conn] is assigned once
    [sqlite3.connect] has returned, and stays assigned when the creation of
    the table raises. *)
Definition __enter__ (self : SQLiteCache) : method unit :=
  fun w =>
    match (path <- cache_file_path ;; connect path) w with
    | (Raise e, w') => ((Raise e, self), w')
    | (Ok c, w') =>
        let self := {| conn := Some c |} in
        let (r, w'') := create_table_if_not_exists self w' in
        ((r, self), w'')
    end.

(** [__exit__]: [self.conn.close()], nothing returned. *)
Definition __exit__ (self : SQLiteCache) : method unit :=
  fun w =>
    match conn self with
    | None => ((Raise AttributeError, self), w)
    | Some _ => ((Ok tt, {| conn := Some Closed |}), w)
    end.
End Clients.

(** The row of [INSERT INTO cache (row_idx, branch_idx, operation_hash,
    timestamp, status) VALUES (?, ?, ?, ?, 1)]; [its] is CURRENT_TIMESTAMP. *)
Definition pending_row (id : uuid) (b : Z) (h : string) (its : Z) (ts : Q)
  : row :=
  {| row_idx := id; branch_idx := b; operation_hash := h;
     insert_timestamp := its; timestamp := ts; status := PENDING;
     payload := None; result := None |}.

(** The row as the table keeps it: the column [timestamp] has REAL
    affinity. *)
Definition stored (r : row) : row :=
  {| row_idx := row_idx r; branch_idx := branch_idx r;
     operation_hash := operation_hash r;
     insert_timestamp := insert_timestamp r;
     timestamp := sqlite_real (timestamp r); status := status r;
     payload := payload r; result := result r |}.

(** [row_idx TEXT PRIMARY KEY] *)
Definition insert_row (r : row) (rows : list row) : result_of (list row) :=
  if existsb (fun r' => (row_idx r' =? row_idx r)%nat) rows
  then Raise IntegrityError
  else Ok (rows ++ [stored r])%list.

Definition update_rows (p : row -> bool) (st : op_status) (blob : string)
    (rows : list row) : result_of (list row) :=
  Ok (map (fun r => if p r then set_status_result st blob r else r) rows).

Definition Qltb (a b : Q) : bool := negb (Qle_bool b a).

(** [end_time < request_time] *)
Definition pyfloat_ltb (a : pyfloat) (b : Q) : bool :=
  match a with
  | Finite a' => Qltb a' b
  | PosInf => false
  end.

(** [traceback.format_exception] joined by newlines; the frames are left
    out, the text of the exception closes the string. *)
Definition format_exception (text : string) : string :=
  "Traceback (most recent call last): " ++ text.

(** Enough iterations for one polling loop: 10 / 0.003, rounded up, and one
    more test of the loop condition. *)
Definition POLL_FUEL : nat := 3335.

Section Methods.
Context `{RT : PyRuntime}.

Definition insert_operation_started (self : SQLiteCache)
    (operation_hash : string) (branch_idx : Z) (timestamp : Q) : M uuid :=
  row_idx <- uuid4 ;;
  with_conn self
    (current_timestamp <- datetime_now ;;
     let r := pending_row row_idx branch_idx operation_hash
                (Qfloor current_timestamp) timestamp in
     execute_write (Insert r) (insert_row r)) ;;;
  ret row_idx.

Definition update_operation_status (self : SQLiteCache)
    (operation_hash : string) (branch_idx : Z) (result : Any)
    (start_time : Q) (end_time : pyfloat) (row_idx : option uuid)
    (status : op_status) : M unit :=
  result <- pickle_dump result ;;
  match row_idx with
  | None =>
      with_conn self
        match end_time with
        | PosInf =>
            execute_write
              (UpdatePending operation_hash branch_idx start_time status)
              (update_rows
                 (where_update_pending operation_hash branch_idx
                    start_time) status result)
        | Finite _ =>
            (* one placeholder more than values bound *)
            emit (Execute
                    (UpdatePending operation_hash branch_idx start_time
                       status)) ;;;
            raise ProgrammingError
        end
  | Some id =>
      with_conn self
        (execute_write (UpdateById id status)
           (update_rows (where_row_idx id) status result))
  end.

Definition check_if_record_exists_with_status (self : SQLiteCache)
    (operation_hash : string) (branch_idx : Z) (start_time : Q)
    (end_time : pyfloat) (status : op_status) : M bool :=
  with_conn self
    (rows <- execute_select
               (SelectCount operation_hash branch_idx status start_time
                  end_time) ;;
     let count :=
       List.length
         (filter
            (where_exists operation_hash branch_idx status start_time
               end_time) rows) in
     ret (0 <? count)%nat).

(** The row [cursor.fetchone()] yields for the query of lines 225-236. *)
Definition fetch_best (function_hash : string) (cache_branch : Z)
    (range_start_timestamp : Q) (range_end_timestamp : pyfloat)
    (retrieve_status : option op_status) (rows : list row) : option row :=
  hd_error
    (sorted order_best
       (filter
          (where_retrieve function_hash cache_branch range_start_timestamp
             range_end_timestamp retrieve_status) rows)).

Definition retrieve_earliest_record (self : SQLiteCache)
    (function_hash : string) (cache_branch : Z)
    (range_start_timestamp : Q) (range_end_timestamp : pyfloat)
    (retrieve_status : option op_status) (return_record_result : bool)
  : M (bool * option Any) :=
  with_conn self
    (rows <- execute_select
               (SelectBest function_hash cache_branch range_start_timestamp
                  range_end_timestamp retrieve_status) ;;
     match fetch_best function_hash cache_branch range_start_timestamp
             range_end_timestamp retrieve_status rows with
     | None => ret (false, None)
     | Some row =>
         if return_record_result then
           v <- pickle_load (result row) ;;
           ret (true, Some v)
         else ret (true, None)
     end).
End Methods.

(** ** sqlite_cache_wrapper.wrapper (lines 284-426) *)

Section Wrapper.
Context `{RT : PyRuntime}.

(** [kwargs.get(key, default)] read as a float. *)
Definition get_float (kwargs : dict Any) (key : string)
    (default : pyfloat) : option pyfloat :=
  match dict_get kwargs key with
  | Some v => as_float v
  | None => Some default
  end.

(** Line 302.  [datetime.fromtimestamp] raises on what is no finite float
    in its range, so past this line the start is finite and the end is
    finite or [float("inf")]; they are handed on with the text. *)
Definition timerange_in_iso (start_time end_time : option pyfloat)
  : M (Q * pyfloat * string) :=
  match start_time with
  | Some (Finite s) =>
      match isoformat s with
      | None => raise TimerangeError
      | Some from =>
          match end_time with
          | None => raise TimerangeError
          | Some PosInf => ret (s, PosInf, from ++ " and " ++ "future")
          | Some (Finite e) =>
              match isoformat e with
              | None => raise TimerangeError
              | Some to => ret (s, Finite e, from ++ " and " ++ to)
              end
          end
      end
  | _ => raise TimerangeError
  end.

(** The call of [_hash] at line 316, the keywords unpacked: a keyword
    named [func] collides with the first parameter of [_hash]. *)
Definition call_hash (func : operation) (args : list Any)
    (kwargs : dict Any) : M string :=
  if key_in "func" (map fst kwargs) then raise HashTypeError
  else ret (_hash func args kwargs).

(** The call of [func] at line 393. *)
Definition call_func (func : operation) (args : list Any)
    (kwargs : dict Any) : M (outcome Any) :=
  emit (Call args kwargs) ;;;
  ret (call func args kwargs).

(** [_, result = ...; return result] *)
Definition second (r : bool * option Any) : Any :=
  match snd r with
  | Some v => v
  | None => py_none
  end.

(** Lines 341-356, the loop entered with [polling_start_time] read. *)
Fixpoint poll (fuel : nat) (cache_client : SQLiteCache)
    (function_hash : string) (cache_branch : Z) (start_time : Q)
    (end_time : pyfloat) (polling_start_time : Q) : M Any :=
  match fuel with
  | O => raise OutOfFuel
  | S fuel' =>
      t <- default_timer ;;
      if Qltb (t - polling_start_time) MAX_POLL_TIME then
        found <- check_if_record_exists_with_status cache_client
                   function_hash cache_branch start_time end_time
                   COMPLETED ;;
        if (found : bool) then
          r <- retrieve_earliest_record cache_client function_hash
                 cache_branch start_time end_time (Some COMPLETED) true ;;
          ret (second r)
        else
          sleep POLL_INTERVAL ;;;
          poll fuel' cache_client function_hash cache_branch start_time
            end_time polling_start_time
      else
        raise (PyException
                 "Failed to retrieve result from cache after polling.")
  end.

(** Lines 381-426. *)
Definition compute (cache_client : SQLiteCache) (func : operation)
    (args : list Any) (kwargs : dict Any) (function_hash : string)
    (cache_branch : Z) (start_time : Q) (end_time : pyfloat)
    (request_time : Q) : M Any :=
  row_idx <- insert_operation_started cache_client function_hash
               cache_branch request_time ;;
  r <- call_func func args kwargs ;;
  match r with
  | Fails text =>
      let result := of_str (format_exception text) in
      update_operation_status cache_client function_hash cache_branch
        result start_time end_time (Some row_idx) FAILED ;;;
      raise (OperationError text)
  | Returns result =>
      update_operation_status cache_client function_hash cache_branch
        result start_time end_time (Some row_idx) COMPLETED ;;;
      r <- retrieve_earliest_record cache_client function_hash
             cache_branch start_time end_time (Some COMPLETED) true ;;
      ret (second r)
  end.

(** Lines 318-379, then [compute]. *)
Definition lookup (cache_client : SQLiteCache) (func : operation)
    (args : list Any) (kwargs : dict Any) (function_hash : string)
    (cache_branch : Z) (start_time : Q) (end_time : pyfloat)
    (request_time : Q) (timerange : string) : M Any :=
  completed <- check_if_record_exists_with_status cache_client
                 function_hash cache_branch start_time end_time
                 COMPLETED ;;
  if (completed : bool) then
    r <- retrieve_earliest_record cache_client function_hash cache_branch
           start_time end_time (Some COMPLETED) true ;;
    ret (second r)
  else
    pending <- check_if_record_exists_with_status cache_client
                 function_hash cache_branch start_time end_time PENDING ;;
    if (pending : bool) then
      polling_start_time <- default_timer ;;
      poll POLL_FUEL cache_client function_hash cache_branch start_time
        end_time polling_start_time
    else
      failed <- check_if_record_exists_with_status cache_client
                  function_hash cache_branch start_time end_time FAILED ;;
      (if (failed : bool) then
         if pyfloat_ltb end_time request_time then
           r <- retrieve_earliest_record cache_client function_hash
                  cache_branch start_time end_time (Some FAILED) true ;;
           raise (PyException (py_str (second r)))
         else ret tt
       else ret tt) ;;;
      if pyfloat_ltb end_time request_time then
        raise (PyException
                 ("Cache does not exist for the given experiment "
                  ++ "timerange of between " ++ timerange ++ "."))
      else
        compute cache_client func args kwargs function_hash cache_branch
          start_time end_time request_time.

(** Lines 296-426 for a given [cache_client]. *)
Definition wrapper_body (cache_client : SQLiteCache) (func : operation)
    (args : list Any) (kwargs : dict Any) : M Any :=
  request_time <- datetime_now ;;
  let cache_branch :=
    match dict_get kwargs "cache_branch" with
    | Some v => as_int v
    | None => 0%Z
    end in
  let start_time :=
    get_float kwargs "experiment_start_timestamp" (Finite 0) in
  let end_time := get_float kwargs "experiment_end_timestamp" PosInf in
  range <- timerange_in_iso start_time end_time ;;
  let '(start_time, end_time, timerange) := range in
  let kwargs := filter_keys kwargs reserved_keys in
  function_hash <- call_hash func args kwargs ;;
  lookup cache_client func args kwargs function_hash cache_branch
    start_time end_time request_time timerange.

(** The wrapper: line 294 builds the client, nothing enters it. *)
Definition wrapper (func : operation) (args : list Any)
    (kwargs : dict Any) : M Any :=
  let cache_client := __init__ in
  wrapper_body cache_client func args kwargs.
End Wrapper.

(** ** Vocabulary of the properties *)

Section Vocabulary.
Context `{RT : PyRuntime}.

(** The world with one more effect in its trace. *)
Definition log (ev : event) (w : World) : World := snd (emit ev w).

(** [w'] is [w] some effects later, each of them allowed by [P]. *)
Definition adds_only (P : event -> Prop) (w w' : World) : Prop :=
  exists new, trace w' = (new ++ trace w)%list /\ Forall P new.

Definition emits_only {A} (P : event -> Prop) (c : M A) : Prop :=
  forall w, adds_only P w (snd (c w)).

(** The effects open to one invocation with fingerprint [h], branch [b],
    window [s], [e], request time [t] and forwarded arguments [args],
    [kwargs]: it sleeps, calls the operation with these arguments, counts
    and fetches rows for [h], [b] and the window, and inserts a Pending row
    for [h] and [b] stamped [t]. *)
Definition invocation_event (h : string) (b : Z) (s : Q) (e : pyfloat)
    (t : Q) (args : list Any) (kwargs : dict Any) (ev : event) : Prop :=
  match ev with
  | Sleep => True
  | Call a k => a = args /\ k = kwargs
  | Execute (SelectCount h' b' _ s' e') =>
      h' = h /\ b' = b /\ s' = s /\ e' = e
  | Execute (SelectBest h' b' s' e' _) =>
      h' = h /\ b' = b /\ s' = s /\ e' = e
  | Execute (Insert r) =>
      operation_hash r = h /\ branch_idx r = b /\ timestamp r = t
      /\ status r = PENDING
  | _ => False
  end.

(** The values the wrapper derives from its keywords: the branch, and
    the window when line 302 can accept it. *)
Definition branch_of (kwargs : dict Any) : Z :=
  match dict_get kwargs "cache_branch" with
  | Some v => as_int v
  | None => 0%Z
  end.

Definition window_of (kwargs : dict Any) : option (Q * pyfloat) :=
  match get_float kwargs "experiment_start_timestamp" (Finite 0),
        get_float kwargs "experiment_end_timestamp" PosInf with
  | Some (Finite s), Some e => Some (s, e)
  | _, _ => None
  end.

(** The text line 302 makes of a window, when [datetime.fromtimestamp]
    accepts its bounds. *)
Definition window_text (s : Q) (e : pyfloat) : option string :=
  match isoformat s with
  | None => None
  | Some from =>
      match e with
      | PosInf => Some (from ++ " and " ++ "future")
      | Finite e' =>
          match isoformat e' with
          | None => None
          | Some to => Some (from ++ " and " ++ to)
          end
      end
  end.

(** The fingerprint and the arguments of one invocation. *)
Definition forwarded (kwargs : dict Any) : dict Any :=
  filter_keys kwargs reserved_keys.

Definition fingerprint (func : operation) (args : list Any)
    (kwargs : dict Any) : string :=
  _hash func args (forwarded kwargs).

(** The fingerprint a statement is issued for, if any. *)
Definition statement_hash (stmt : statement) : option string :=
  match stmt with
  | Insert r => Some (operation_hash r)
  | UpdatePending h _ _ _ => Some h
  | SelectCount h _ _ _ _ => Some h
  | SelectBest h _ _ _ _ => Some h
  | SelectRecord h _ _ _ => Some h
  | _ => None
  end.

(** An effect that knows the fingerprint [h] only, and hands the
    operation [args] and [kwargs] only. *)
Definition uses_only (h : string) (args : list Any) (kwargs : dict Any)
    (ev : event) : Prop :=
  match ev with
  | Call a k => a = args /\ k = kwargs
  | Execute stmt => forall h', statement_hash stmt = Some h' -> h' = h
  | _ => True
  end.
End Vocabulary.

(** The exceptions of Python, as opposed to the embedding's own. *)
Definition python_exn (e : exn) : Prop := e <> OutOfFuel.

(** Line 356. *)
Definition poll_failed : exn :=
  PyException "Failed to retrieve result from cache after polling.".

(** A client whose [__enter__] has run. *)
Definition opened_client : SQLiteCache := {| conn := Some Opened |}.

(** A record is considered by a query for fingerprint [f], branch [b] and
    window [s], [e]. *)
Definition considered (f : string) (b : Z) (s : Q) (e : pyfloat) (r : row)
  : Prop :=
  operation_hash r = f /\ branch_idx r = b /\ s <= timestamp r
  /\ match e with
     | PosInf => True
     | Finite e' => timestamp r <= e'
     end.

(** The status filter of a retrieval. *)
Definition status_wanted (st : option op_status) (r : row) : Prop :=
  match st with
  | None => True
  | Some st' => status r = st'
  end.

(** A timestamp that can be bound and that the column keeps as it is: a
    double which, when it is whole, fits in 64 bits. *)
Definition kept_exactly (t : Q) : Prop :=
  number_binds t = true /\ sqlite_real t = t.

(** A record is matched by the retrieval for the pattern [f], branch [b],
    window [s], [e] and the status asked for (lines 225-235). *)
Definition matched (f : string) (b : Z) (s : Q) (e : pyfloat)
    (st : option op_status) (r : row) : Prop :=
  sql_like f (operation_hash r) = true /\ branch_idx r = b
  /\ s <= timestamp r
  /\ match e with
     | PosInf => True
     | Finite e' => timestamp r <= e'
     end
  /\ status_wanted st r.

(** Is the lock held at every statement?  The effects are scanned in the
    order they happened, [held] telling whether the lock is taken. *)
Fixpoint serialized `{PyRuntime} (held : bool) (evs : list event) : bool :=
  match evs with
  | [] => true
  | Acquire :: evs' => serialized true evs'
  | Release :: evs' => serialized false evs'
  | Execute _ :: evs' => held && serialized held evs'
  | _ :: evs' => serialized held evs'
  end.

(** ** Sample operations and worlds, on the demo runtime *)

(** How many times the operation has been called. *)
Fixpoint calls `{PyRuntime} (evs : list event) : nat :=
  match evs with
  | [] => O
  | Call _ _ :: evs' => S (calls evs')
  | _ :: evs' => calls evs'
  end.

(** [def f(): return 7] and [def f(): raise Exception("boom")]. *)
Definition op_seven : @operation demo_runtime :=
  @Build_operation demo_runtime "f" (fun _ _ => Returns (PyInt 7)).

Definition op_boom : @operation demo_runtime :=
  @Build_operation demo_runtime "f" (fun _ _ => Fails "boom").

(** A world at wall-clock time 100 whose database file holds [t]. *)
Definition world_at_100 (t : option (list row))
    (env : list (list row -> list row)) : @World demo_runtime :=
  @Build_World demo_runtime t false false None 100 0 8%nat
    (fun n => (9 + n)%nat) env [].

(** The database file before anything created the table. *)
Definition fresh_world : @World demo_runtime := world_at_100 None [].

(** The same after [__enter__] ran on a client. *)
Definition entered_world : @World demo_runtime :=
  world_at_100 (Some []) [].

(** A file nothing can be written to. *)
Definition unwritable_world : @World demo_runtime :=
  @Build_World demo_runtime None true false None 100 0 8%nat
    (fun n => (9 + n)%nat) [] [].

(** An earlier attempt at [f()] on branch 0, stamped 50. *)
Definition earlier_attempt (st : op_status) (blob : option string) : row :=
  {| row_idx := 7%nat; branch_idx := 0;
     operation_hash := @fingerprint demo_runtime op_seven [] [];
     insert_timestamp := 50; timestamp := 50; status := st;
     payload := None; result := blob |}.

(** Another writer completing every attempt. *)
Definition complete_all (rows : list row) : list row :=
  map (set_status_result COMPLETED "blob") rows.

(** The window from 0 to 60, closed at time 100. *)
Definition closed_window : dict pyobj :=
  [("experiment_end_timestamp", PyInt 60)].


(** Four attempts at [f()] on branch 0: a failure, two completions and a
    pending one. *)
Definition attempt (id : uuid) (st : op_status) (its : Z) (ts : Q) : row :=
  {| row_idx := id; branch_idx := 0;
     operation_hash := @fingerprint demo_runtime op_seven [] [];
     insert_timestamp := its; timestamp := ts; status := st;
     payload := None; result := None |}.

Definition attempts : list row :=
  [attempt 3 FAILED 50 50; attempt 5 COMPLETED 70 55;
   attempt 6 COMPLETED 60 58; attempt 4 PENDING 40 30]%nat.

Definition best_attempt : row := attempt 6%nat COMPLETED 60 58.

(** A row stamped 5. *)
Definition row_at_5 : row := pending_row 1%nat 0 "h" 5 5.

(** Two spellings of one dictionary, and two dictionaries that differ in
    reserved keys only. *)
Definition kw_ab : dict pyobj := [("a", PyInt 0); ("b", PyInt 1)].
Definition kw_ba : dict pyobj := [("b", PyInt 1); ("a", PyInt 0)].
Definition kw_branch : dict pyobj :=
  [("a", PyInt 0); ("cache_branch", PyInt 1)].
Definition kw_worker : dict pyobj :=
  [("worker_id", PyStr "w"); ("a", PyInt 0)].

Definition statuses (t : option (list row)) : list op_status :=
  match t with
  | Some rows => map status rows
  | None => []
  end.

(** ** get_cache_record (lines 255-278) *)

(** Lines 262-267:
    [operation_hash = ? AND branch_idx = ? AND timestamp >= ?], and the end
    of the window unless it is infinite; no status, no ORDER BY. *)
Definition where_record (h : string) (b : Z) (s : Q) (e : pyfloat) (r : row)
  : bool :=
  String.eqb (operation_hash r) h
  && (branch_idx r =? b)%Z
  && in_timerange s e r.

Section UnusedMethod.
Context `{RT : PyRuntime}.

(** [fetchone()] yields the first matching row in the order of the
    table. *)
Definition get_cache_record (self : SQLiteCache) (operation_hash : string)
    (branch_idx : Z) (start_time : Q) (end_time : pyfloat)
  : M (option Any) :=
  with_conn self
    (rows <- execute_select
               (SelectRecord operation_hash branch_idx start_time
                  end_time) ;;
     match hd_error
             (filter
                (where_record operation_hash branch_idx start_time
                   end_time) rows) with
     | None => ret None
     | Some row =>
         v <- pickle_load (result row) ;;
         ret (Some v)
     end).
End UnusedMethod.

(** * dspy/predict/react.py: the ReAct module

    The framework classes the module builds on are taken as follows: a
    [dspy.OutputField] is its [prefix] and [desc]; a prediction is a
    dictionary of strings supporting item access and assignment; a
    predictor is a function of the question and the keyword arguments, one
    per step (a step calls its predictor once); [self.retrieve(q).passages]
    is a function of the query. *)

(** ** Strings of Python *)

(** [str(n)] and the rendering of [n] in an f-string. *)
Definition str_nat (n : nat) : string :=
  NilEmpty.string_of_uint (Nat.to_uint n).

(** [s.split(sep)] for a separator of one character. *)
Fixpoint split_on (sep : ascii) (s : string) : list string :=
  match s with
  | EmptyString => [EmptyString]
  | String c s' =>
      if Ascii.eqb c sep then EmptyString :: split_on sep s'
      else match split_on sep s' with
           | [] => [String c EmptyString]
           | piece :: pieces => String c piece :: pieces
           end
  end.

(** [sub in s] *)
Fixpoint contains (sub s : string) : bool :=
  String.prefix sub s
  || match s with
     | EmptyString => false
     | String _ s' => contains sub s'
     end.

(** [c in s] for one character. *)
Fixpoint has_char (c : ascii) (s : string) : bool :=
  match s with
  | EmptyString => false
  | String d s' => Ascii.eqb d c || has_char c s'
  end.

Definition newline : ascii := ascii_of_nat 10.

(** ** Dictionaries that are assigned to *)

(** [d[key] = value]: the value replaced where the key is, appended when it
    is new. *)
Fixpoint dict_set {V : Type} (d : dict V) (key : string) (value : V)
  : dict V :=
  match d with
  | [] => [(key, value)]
  | (k, v) :: d' =>
      if String.eqb k key then (k, value) :: d'
      else (k, v) :: dict_set d' key value
  end.

(** [d.update(other)] *)
Definition dict_update {V : Type} (d other : dict V) : dict V :=
  fold_left (fun acc kv => dict_set acc (fst kv) (snd kv)) other d.

(** ** _generate_signature and __init__ (lines 7-20) *)

(** A field of a signature: what the caller's signature gives for the
    question, or a [dspy.OutputField(prefix=..., desc=...)]. *)
Inductive field (F : Type) :=
| Given (f : F)
| OutputField (prefix desc : string).
Arguments Given {F} f.
Arguments OutputField {F} prefix desc.

Inductive react_exn :=
| KeyError (key : string)
| IndexError
| TypeError.

Definition thought_key (j : nat) : string := "Thought_" ++ str_nat j.
Definition action_key (j : nat) : string := "Action_" ++ str_nat j.
Definition observation_key (j : nat) : string :=
  "Observation_" ++ str_nat j.

Definition thought_field {F : Type} (j : nat) : field F :=
  OutputField ("Thought " ++ str_nat j ++ ":")
    "next steps to take based on last observation in history".

Definition action_field {F : Type} (j : nat) : field F :=
  OutputField ("Action " ++ str_nat j ++ ":")
    ("Search: prefix if querying based on question or thought or "
     ++ "Finish: prefix when found answer").

Definition observation_field {F : Type} (j : nat) : field F :=
  OutputField ("Observation " ++ str_nat j ++ ":")
    "observations based on action".

(** The body of the loop of lines 15-19 for one [j]. *)
Definition signature_step {F : Type} (iters : nat)
    (signature_dict : dict (field F)) (j : nat) : dict (field F) :=
  let signature_dict := dict_set signature_dict (thought_key j)
                          (thought_field j) in
  let signature_dict := dict_set signature_dict (action_key j)
                          (action_field j) in
  if (j <? iters)%nat
  then dict_set signature_dict (observation_key j) (observation_field j)
  else signature_dict.

(** [signature_kwargs] is [self.signature.kwargs]; the steps are counted by
    a natural number. *)
Definition _generate_signature {F : Type} (signature_kwargs : dict F)
    (iters : nat) : react_exn + dict (field F) :=
  match dict_get signature_kwargs "question" with
  | None => inl (KeyError "question")
  | Some question =>
      let signature_dict := [("question", Given question)] in
      inr (fold_left (signature_step iters) (seq 1 iters) signature_dict)
  end.

(** Line 11: the signatures the predictors of [__init__] are built from,
    one for each [i] of [range(1, max_iters + 1)]. *)
Fixpoint predictor_signatures_from {F : Type} (signature_kwargs : dict F)
    (steps : list nat) : react_exn + list (dict (field F)) :=
  match steps with
  | [] => inr []
  | i :: rest =>
      match _generate_signature signature_kwargs i with
      | inl e => inl e
      | inr sig =>
          match predictor_signatures_from signature_kwargs rest with
          | inl e => inl e
          | inr sigs => inr (sig :: sigs)
          end
      end
  end.

Definition predictor_signatures {F : Type} (signature_kwargs : dict F)
    (max_iters : nat) : react_exn + list (dict (field F)) :=
  predictor_signatures_from signature_kwargs (seq 1 max_iters).

(** ** forward (lines 22-30) *)

(** What [forward] returns: [dspy.Prediction(answer=...)] from inside the
    loop, or the last [output] after it. *)
Inductive forward_result :=
| Prediction (answer : string)
| LastOutput (output : dict string).

Section Forward.
Variable predictors : nat -> string -> dict string -> dict string.
Variable retrieve : string -> list string.

(** The loop over [range(max_iters)], [steps] the indices left. *)
Fixpoint forward_loop (steps : list nat) (kwargs : dict string)
    (output args : dict string) : react_exn + forward_result :=
  match steps with
  | [] => inr (LastOutput output)
  | i :: rest =>
      let args := dict_update args output in
      match dict_get kwargs "question" with
      | None => inl (KeyError "question")
      | Some question =>
          if key_in "question" (map fst args) then inl TypeError
          else
            let output := predictors i question args in
            match dict_get output (action_key (i + 1)) with
            | None => inl (KeyError (action_key (i + 1)))
            | Some action =>
                match split_on "[" action with
                | _ :: piece :: _ =>
                    let action_val := hd EmptyString (split_on "]" piece) in
                    if contains "Finish[" action
                    then inr (Prediction action_val)
                    else
                      match retrieve
                              (hd EmptyString (split_on newline action_val))
                      with
                      | [] => inl IndexError
                      | passage :: _ =>
                          forward_loop rest kwargs
                            (dict_set output (observation_key (i + 1))
                               passage) args
                      end
                | _ => inl IndexError
                end
            end
      end
  end.

Definition forward (max_iters : nat) (kwargs : dict string)
  : react_exn + forward_result :=
  forward_loop (seq 0 max_iters) kwargs [] [].
End Forward.

(** ** Vocabulary of the further properties *)

(** A keyword as the fingerprint sees it: its name and the text of its
    value. *)
Definition rendered `{PyRuntime} (kv : string * Any) : string * string :=
  (fst kv, py_str (snd kv)).

(** The worlds differ in their traces at most. *)
Definition same_store `{PyRuntime} (w w' : World) : Prop :=
  cache_table w' = cache_table w /\ unwritable w' = unwritable w
  /\ unopenable w' = unopenable w
  /\ env_path w' = env_path w /\ now w' = now w /\ timer w' = timer w
  /\ next_uuid w' = next_uuid w /\ later_uuids w' = later_uuids w
  /\ others w' = others w.

(** The end of one window is not later than the end of another. *)
Definition pyfloat_le (e e' : pyfloat) : Prop :=
  match e, e' with
  | _, PosInf => True
  | Finite a, Finite b => a <= b
  | PosInf, Finite _ => False
  end.

(** A client whose [__exit__] has run. *)
Definition closed_client : SQLiteCache := {| conn := Some Closed |}.

(** [k] is the key of a field of step [j]. *)
Definition step_key (k : string) (j : nat) : Prop :=
  k = thought_key j \/ k = action_key j \/ k = observation_key j.

(** What ends the answer read off an Action: the end of the text, or a
    bracket of either kind. *)
Definition stops_answer (tail : string) : Prop :=
  match tail with
  | EmptyString => True
  | String c _ => c = "["%char \/ c = "]"%char
  end.

(** The items of a signature for step [j] of [iters]. *)
Definition step_items {F : Type} (iters j : nat) : dict (field F) :=
  ((thought_key j, thought_field j) :: (action_key j, action_field j)
   :: (if (j <? iters)%nat
       then [(observation_key j, observation_field j)]
       else []))%list.

(** ** Samples for react.py *)

(** A predictor that searches and finishes in one Action, one that
    finishes with brackets inside the brackets, one that always searches,
    and a retriever with one passage for every query. *)
Definition finishing_predictors (i : nat) (question : string)
    (args : dict string) : dict string :=
  [(action_key (i + 1), "Search[x] Finish[y]")].

Definition nesting_predictors (i : nat) (question : string)
    (args : dict string) : dict string :=
  [(action_key (i + 1), "Finish[a[b]]")].

Definition searching_predictors (i : nat) (question : string)
    (args : dict string) : dict string :=
  [(action_key (i + 1), "Search[foo]")].

Definition echo_retrieve (query : string) : list string :=
  ["about " ++ query].

Definition asked : dict string := [("question", "q")].

Definition searching_output : dict string :=
  match forward searching_predictors echo_retrieve 2 asked with
  | inr (LastOutput output) => output
  | _ => []
  end.

Definition signature_of (iters : nat) : dict (field unit) :=
  match _generate_signature [("question", tt)] iters with
  | inr sig => sig
  | inl _ => []
  end.

(** A world whose table holds the four attempts. *)
Definition attempts_world : @World demo_runtime :=
  world_at_100 (Some attempts) [].

(** A world where the next identifier drawn is that of a row. *)
Definition taken_id_world : @World demo_runtime :=
  world_at_100 (Some [attempt 8%nat PENDING 40 30]) [].

(** * Properties *)

Unset Implicit Arguments.

(** ** The order of keyword names and the stable sort *)

Lemma string_leb_trans (a b c : string) :
  String.leb a b = true -> String.leb b c = true -> String.leb a c = true.
Proof.
  unfold String.leb. revert b c.
  induction a as [|x a IH]; intros [|y b] [|z c]; simpl; try congruence.
  unfold Ascii.compare.
  destruct (N.compare_spec (N_of_ascii x) (N_of_ascii y)) as [E1|L1|G1];
    try congruence;
    destruct (N.compare_spec (N_of_ascii y) (N_of_ascii z)) as [E2|L2|G2];
    try congruence;
    destruct (N.compare_spec (N_of_ascii x) (N_of_ascii z)) as [E3|L3|G3];
    try congruence; try lia.
  apply IH.
Qed.

Section SortedFacts.
Variable A : Type.
Variable leb : A -> A -> bool.
Hypothesis leb_total : forall a b, leb a b = true \/ leb b a = true.
Hypothesis leb_trans :
  forall a b c, leb a b = true -> leb b c = true -> leb a c = true.

Lemma insert_sorted_perm (x : A) (l : list A) :
  Permutation (x :: l) (insert_sorted leb x l).
Proof.
  induction l as [|y l IH]; simpl; [reflexivity|].
  destruct (leb x y); [reflexivity|].
  rewrite perm_swap. now constructor.
Qed.

Lemma sorted_perm (l : list A) : Permutation l (sorted leb l).
Proof.
  induction l as [|x l IH]; simpl; [constructor|].
  rewrite <- insert_sorted_perm. now constructor.
Qed.

Lemma insert_sorted_ordered (x : A) (l : list A) :
  StronglySorted (le_by leb) l -> StronglySorted (le_by leb) (insert_sorted leb x l).
Proof.
  induction 1 as [|y l Hl IH Hy]; simpl.
  - repeat constructor.
  - destruct (leb x y) eqn:E.
    + constructor; [now constructor|].
      constructor; [exact E|].
      eapply Forall_impl; [|exact Hy]. intros z Hz. eapply leb_trans; eauto.
    + constructor; [exact IH|].
      eapply Permutation_Forall; [apply insert_sorted_perm|].
      constructor; [|exact Hy].
      destruct (leb_total x y) as [H|H]; [congruence|exact H].
Qed.

Lemma sorted_ordered (l : list A) : StronglySorted (le_by leb) (sorted leb l).
Proof.
  induction l as [|x l IH]; simpl; [constructor|].
  now apply insert_sorted_ordered.
Qed.

(** The head of the sorted list is a least element of the list. *)
Lemma hd_sorted_least (l : list A) (x : A) :
  hd_error (sorted leb l) = Some x ->
  In x l /\ forall y, In y l -> leb x y = true.
Proof.
  intros H.
  pose proof (sorted_ordered l) as S.
  pose proof (sorted_perm l) as P.
  destruct (sorted leb l) as [|z s] eqn:E; [discriminate|].
  injection H as ->.
  split.
  - eapply Permutation_in; [symmetry; exact P|now left].
  - intros y Hy.
    apply (Permutation_in _ P) in Hy.
    apply StronglySorted_inv in S as [_ S].
    destruct Hy as [<-|Hy].
    + destruct (leb_total x x); assumption.
    + rewrite Forall_forall in S. now apply S.
Qed.

Lemma hd_sorted_none (l : list A) :
  hd_error (sorted leb l) = None <-> l = [].
Proof.
  split.
  - intros H. pose proof (sorted_perm l) as P.
    destruct (sorted leb l); [|discriminate].
    now apply Permutation_sym, Permutation_nil in P.
  - now intros ->.
Qed.

(** Two ordered lists with the same elements are the same list, provided
    the order tells the elements apart. *)
Lemma ordered_perm_unique (l1 l2 : list A) :
  StronglySorted (le_by leb) l1 -> StronglySorted (le_by leb) l2 -> Permutation l1 l2 ->
  (forall a b, In a l1 -> In b l1 -> (le_by leb) a b -> (le_by leb) b a -> a = b) ->
  l1 = l2.
Proof.
  intros S1. revert l2.
  induction S1 as [|a l1 S1 IH Ha]; intros l2 S2 P anti.
  - now apply Permutation_nil in P.
  - destruct S2 as [|b l2 S2 Hb].
    + now apply Permutation_sym, Permutation_nil in P.
    + assert (a = b) as <-.
      { assert (In b (a :: l1)) as Hin
          by (eapply Permutation_in; [symmetry; exact P|now left]).
        assert (In a (b :: l2)) as Hin'
          by (eapply Permutation_in; [exact P|now left]).
        destruct Hin as [->|Hin]; [reflexivity|].
        destruct Hin' as [->|Hin']; [reflexivity|].
        rewrite Forall_forall in Ha, Hb.
        apply anti; [now left|now right|now apply Ha|now apply Hb]. }
      f_equal. apply IH; [exact S2|now apply Permutation_cons_inv in P|].
      intros x y Hx Hy. apply anti; now right.
Qed.

(** Sorting forgets the order the elements came in. *)
Lemma sorted_of_permutation (l1 l2 : list A) :
  Permutation l1 l2 ->
  (forall a b, In a l1 -> In b l1 -> (le_by leb) a b -> (le_by leb) b a -> a = b) ->
  sorted leb l1 = sorted leb l2.
Proof.
  intros P anti.
  apply ordered_perm_unique; try apply sorted_ordered.
  - rewrite <- (sorted_perm l1), <- (sorted_perm l2). exact P.
  - intros a b Ha Hb. apply anti; eapply Permutation_in;
      try (symmetry; apply sorted_perm); assumption.
Qed.
End SortedFacts.

(** ** Dictionaries and the fingerprint *)

Lemma key_leb_total (V : Type) (a b : string * V) :
  key_leb a b = true \/ key_leb b a = true.
Proof. apply String.leb_total. Qed.

Lemma key_leb_trans (V : Type) (a b c : string * V) :
  key_leb a b = true -> key_leb b c = true -> key_leb a c = true.
Proof. apply string_leb_trans. Qed.

(** In a dictionary the key names the item. *)
Lemma dict_key_names_item (V : Type) (d : dict V) :
  NoDup (map fst d) ->
  forall a b, In a d -> In b d -> fst a = fst b -> a = b.
Proof.
  induction d as [|x d IH]; simpl; intros N a b Ha Hb E; [contradiction|].
  inversion N as [|? ? Hx N']; subst.
  destruct Ha as [->|Ha], Hb as [->|Hb]; auto.
  - exfalso. apply Hx. rewrite E. now apply in_map.
  - exfalso. apply Hx. rewrite <- E. now apply in_map.
Qed.

Lemma sorted_items_of_permutation (V : Type) (d1 d2 : dict V) :
  NoDup (map fst d1) -> Permutation d1 d2 ->
  sorted key_leb d1 = sorted key_leb d2.
Proof.
  intros N P.
  apply sorted_of_permutation;
    [apply key_leb_total|apply key_leb_trans|exact P|].
  intros a b Ha Hb Hab Hba.
  eapply dict_key_names_item; eauto.
  now apply String.leb_antisym.
Qed.

Lemma filter_keys_permutation (V : Type) (d1 d2 : dict V)
    (keys : list string) :
  Permutation d1 d2 ->
  Permutation (filter_keys d1 keys) (filter_keys d2 keys).
Proof.
  unfold filter_keys.
  induction 1 as [|x l l' P IH|x y l|l l' l'' P1 IH1 P2 IH2]; simpl.
  - constructor.
  - destruct (negb _); [now constructor|assumption].
  - destruct (negb (key_in (fst x) keys)), (negb (key_in (fst y) keys));
      try reflexivity.
    apply perm_swap.
  - now transitivity (filter (fun kv => negb (key_in (fst kv) keys)) l').
Qed.

Lemma filter_keys_nodup (V : Type) (d : dict V) (keys : list string) :
  NoDup (map fst d) -> NoDup (map fst (filter_keys d keys)).
Proof.
  unfold filter_keys.
  induction d as [|x d IH]; simpl; intros N; [constructor|].
  inversion N as [|? ? Hx N']; subst.
  destruct (negb _); simpl; [|auto].
  constructor; [|auto].
  intros Hin. apply Hx.
  apply in_map_iff in Hin as (y & E & Hy).
  apply filter_In in Hy as [Hy _].
  apply in_map_iff. now exists y.
Qed.

Lemma key_in_spec (key : string) (keys : list string) :
  key_in key keys = true <-> In key keys.
Proof.
  unfold key_in. rewrite existsb_exists. split.
  - intros (k & Hk & E). apply String.eqb_eq in E. now subst.
  - intros H. exists key. split; [exact H|apply String.eqb_refl].
Qed.

(** No item of the filtered dictionary bears an ignored key. *)
Lemma filter_keys_forgets (V : Type) (d : dict V) (keys : list string) :
  Forall (fun kv => ~ In (fst kv) keys) (filter_keys d keys).
Proof.
  apply Forall_forall. intros kv H.
  apply filter_In in H as [_ H].
  rewrite <- key_in_spec. now destruct (key_in (fst kv) keys).
Qed.

Lemma filter_keys_get_ignored (V : Type) (d : dict V)
    (keys : list string) (key : string) :
  In key keys -> dict_get (filter_keys d keys) key = None.
Proof.
  intros Hk. unfold filter_keys.
  induction d as [|[k v] d IH]; simpl; [reflexivity|].
  destruct (key_in k keys) eqn:E; simpl; [exact IH|].
  destruct (String.eqb_spec k key) as [->|_]; [|exact IH].
  apply key_in_spec in Hk. congruence.
Qed.

Section HashFacts.
Context `{RT : PyRuntime}.

Lemma hash_of_permutation (func : operation) (args : list Any)
    (kw1 kw2 : dict Any) :
  NoDup (map fst kw1) -> Permutation kw1 kw2 ->
  _hash func args kw1 = _hash func args kw2.
Proof.
  intros N P. unfold _hash.
  now rewrite (sorted_items_of_permutation _ _ _ N P).
Qed.
End HashFacts.

(** ** Reasoning about effects: what a computation adds to the trace *)

Section TraceFacts.
Context `{RT : PyRuntime}.

Lemma adds_only_refl P w : adds_only P w w.
Proof. now exists []. Qed.

Lemma adds_only_trans P w1 w2 w3 :
  adds_only P w1 w2 -> adds_only P w2 w3 -> adds_only P w1 w3.
Proof.
  intros (n1 & E1 & F1) (n2 & E2 & F2).
  exists (n2 ++ n1)%list. split.
  - now rewrite E2, E1, app_assoc.
  - now apply Forall_app.
Qed.

Lemma adds_only_impl (P Q : event -> Prop) w w' :
  (forall ev, P ev -> Q ev) -> adds_only P w w' -> adds_only Q w w'.
Proof.
  intros I (n & E & F). exists n. split; [exact E|].
  eapply Forall_impl; eauto.
Qed.

Lemma emits_ret A P (a : A) : emits_only P (ret a).
Proof. intros w. apply adds_only_refl. Qed.

Lemma emits_raise A P e : emits_only P (@raise _ A e).
Proof. intros w. apply adds_only_refl. Qed.

Lemma emits_get A P (f : World -> A) : emits_only P (get f).
Proof. intros w. apply adds_only_refl. Qed.

Lemma emits_set_table P t : emits_only P (set_table t).
Proof. intros w. now exists []. Qed.

Lemma emits_uuid4 P : emits_only P uuid4.
Proof. intros w. now exists []. Qed.

Lemma emits_emit (P : event -> Prop) ev : P ev -> emits_only P (emit ev).
Proof. intros H w. exists [ev]. split; [reflexivity|now constructor]. Qed.

Lemma emits_sleep (P : event -> Prop) d : P Sleep -> emits_only P (sleep d).
Proof. intros H w. exists [Sleep]. split; [reflexivity|now constructor]. Qed.

Lemma emits_bind A B P (c : M A) (k : A -> M B) :
  emits_only P c -> (forall a, emits_only P (k a)) ->
  emits_only P (bind c k).
Proof.
  intros Hc Hk w. unfold bind.
  specialize (Hc w). destruct (c w) as [[a|e] w']; simpl in *.
  - eapply adds_only_trans; [exact Hc|apply Hk].
  - exact Hc.
Qed.

Lemma emits_try_except A P (c : M A) (h : exn -> M A) :
  emits_only P c -> (forall e, emits_only P (h e)) ->
  emits_only P (try_except c h).
Proof.
  intros Hc Hh w. unfold try_except.
  specialize (Hc w). destruct (c w) as [[a|e] w']; simpl in *.
  - exact Hc.
  - eapply adds_only_trans; [exact Hc|apply Hh].
Qed.

Lemma emits_with_conn A P self (c : M A) :
  emits_only P c -> emits_only P (with_conn self c).
Proof.
  intros Hc. unfold with_conn.
  destruct (conn self) as [[|]|]; auto using emits_raise.
Qed.

Lemma emits_with_lock A (P : event -> Prop) (c : M A) :
  P Acquire -> P Release -> emits_only P c -> emits_only P (with_lock c).
Proof.
  intros HA HR Hc w. unfold with_lock.
  assert (adds_only P w (snd ((emit Acquire ;;; c) w))) as H
    by (apply emits_bind; [now apply emits_emit|intros _; exact Hc]).
  destruct ((emit Acquire ;;; c) w) as [r w']; simpl in *.
  eapply adds_only_trans; [exact H|].
  exists [Release]. split; [reflexivity|now constructor].
Qed.

Lemma emits_execute_select P stmt :
  P (Execute stmt) -> emits_only P (execute_select stmt).
Proof.
  intros H. unfold execute_select.
  apply emits_bind; [now apply emits_emit|intros _].
  apply emits_bind; [apply emits_get|intros [rows|]];
    [|apply emits_raise].
  destruct (bindable stmt); auto using emits_ret, emits_raise.
Qed.

Lemma emits_execute_write P stmt f :
  P (Execute stmt) -> emits_only P (execute_write stmt f).
Proof.
  intros H. unfold execute_write.
  apply emits_bind; [now apply emits_emit|intros _].
  apply emits_bind; [apply emits_get|intros t].
  apply emits_bind; [apply emits_get|intros ro].
  destruct t as [rows|]; [|apply emits_raise].
  destruct (bindable stmt); [|apply emits_raise].
  destruct ro; [apply emits_raise|].
  destruct (f rows); auto using emits_set_table, emits_raise.
Qed.
End TraceFacts.

(** ** What the methods and the wrapper add to the trace *)

Section MethodTraces.
Context `{RT : PyRuntime}.
Variable P : event -> Prop.

Lemma emits_check self h b s e st :
  P (Execute (SelectCount h b st s e)) ->
  emits_only P (check_if_record_exists_with_status self h b s e st).
Proof.
  intros H. unfold check_if_record_exists_with_status.
  apply emits_with_conn, emits_bind;
    [now apply emits_execute_select|intros rows; apply emits_ret].
Qed.

Lemma emits_retrieve self h b s e st wanted :
  P (Execute (SelectBest h b s e st)) ->
  emits_only P (retrieve_earliest_record self h b s e st wanted).
Proof.
  intros H. unfold retrieve_earliest_record.
  apply emits_with_conn, emits_bind;
    [now apply emits_execute_select|intros rows].
  destruct (fetch_best h b s e st rows) as [r|]; [|apply emits_ret].
  destruct wanted; [|apply emits_ret].
  apply emits_bind; [apply emits_raise|intros v; apply emits_ret].
Qed.

Lemma emits_insert self h b t :
  (forall id its, P (Execute (Insert (pending_row id b h its t)))) ->
  emits_only P (insert_operation_started self h b t).
Proof.
  intros H. unfold insert_operation_started.
  apply emits_bind; [apply emits_uuid4|intros id].
  apply emits_bind; [|intros _; apply emits_ret].
  apply emits_with_conn, emits_bind; [apply emits_get|intros its].
  now apply emits_execute_write.
Qed.

(** [pickle.dump] raises before any statement is issued. *)
Lemma emits_update self h b r s e id st :
  emits_only P (update_operation_status self h b r s e id st).
Proof. intros w. apply adds_only_refl. Qed.

Lemma emits_poll fuel self h b s e t0 :
  P Sleep ->
  P (Execute (SelectCount h b COMPLETED s e)) ->
  P (Execute (SelectBest h b s e (Some COMPLETED))) ->
  emits_only P (poll fuel self h b s e t0).
Proof.
  intros HS HC HB.
  induction fuel as [|fuel IH]; simpl; [apply emits_raise|].
  apply emits_bind; [apply emits_get|intros t].
  destruct (Qltb (t - t0) MAX_POLL_TIME); [|apply emits_raise].
  apply emits_bind; [now apply emits_check|intros [|]].
  - apply emits_bind; [now apply emits_retrieve|intros r; apply emits_ret].
  - apply emits_bind; [now apply emits_sleep|intros _; exact IH].
Qed.
End MethodTraces.

Section WrapperTraces.
Context `{RT : PyRuntime}.

Lemma emits_compute self func args kwargs h b s e t :
  emits_only (invocation_event h b s e t args kwargs)
    (compute self func args kwargs h b s e t).
Proof.
  unfold compute.
  apply emits_bind; [apply emits_insert; simpl; auto|intros id].
  apply emits_bind.
  { unfold call_func. apply emits_bind; [|intros _; apply emits_ret].
    apply emits_emit. simpl. auto. }
  intros [r|text].
  - apply emits_bind; [apply emits_update|intros _].
    apply emits_bind; [|intros r'; apply emits_ret].
    apply emits_retrieve. simpl. auto.
  - apply emits_bind; [apply emits_update|intros _; apply emits_raise].
Qed.

Lemma emits_lookup self func args kwargs h b s e t range :
  emits_only (invocation_event h b s e t args kwargs)
    (lookup self func args kwargs h b s e t range).
Proof.
  unfold lookup.
  apply emits_bind; [apply emits_check; simpl; auto|intros [|]].
  { apply emits_bind; [|intros r; apply emits_ret].
    apply emits_retrieve. simpl. auto. }
  apply emits_bind; [apply emits_check; simpl; auto|intros [|]].
  { apply emits_bind; [apply emits_get|intros t0].
    apply emits_poll; simpl; auto. }
  apply emits_bind; [apply emits_check; simpl; auto|intros failed].
  apply emits_bind.
  { destruct failed; [|apply emits_ret].
    destruct (pyfloat_ltb e t); [|apply emits_ret].
    apply emits_bind; [|intros r; apply emits_raise].
    apply emits_retrieve. simpl. auto. }
  intros _.
  destruct (pyfloat_ltb e t); [apply emits_raise|apply emits_compute].
Qed.
End WrapperTraces.

Section WrapperFacts.
Context `{RT : PyRuntime}.

(** Whatever the client, an invocation adds to the trace only effects for
    its own fingerprint, branch, window and request time, and calls the
    operation with the filtered keywords only. *)
Lemma emits_wrapper_body self func args kwargs w :
  adds_only
    (fun ev =>
       exists s e,
         window_of kwargs = Some (s, e)
         /\ invocation_event (fingerprint func args kwargs)
              (branch_of kwargs) s e (now w) args (forwarded kwargs) ev)
    w (snd (wrapper_body self func args kwargs w)).
Proof.
  unfold wrapper_body, bind at 1, datetime_now, get at 1. simpl.
  unfold window_of.
  destruct (get_float kwargs "experiment_start_timestamp" (Finite 0))
    as [[s|]|]; simpl; try apply adds_only_refl.
  destruct (isoformat s) as [from|]; simpl; try apply adds_only_refl.
  destruct (get_float kwargs "experiment_end_timestamp" PosInf)
    as [e|]; simpl; try apply adds_only_refl.
  assert (forall range,
    adds_only
      (fun ev => exists s0 e0, Some (s, e) = Some (s0, e0)
         /\ invocation_event (fingerprint func args kwargs)
              (branch_of kwargs) s0 e0 (now w) args (forwarded kwargs) ev)
      w
      (snd ((function_hash <- call_hash func args
               (filter_keys kwargs reserved_keys) ;;
             lookup self func args (filter_keys kwargs reserved_keys)
               function_hash (branch_of kwargs) s e (now w) range) w)))
    as H.
  { intros range. unfold call_hash.
    destruct (key_in "func" _); [apply adds_only_refl|].
    unfold bind, ret.
    eapply adds_only_impl; [|apply emits_lookup].
    intros ev Hev. now exists s, e. }
  destruct e as [e|]; [destruct (isoformat e) as [to|]|]; simpl;
    try apply adds_only_refl; apply H.
Qed.

(** The wrapper as written: the client is never entered, so the first
    statement against the store raises; nothing has been done by then. *)
Lemma wrapper_unentered func args kwargs w :
  snd (wrapper func args kwargs w) = w
  /\ (fst (wrapper func args kwargs w) = Raise TimerangeError
      \/ fst (wrapper func args kwargs w) = Raise HashTypeError
      \/ fst (wrapper func args kwargs w) = Raise NoContextManager).
Proof.
  unfold wrapper, wrapper_body, bind at 1, datetime_now, get at 1. simpl.
  destruct (get_float kwargs "experiment_start_timestamp" (Finite 0))
    as [[s|]|]; simpl; auto.
  destruct (isoformat s) as [from|]; simpl; auto.
  destruct (get_float kwargs "experiment_end_timestamp" PosInf)
    as [[e|]|]; simpl; auto.
  - destruct (isoformat e) as [to|]; simpl; auto.
    unfold bind, call_hash.
    destruct (key_in "func" _); simpl; auto.
  - unfold bind, call_hash.
    destruct (key_in "func" _); simpl; auto.
Qed.
End WrapperFacts.

(** ** Dictionaries as maps *)

Lemma dict_get_in (V : Type) (d : dict V) (k : string) (v : V) :
  NoDup (map fst d) -> (In (k, v) d <-> dict_get d k = Some v).
Proof.
  induction d as [|[k' v'] d IH]; simpl; intros N.
  - split; [contradiction|discriminate].
  - inversion N as [|? ? Hk N']; subst.
    destruct (String.eqb_spec k' k) as [->|Hne].
    + split.
      * intros [E|Hin]; [congruence|].
        exfalso. apply Hk. change k with (fst (k, v)). now apply in_map.
      * intros E. left. congruence.
    + rewrite <- (IH N'). split; [|now right].
      intros [E|Hin]; [congruence|exact Hin].
Qed.

(** Two dictionaries that are equal as maps hold the same items. *)
Lemma dict_ext_permutation (V : Type) (d1 d2 : dict V) :
  NoDup (map fst d1) -> NoDup (map fst d2) ->
  (forall k, dict_get d1 k = dict_get d2 k) -> Permutation d1 d2.
Proof.
  intros N1 N2 E.
  apply NoDup_Permutation; try (eapply NoDup_map_inv; eassumption).
  intros [k v].
  rewrite (dict_get_in V d1 k v N1), (dict_get_in V d2 k v N2), E.
  reflexivity.
Qed.

Lemma dict_get_filter_keys (V : Type) (d : dict V) (keys : list string)
    (k : string) :
  dict_get (filter_keys d keys) k
  = if key_in k keys then None else dict_get d k.
Proof.
  unfold filter_keys.
  induction d as [|[k' v] d IH]; simpl; [now destruct (key_in k keys)|].
  destruct (key_in k' keys) eqn:E'; simpl.
  - rewrite IH. destruct (String.eqb_spec k' k) as [->|_]; [|reflexivity].
    now rewrite E'.
  - rewrite IH. destruct (String.eqb_spec k' k) as [->|_]; [|reflexivity].
    now rewrite E'.
Qed.

(** ** C9: the fingerprint *)

(** C9.  The fingerprint is a function of the operation, the positional
    arguments and the keyword arguments as a map: two dictionaries that are
    equal as maps, in whatever order their keys came, have the same
    fingerprint.  The four reserved keywords are removed before hashing and
    before the call: invocations whose keywords agree outside the reserved
    ones have the same fingerprint; whatever the client, every statement of
    an invocation is issued for that fingerprint and every call of the
    operation is handed the filtered keywords, which hold no reserved key. *)
Theorem C9_fingerprint_deterministic_reserved_keys_stripped
    `{RT : PyRuntime} :
  (forall func args kw1 kw2,
      NoDup (map fst kw1) -> NoDup (map fst kw2) ->
      (forall k, dict_get kw1 k = dict_get kw2 k) ->
      _hash func args kw1 = _hash func args kw2)
  /\ (forall func args kw1 kw2,
        NoDup (map fst kw1) -> NoDup (map fst kw2) ->
        (forall k, ~ In k reserved_keys -> dict_get kw1 k = dict_get kw2 k) ->
        fingerprint func args kw1 = fingerprint func args kw2)
  /\ (forall self func args kwargs w,
        adds_only
          (uses_only (fingerprint func args kwargs) args (forwarded kwargs))
          w (snd (wrapper_body self func args kwargs w)))
  /\ (forall kwargs key,
        In key reserved_keys ->
        dict_get (forwarded kwargs) key = None
        /\ Forall (fun kv => fst kv <> key) (forwarded kwargs)).
Proof.
  split; [|split; [|split]].
  - intros func args kw1 kw2 N1 N2 E.
    apply hash_of_permutation; [exact N1|].
    now apply dict_ext_permutation.
  - intros func args kw1 kw2 N1 N2 E. unfold fingerprint, forwarded.
    apply hash_of_permutation; [now apply filter_keys_nodup|].
    apply dict_ext_permutation; try now apply filter_keys_nodup.
    intros k. rewrite !dict_get_filter_keys.
    destruct (key_in k reserved_keys) eqn:Hk; [reflexivity|].
    apply E. rewrite <- key_in_spec. congruence.
  - intros self func args kwargs w.
    eapply adds_only_impl; [|apply emits_wrapper_body].
    intros ev (s & e & _ & Hev).
    destruct ev as [| | |stmt| |a k]; simpl in *; auto.
    destruct stmt; simpl in *; try contradiction;
      intros h' [= <-]; intuition congruence.
  - intros kwargs key Hk. split.
    + now apply filter_keys_get_ignored.
    + eapply Forall_impl; [|apply filter_keys_forgets].
      intros kv Hkv E. apply Hkv. now rewrite E.
Qed.

(** ** LIKE on hex digests, the WHERE clauses, the ranking *)

Lemma lower_hex_plain (c : ascii) :
  is_lower_hex c = true ->
  ascii_lower c = c
  /\ Ascii.eqb c "%"%char = false /\ Ascii.eqb c "_"%char = false.
Proof.
  destruct c as [[] [] [] [] [] [] [] []]; intros H; vm_compute in H;
    try discriminate H; vm_compute; auto.
Qed.

(** On strings of hexadecimal digits LIKE is equality. *)
Lemma sql_like_hex (p s : string) :
  all_chars is_lower_hex p = true -> all_chars is_lower_hex s = true ->
  (sql_like p s = true <-> p = s).
Proof.
  revert s. induction p as [|c p IH]; intros s Hp Hs.
  - destruct s; simpl; split; try reflexivity; discriminate.
  - simpl in Hp. apply andb_true_iff in Hp as [Hc Hp].
    destruct (lower_hex_plain c Hc) as (Lc & E1 & E2).
    simpl. rewrite E1, E2.
    destruct s as [|d s]; [split; discriminate|].
    simpl in Hs. apply andb_true_iff in Hs as [Hd Hs].
    destruct (lower_hex_plain d Hd) as (Ld & _ & _).
    unfold ascii_eqb_nocase. rewrite Lc, Ld.
    rewrite andb_true_iff, (IH s Hp Hs), Ascii.eqb_eq.
    split; [intros [-> ->]; reflexivity|intros [= -> ->]; auto].
Qed.

Lemma is_hexdigest_chars (s : string) :
  is_hexdigest s = true -> all_chars is_lower_hex s = true.
Proof. unfold is_hexdigest. now intros [_ H]%andb_true_iff. Qed.

Lemma status_eqb_eq (a b : op_status) : status_eqb a b = true <-> a = b.
Proof. destruct a, b; split; intros H; try reflexivity; discriminate H. Qed.

Lemma in_timerange_spec (s : Q) (e : pyfloat) (r : row) :
  in_timerange s e r = true
  <-> s <= timestamp r
      /\ match e with
         | PosInf => True
         | Finite e' => timestamp r <= e'
         end.
Proof.
  unfold in_timerange. rewrite andb_true_iff, Qle_bool_iff.
  destruct e as [e'|]; [rewrite Qle_bool_iff|]; intuition.
Qed.

Lemma where_exists_spec h b st s e r :
  where_exists h b st s e r = true
  <-> considered h b s e r /\ status r = st.
Proof.
  unfold where_exists, considered.
  rewrite !andb_true_iff, String.eqb_eq, Z.eqb_eq, status_eqb_eq,
    in_timerange_spec.
  tauto.
Qed.

Lemma where_retrieve_spec h b s e st r :
  all_chars is_lower_hex h = true ->
  all_chars is_lower_hex (operation_hash r) = true ->
  (where_retrieve h b s e st r = true
   <-> considered h b s e r /\ status_wanted st r).
Proof.
  intros Hh Hr. unfold where_retrieve, considered, status_wanted.
  rewrite !andb_true_iff, (sql_like_hex _ _ Hh Hr), Z.eqb_eq,
    in_timerange_spec.
  destruct st as [st'|]; [rewrite status_eqb_eq|]; intuition.
Qed.

Lemma order_best_spec (r1 r2 : row) :
  order_best r1 r2 = true
  <-> (status_code (status r2) < status_code (status r1))%Z
      \/ (status r1 = status r2
          /\ (insert_timestamp r1 <= insert_timestamp r2)%Z).
Proof.
  unfold order_best.
  rewrite orb_true_iff, andb_true_iff, Z.ltb_lt, Z.eqb_eq, Z.leb_le.
  assert (status_code (status r1) = status_code (status r2)
          <-> status r1 = status r2) as ->; [|tauto].
  destruct (status r1), (status r2); split; intros H;
    try reflexivity; discriminate H.
Qed.

Lemma order_best_total (r1 r2 : row) :
  order_best r1 r2 = true \/ order_best r2 r1 = true.
Proof.
  rewrite !order_best_spec.
  destruct (Z.le_ge_cases (insert_timestamp r1) (insert_timestamp r2));
    destruct (status r1), (status r2); simpl;
    first [ left; left; lia
          | right; left; lia
          | left; right; split; [reflexivity|lia]
          | right; right; split; [reflexivity|lia] ].
Qed.

Lemma order_best_trans (r1 r2 r3 : row) :
  order_best r1 r2 = true -> order_best r2 r3 = true ->
  order_best r1 r3 = true.
Proof.
  rewrite !order_best_spec.
  intros [H1|[E1 H1]] [H2|[E2 H2]].
  - left. lia.
  - left. rewrite <- E2. exact H1.
  - left. rewrite E1. exact H2.
  - right. split; [congruence|lia].
Qed.

(** The row the retrieval query yields is a considered one of highest
    status and, among those, of earliest insertion. *)
Lemma fetch_best_spec h b s e st rows :
  match fetch_best h b s e st rows with
  | None => forall r, In r rows -> where_retrieve h b s e st r = false
  | Some best =>
      In best rows /\ where_retrieve h b s e st best = true
      /\ forall r, In r rows -> where_retrieve h b s e st r = true ->
           (status_code (status r) <= status_code (status best))%Z
           /\ (status r = status best ->
               (insert_timestamp best <= insert_timestamp r)%Z)
  end.
Proof.
  unfold fetch_best.
  destruct (hd_error _) as [best|] eqn:E.
  - apply (hd_sorted_least _ _ order_best_total order_best_trans) in E
      as [Hin Hmin].
    apply filter_In in Hin as [Hin Hw].
    repeat split; auto.
    + assert (order_best best r = true) as Ho
        by (apply Hmin, filter_In; auto).
      apply order_best_spec in Ho. destruct Ho as [Ho|[Ho _]]; [lia|].
      rewrite Ho. lia.
    + intros Es.
      assert (order_best best r = true) as Ho
        by (apply Hmin, filter_In; auto).
      apply order_best_spec in Ho. destruct Ho as [Ho|[_ Ho]]; [|exact Ho].
      rewrite Es in Ho. lia.
  - apply hd_sorted_none in E.
    intros r Hin.
    destruct (where_retrieve h b s e st r) eqn:Hw; [|reflexivity].
    assert (In r (filter (where_retrieve h b s e st) rows)) as Hf
      by (apply filter_In; auto).
    rewrite E in Hf. contradiction.
Qed.

(** ** The methods on an entered client *)

Lemma where_retrieve_matched h b s e st r :
  where_retrieve h b s e st r = true <-> matched h b s e st r.
Proof.
  unfold where_retrieve, matched, status_wanted.
  rewrite !andb_true_iff, Z.eqb_eq, in_timerange_spec.
  destruct st as [st'|]; [rewrite status_eqb_eq|]; intuition.
Qed.

Lemma fetch_best_found h b s e st rows :
  (exists r, In r rows /\ matched h b s e st r)
  <-> fetch_best h b s e st rows <> None.
Proof.
  pose proof (fetch_best_spec h b s e st rows) as H.
  destruct (fetch_best h b s e st rows) as [best|]; split.
  - discriminate.
  - intros _. destruct H as (Hin & Hw & _). exists best.
    split; [exact Hin|now apply where_retrieve_matched].
  - intros (r & Hin & Hm). apply where_retrieve_matched in Hm.
    rewrite (H r Hin) in Hm. discriminate.
  - congruence.
Qed.

Section OpenedClient.
Context `{RT : PyRuntime}.

Lemma check_opened h b s e st w rows :
  cache_table w = Some rows ->
  window_binds b s e = true ->
  check_if_record_exists_with_status opened_client h b s e st w
  = (Ok (0 <? List.length (filter (where_exists h b st s e) rows))%nat,
     log (Execute (SelectCount h b st s e)) w).
Proof.
  intros E Hb.
  unfold check_if_record_exists_with_status, with_conn, execute_select,
    bindable, bind, get, emit, log, ret; simpl.
  now rewrite E, Hb.
Qed.

Lemma check_unbound h b s e st w rows :
  cache_table w = Some rows ->
  window_binds b s e = false ->
  check_if_record_exists_with_status opened_client h b s e st w
  = (Raise OverflowError, log (Execute (SelectCount h b st s e)) w).
Proof.
  intros E Hb.
  unfold check_if_record_exists_with_status, with_conn, execute_select,
    bindable, bind, get, emit, log, ret; simpl.
  now rewrite E, Hb.
Qed.

Lemma retrieve_opened h b s e st wanted w rows :
  cache_table w = Some rows ->
  window_binds b s e = true ->
  retrieve_earliest_record opened_client h b s e st wanted w
  = (match fetch_best h b s e st rows with
     | None => Ok (false, None)
     | Some r => if wanted then Raise PickleTypeError else Ok (true, None)
     end,
     log (Execute (SelectBest h b s e st)) w).
Proof.
  intros E Hb.
  unfold retrieve_earliest_record, with_conn, execute_select,
    bindable, bind, get, emit, log, ret; simpl.
  rewrite E, Hb.
  destruct (fetch_best h b s e st rows) as [r|]; [|reflexivity].
  now destruct wanted.
Qed.

Lemma check_opened_true h b s e st rows :
  (0 <? List.length (filter (where_exists h b st s e) rows))%nat = true
  <-> exists r, In r rows /\ considered h b s e r /\ status r = st.
Proof.
  rewrite Nat.ltb_lt. split.
  - destruct (filter _ rows) as [|r l] eqn:E; simpl; [lia|intros _].
    assert (In r (filter (where_exists h b st s e) rows)) as Hin
      by (rewrite E; now left).
    apply filter_In in Hin as [Hin Hw].
    apply where_exists_spec in Hw. now exists r.
  - intros (r & Hin & Hc & Hs).
    assert (In r (filter (where_exists h b st s e) rows)) as Hf
      by (apply filter_In; split; [exact Hin|now apply where_exists_spec]).
    destruct (filter _ rows); [contradiction|simpl; lia].
Qed.

Lemma no_record_counted h b s e st rows :
  (forall r, In r rows -> ~ (considered h b s e r /\ status r = st)) ->
  (0 <? List.length (filter (where_exists h b st s e) rows))%nat = false.
Proof.
  intros Hnone.
  destruct (0 <? _)%nat eqn:E; [|reflexivity].
  apply check_opened_true in E as (r & Hin & Hc & Hs).
  exfalso. apply (Hnone r Hin). auto.
Qed.

Lemma retrieve_unbound h b s e st wanted w rows :
  cache_table w = Some rows ->
  window_binds b s e = false ->
  retrieve_earliest_record opened_client h b s e st wanted w
  = (Raise OverflowError, log (Execute (SelectBest h b s e st)) w).
Proof.
  intros E Hb.
  unfold retrieve_earliest_record, with_conn, execute_select,
    bindable, bind, get, emit, log, ret; simpl.
  now rewrite E, Hb.
Qed.

(** Whatever the client and the world, the retrieval hands back no
    record. *)
Lemma retrieve_no_record self f b s e st wanted w found res :
  fst (retrieve_earliest_record self f b s e st wanted w) = Ok (found, res) ->
  res = None.
Proof.
  unfold retrieve_earliest_record, with_conn, execute_select, bind, get,
    emit, ret, raise, pickle_load.
  destruct self as [[[|]|]]; simpl; try discriminate.
  destruct (cache_table w) as [rows|]; simpl; [|discriminate].
  first [destruct (window_binds _ _ _)|destruct (row_binds _ _)]; simpl;
    [|discriminate].
  destruct (fetch_best f b s e st rows); simpl; [|congruence].
  destruct wanted; simpl; [discriminate|congruence].
Qed.
End OpenedClient.

(** ** C5: what the queries filter, and what the retrieval returns *)

(** C5.  The existence check filters as stated: on an entered client, for
    a branch and a window that can be bound, it answers true iff some row
    has the
    fingerprint [f], the branch [b], the status and a timestamp with
    [s <= timestamp], and [timestamp <= e] unless [e] is infinite; a row
    stamped 5 is in the window from 0 to 10 and not in the window from 6 to
    10.  The retrieval does not return the best record, nor any record:
    whatever the client and the world, when it returns, the second component
    of what it returns is [None].  On an entered client its outcome depends
    only on whether some row is matched: with a matched row it raises at
    [pickle.load] when the record is asked for and returns [(True, None)]
    otherwise; with none it returns [(False, None)].  A row is matched when
    its fingerprint is LIKE [f], not when it equals [f]: over the four
    attempts at [f()] the pattern [%], the fingerprint of no row, is
    answered found by the retrieval and not found by the existence check.
    Asked for the best of the four attempts, the retrieval raises. *)
Theorem C5_retrieval_returns_no_record :
  (forall (RT : PyRuntime) f b s e st w rows,
      cache_table w = Some rows ->
      window_binds b s e = true ->
      exists found,
        fst (check_if_record_exists_with_status opened_client f b s e st w)
        = Ok found
        /\ (found = true
            <-> exists r, In r rows /\ considered f b s e r /\ status r = st))
  /\ (forall r, timestamp r == 5 ->
        in_timerange 0 (Finite 10) r = true
        /\ in_timerange 6 (Finite 10) r = false)
  /\ (forall (RT : PyRuntime) self f b s e st wanted w found res,
        fst (retrieve_earliest_record self f b s e st wanted w)
        = Ok (found, res) ->
        res = None)
  /\ (forall (RT : PyRuntime) f b s e st wanted w rows,
        cache_table w = Some rows ->
        window_binds b s e = true ->
        ((exists r, In r rows /\ matched f b s e st r) ->
         fst (retrieve_earliest_record opened_client f b s e st wanted w)
         = if wanted then Raise PickleTypeError else Ok (true, None))
        /\ ((forall r, In r rows -> ~ matched f b s e st r) ->
            fst (retrieve_earliest_record opened_client f b s e st wanted w)
            = Ok (false, None)))
  /\ (fst (@retrieve_earliest_record demo_runtime opened_client "%" 0 0
             (Finite 60) (Some COMPLETED) false attempts_world)
      = Ok (true, None)
      /\ fst (@check_if_record_exists_with_status demo_runtime opened_client
                "%" 0 0 (Finite 60) COMPLETED attempts_world)
         = Ok false
      /\ forall r, In r attempts -> operation_hash r <> "%")
  /\ fst (@retrieve_earliest_record demo_runtime opened_client
            (@fingerprint demo_runtime op_seven [] []) 0 0 (Finite 60) None
            true attempts_world)
     = Raise PickleTypeError.
Proof.
  split; [|split; [|split; [|split; [|split]]]].
  - intros RT f b s e st w rows E Hb.
    rewrite (check_opened _ _ _ _ _ _ _ E Hb). simpl.
    eexists. split; [reflexivity|apply check_opened_true].
  - intros r Hr. split.
    + apply in_timerange_spec. simpl. split; lra.
    + destruct (in_timerange 6 (Finite 10) r) eqn:E; [|reflexivity].
      apply in_timerange_spec in E. simpl in E. lra.
  - intros RT self f b s e st wanted w found res.
    apply retrieve_no_record.
  - intros RT f b s e st wanted w rows E Hb.
    rewrite (retrieve_opened _ _ _ _ _ _ _ _ E Hb). simpl.
    pose proof (fetch_best_found f b s e st rows) as Hfound.
    destruct (fetch_best f b s e st rows) as [best|]; split.
    + reflexivity.
    + intros Hnone. exfalso.
      destruct (proj2 Hfound) as (r & Hin & Hm); [discriminate|].
      exact (Hnone r Hin Hm).
    + intros Hsome. apply Hfound in Hsome. congruence.
    + reflexivity.
  - split; [vm_compute; reflexivity|split; [vm_compute; reflexivity|]].
    intros r Hin.
    simpl in Hin. destruct Hin as [<-|[<-|[<-|[<-|[]]]]]; discriminate.
  - vm_compute. reflexivity.
Qed.

(** ** C10: the compute path stamps the request time *)


Section Insertion.
Context `{RT : PyRuntime}.

Lemma insert_opened h b t w rows :
  cache_table w = Some rows ->
  row_binds b t = true ->
  unwritable w = false ->
  (forall r, In r rows -> row_idx r <> next_uuid w) ->
  let r := pending_row (next_uuid w) b h (Qfloor (now w)) t in
  fst (insert_operation_started opened_client h b t w) = Ok (next_uuid w)
  /\ cache_table (snd (insert_operation_started opened_client h b t w))
     = Some (rows ++ [stored r])%list
  /\ trace (snd (insert_operation_started opened_client h b t w))
     = Execute (Insert r) :: trace w.
Proof.
  intros E Hb U Hfresh r.
  assert (existsb (fun r' => (row_idx r' =? next_uuid w)%nat) rows = false)
    as Hex.
  { destruct (existsb _ rows) eqn:X; [|reflexivity].
    apply existsb_exists in X as (r' & Hin & Heq).
    apply Nat.eqb_eq in Heq. now apply Hfresh in Hin. }
  unfold insert_operation_started, with_conn, execute_write, bindable, bind,
    uuid4, datetime_now, get, emit, ret, set_table, insert_row; simpl.
  rewrite E, Hb, U. simpl. rewrite Hex. simpl. auto.
Qed.





End Insertion.


(** ** The wrapper as written: C1, C2, C4, C6, C7, C8 *)

Lemma wrapper_raises `{RT : PyRuntime} func args kwargs w :
  exists e, wrapper func args kwargs w = (Raise e, w).
Proof.
  destruct (wrapper_unentered func args kwargs w) as [E H].
  destruct (wrapper func args kwargs w) as [r w']; simpl in *. subst w'.
  destruct H as [ -> | [ -> | -> ] ]; eauto.
Qed.

(** C1.  Idempotence does not hold of the code.  Two invocations of the
    wrapper in a row both raise and the operation is called by neither: the
    client built at line 294 is never entered, so the first existence check
    raises on [with self.conn].  On [f()] over a fresh file both raise at
    that check.  Run on an entered client instead, lines 296-426 call the
    operation once in the first invocation, then raise at [pickle.dump] and
    leave the row Pending; the second invocation polls that row until the
    timeout. *)
Theorem C1_two_invocations_never_return :
  (forall (RT : PyRuntime) func args kwargs w,
      let first := wrapper func args kwargs w in
      let second := wrapper func args kwargs (snd first) in
      (exists e, fst first = Raise e)
      /\ (exists e, fst second = Raise e)
      /\ calls (trace (snd second)) = calls (trace w))
  /\ (let first := @wrapper demo_runtime op_seven [] [] fresh_world in
      let second := @wrapper demo_runtime op_seven [] [] (snd first) in
      fst first = Raise NoContextManager
      /\ fst second = Raise NoContextManager
      /\ calls (trace (snd second)) = 0%nat)
  /\ (let first :=
        @wrapper_body demo_runtime opened_client op_seven [] []
          entered_world in
      let second :=
        @wrapper_body demo_runtime opened_client op_seven [] [] (snd first) in
      fst first = Raise PickleTypeError
      /\ statuses (cache_table (snd first)) = [PENDING]
      /\ fst second
         = Raise (PyException
                    "Failed to retrieve result from cache after polling.")
      /\ calls (trace (snd second)) = 1%nat).
Proof.
  split; [|split].
  - intros RT func args kwargs w first second. subst first second.
    destruct (wrapper_raises func args kwargs w) as [e1 E1].
    rewrite E1. simpl.
    destruct (wrapper_raises func args kwargs w) as [e2 E2].
    rewrite E2. simpl. eauto.
  - vm_compute. auto.
  - vm_compute. auto.
Qed.

(** C2.  The wrapper does not initialise the store.  An invocation leaves
    the world as it found it, no connection opened and no table created,
    and raises: at line 302, at the call of [_hash], or, past these, at the
    first [with self.conn] on the client that was never entered.  On [f()]
    over a fresh file it raises there.  [__enter__], which nothing calls,
    does connect and create the table under the lock, returning nothing and
    leaving the connection on the client; it raises when the table cannot
    be created. *)
Theorem C2_wrapper_never_enters_the_store :
  (forall (RT : PyRuntime) func args kwargs w,
      snd (wrapper func args kwargs w) = w
      /\ (fst (wrapper func args kwargs w) = Raise TimerangeError
          \/ fst (wrapper func args kwargs w) = Raise HashTypeError
          \/ fst (wrapper func args kwargs w) = Raise NoContextManager))
  /\ @wrapper demo_runtime op_seven [] [] fresh_world
     = (Raise NoContextManager, fresh_world)
  /\ (let entered :=
        @__enter__ demo_runtime __init__ fresh_world in
      fst entered = (Ok tt, opened_client)
      /\ cache_table (snd entered) = Some []
      /\ trace (snd entered)
         = [Release; Execute CreateTable; Acquire;
            Connect "sqlite_cache.db"])
  /\ fst (@__enter__ demo_runtime __init__ unwritable_world)
     = (Raise OperationalError, opened_client).
Proof.
  split; [|split; [|split]].
  - intros RT func args kwargs w. apply wrapper_unentered.
  - vm_compute. reflexivity.
  - vm_compute. auto.
  - vm_compute. reflexivity.
Qed.

(** C3.  Only the creation of the table takes the lock.  On an entered
    client the existence check, the retrieval and the insertion each issue
    their statement with no acquisition before it and no release after it,
    while [create_table_if_not_exists] brackets its statement with both; the
    status update raises before it issues anything.  The effects of
    [__enter__] followed by an insertion and an existence check do not pass
    the check that the lock is held at every statement; those of
    [__enter__] alone do. *)
Theorem C3_statements_issued_without_the_lock :
  (forall (RT : PyRuntime) h b s e st st' wanted t w,
      trace (snd (check_if_record_exists_with_status opened_client h b s e
                    st w))
      = Execute (SelectCount h b st s e) :: trace w
      /\ trace (snd (retrieve_earliest_record opened_client h b s e st'
                       wanted w))
         = Execute (SelectBest h b s e st') :: trace w
      /\ trace (snd (insert_operation_started opened_client h b t w))
         = Execute
             (Insert (pending_row (next_uuid w) b h (Qfloor (now w)) t))
           :: trace w
      /\ trace (snd (create_table_if_not_exists opened_client w))
         = Release :: Execute CreateTable :: Acquire :: trace w)
  /\ (let entered :=
        @__enter__ demo_runtime __init__ fresh_world in
      let inserted :=
        @insert_operation_started demo_runtime opened_client
          (@fingerprint demo_runtime op_seven [] []) 0 100 (snd entered) in
      let checked :=
        @check_if_record_exists_with_status demo_runtime opened_client
          (@fingerprint demo_runtime op_seven [] []) 0 0 PosInf PENDING
          (snd inserted) in
      serialized false (rev (trace (snd entered))) = true
      /\ serialized false (rev (trace (snd inserted))) = false
      /\ fst checked = Ok true
      /\ serialized false (rev (trace (snd checked))) = false).
Proof.
  split.
  - intros RT h b s e st st' wanted t w. repeat split.
    + unfold check_if_record_exists_with_status, with_conn, execute_select,
        bind, get, emit; simpl.
      destruct (cache_table w); [|reflexivity].
      now destruct (window_binds _ _ _).
    + unfold retrieve_earliest_record, with_conn, execute_select,
        bind, get, emit; simpl.
      destruct (cache_table w) as [rows|]; [|reflexivity]. simpl.
      destruct (window_binds _ _ _); [|reflexivity]. simpl.
      destruct (fetch_best h b s e st' rows); [|reflexivity].
      now destruct wanted.
    + unfold insert_operation_started, with_conn, execute_write, bind,
        uuid4, datetime_now, get, emit; simpl.
      destruct (cache_table w) as [rows|]; [|reflexivity].
      destruct (row_binds _ _); [|reflexivity].
      destruct (unwritable w); [reflexivity|].
      now destruct (insert_row _ rows).
    + unfold create_table_if_not_exists, with_lock, with_conn, try_except,
        execute_create, bind, get, emit; simpl.
      destruct (cache_table w) as [rows|]; [reflexivity|].
      now destruct (unwritable w).
  - vm_compute. auto.
Qed.

(** C4.  The failure of the operation is neither stored nor raised again.
    [update_operation_status] raises at [pickle.dump] before it issues any
    statement, whatever its arguments.  On [f()] raising [boom]: the wrapper
    raises at the first existence check and never calls [f]; run on an
    entered client instead, lines 296-426 call [f] once, its row stays
    Pending with no result, and the caller gets the TypeError of
    [pickle.dump], not the failure of [f]. *)
Theorem C4_failure_neither_stored_nor_reraised :
  (forall (RT : PyRuntime) self h b r s e id st w,
      update_operation_status self h b r s e id st w
      = (Raise PickleTypeError, w))
  /\ @wrapper demo_runtime op_boom [] [] fresh_world
     = (Raise NoContextManager, fresh_world)
  /\ (let run :=
        @wrapper_body demo_runtime opened_client op_boom [] []
          entered_world in
      fst run = Raise PickleTypeError
      /\ fst run <> Raise (OperationError "boom")
      /\ calls (trace (snd run)) = 1%nat
      /\ statuses (cache_table (snd run)) = [PENDING]
      /\ option_map (map result) (cache_table (snd run)) = Some [None]).
Proof.
  split; [|split].
  - reflexivity.
  - vm_compute. reflexivity.
  - vm_compute. repeat split; try reflexivity. discriminate.
Qed.

(** C6.  A Pending record is not polled by the wrapper as written: no
    invocation lets the timer advance or raises the polling failure.  On
    [f()] with an earlier Pending attempt in the window it raises at the
    first existence check, at once, the timer where it was.  Run on an
    entered client instead, lines 296-426 do poll without calling [f]: they
    raise the polling failure once the timer has passed ten seconds; and
    when another writer completes the attempt meanwhile, they raise at
    [pickle.load] instead of returning the result. *)
Theorem C6_pending_record_polled_only_on_entered_client :
  (forall (RT : PyRuntime) func args kwargs w,
      timer (snd (wrapper func args kwargs w)) = timer w
      /\ fst (wrapper func args kwargs w) <> Raise poll_failed)
  /\ (let w := world_at_100 (Some [earlier_attempt PENDING None]) [] in
      @wrapper demo_runtime op_seven [] [] w = (Raise NoContextManager, w))
  /\ (let run :=
        @wrapper_body demo_runtime opened_client op_seven [] []
          (world_at_100 (Some [earlier_attempt PENDING None]) []) in
      fst run
      = Raise (PyException
                 "Failed to retrieve result from cache after polling.")
      /\ timer (snd run) = 5001 # 500
      /\ calls (trace (snd run)) = 0%nat
      /\ statuses (cache_table (snd run)) = [PENDING])
  /\ (let run :=
        @wrapper_body demo_runtime opened_client op_seven [] []
          (world_at_100 (Some [earlier_attempt PENDING None])
             [fun rows => rows; complete_all]) in
      fst run = Raise PickleTypeError
      /\ timer (snd run) = 3 # 500
      /\ calls (trace (snd run)) = 0%nat
      /\ statuses (cache_table (snd run)) = [COMPLETED]).
Proof.
  split; [|split; [|split]]; try (vm_compute; auto; fail).
  intros RT func args kwargs w.
  destruct (wrapper_unentered func args kwargs w) as [E H].
  rewrite E. split; [reflexivity|].
  destruct H as [H|[H|H]]; rewrite H; discriminate.
Qed.

(** C7.  The wrapper as written never raises the missing-record failure,
    nor any plain [Exception]; it never calls the operation.  On a closed
    window with no record it raises at the first existence check.  Run on
    an entered client instead, the three existence checks answer no and the
    missing-record failure is raised, the operation not called. *)
Theorem C7_closed_window_miss_raises_at_first_check :
  (forall (RT : PyRuntime) func args kwargs w msg,
      fst (wrapper func args kwargs w) <> Raise (PyException msg)
      /\ calls (trace (snd (wrapper func args kwargs w))) = calls (trace w))
  /\ @wrapper demo_runtime op_seven [] closed_window entered_world
     = (Raise NoContextManager, entered_world)
  /\ (let run :=
        @wrapper_body demo_runtime opened_client op_seven [] closed_window
          entered_world in
      fst run
      = Raise (PyException
                 ("Cache does not exist for the given experiment "
                  ++ "timerange of between " ++ "t and t" ++ "."))
      /\ calls (trace (snd run)) = 0%nat
      /\ statuses (cache_table (snd run)) = []).
Proof.
  split; [|split]; try (vm_compute; auto; fail).
  intros RT func args kwargs w msg.
  destruct (wrapper_unentered func args kwargs w) as [E H].
  rewrite E. split; [|reflexivity].
  destruct H as [H|[H|H]]; rewrite H; discriminate.
Qed.

(** C8.  A stored failure is not replayed and nothing is recomputed: the
    wrapper as written leaves the world as it found it and raises no plain
    [Exception].  On [f()] with an earlier Failed attempt holding [boom]
    and a window closed before the request time, it raises at the first
    existence check; run on an entered client instead, lines 296-426 raise
    at [pickle.load], not an exception carrying [boom], the operation not
    called.  With the window still open, on an entered client they do fall
    through: a new Pending row is inserted and the operation called once
    (after which [pickle.dump] raises). *)
Theorem C8_stored_failure_not_replayed :
  (forall (RT : PyRuntime) func args kwargs w,
      snd (wrapper func args kwargs w) = w
      /\ forall msg,
           fst (wrapper func args kwargs w) <> Raise (PyException msg))
  /\ (let w :=
        world_at_100 (Some [earlier_attempt FAILED (Some "boom")]) [] in
      @wrapper demo_runtime op_seven [] closed_window w
      = (Raise NoContextManager, w))
  /\ (let run :=
        @wrapper_body demo_runtime opened_client op_seven [] closed_window
          (world_at_100 (Some [earlier_attempt FAILED (Some "boom")]) []) in
      fst run = Raise PickleTypeError
      /\ calls (trace (snd run)) = 0%nat
      /\ statuses (cache_table (snd run)) = [FAILED])
  /\ (let run :=
        @wrapper_body demo_runtime opened_client op_seven [] []
          (world_at_100 (Some [earlier_attempt FAILED (Some "boom")]) []) in
      fst run = Raise PickleTypeError
      /\ calls (trace (snd run)) = 1%nat
      /\ statuses (cache_table (snd run)) = [FAILED; PENDING]).
Proof.
  split; [|split; [|split]]; try (vm_compute; auto; fail).
  intros RT func args kwargs w.
  destruct (wrapper_unentered func args kwargs w) as [E H].
  split; [exact E|]. intros msg.
  destruct H as [H|[H|H]]; rewrite H; discriminate.
Qed.

(** ** No invocation returns, and the polling bound is never reached *)

Lemma like_star_intro (p t : string) :
  sql_like p t = true ->
  (fix star (t0 : string) : bool :=
     sql_like p t0
     || match t0 with
        | EmptyString => false
        | String _ t' => star t'
        end) t = true.
Proof. intros H. destruct t; simpl; rewrite H; reflexivity. Qed.

(** A pattern matches itself. *)
Lemma sql_like_refl (h : string) : sql_like h h = true.
Proof.
  induction h as [|c h IH]; simpl; [reflexivity|].
  destruct (Ascii.eqb c "%"%char).
  - apply orb_true_iff. right. now apply like_star_intro.
  - destruct (Ascii.eqb_spec c "_"%char) as [->|_]; [exact IH|].
    unfold ascii_eqb_nocase. now rewrite Ascii.eqb_refl.
Qed.

(** What the existence check counts, the retrieval for that status finds. *)
Lemma where_exists_retrieve h b st s e r :
  where_exists h b st s e r = true ->
  where_retrieve h b s e (Some st) r = true.
Proof.
  unfold where_exists, where_retrieve. rewrite !andb_true_iff.
  intros [[[Hh Hb] Hs] Ht]. apply String.eqb_eq in Hh. subst h.
  now rewrite sql_like_refl.
Qed.

Section NeverReturns.
Context `{RT : PyRuntime}.

Lemma check_cases self h b s e st w :
  (exists rows,
      conn self = Some Opened /\ cache_table w = Some rows
      /\ window_binds b s e = true
      /\ check_if_record_exists_with_status self h b s e st w
         = (Ok (0 <? List.length (filter (where_exists h b st s e) rows))
              %nat,
            log (Execute (SelectCount h b st s e)) w))
  \/ (exists x,
        fst (check_if_record_exists_with_status self h b s e st w)
        = Raise x
        /\ python_exn x
        /\ timer (snd (check_if_record_exists_with_status self h b s e st
                         w)) = timer w).
Proof.
  destruct self as [[[|]|]].
  - destruct (cache_table w) as [rows|] eqn:E.
    + destruct (window_binds b s e) eqn:Hb.
      * left. exists rows. repeat split; auto. now apply check_opened.
      * right. exists OverflowError.
        change {| conn := Some Opened |} with opened_client.
        rewrite (check_unbound h b s e st w rows E Hb).
        repeat split. discriminate.
    + right. exists OperationalError.
      unfold check_if_record_exists_with_status, with_conn,
        execute_select, bind, get, emit; simpl. rewrite E. simpl.
      repeat split. discriminate.
  - right. exists ProgrammingError. repeat split. discriminate.
  - right. exists NoContextManager. repeat split. discriminate.
Qed.

(** After an existence check that answered yes, the retrieval with the
    result asked for finds a row and raises at [pickle.load]. *)
Lemma check_true_then_retrieve_raises self h b s e st w :
  fst (check_if_record_exists_with_status self h b s e st w) = Ok true ->
  fst (retrieve_earliest_record self h b s e (Some st) true
         (snd (check_if_record_exists_with_status self h b s e st w)))
  = Raise PickleTypeError.
Proof.
  destruct (check_cases self h b s e st w)
    as [(rows & Hc & Ht & Hb & E)|(x & E & _)]; [|congruence].
  rewrite E. simpl. intros [= Hfound].
  destruct self as [c]. simpl in Hc. subst c.
  change {| conn := Some Opened |} with opened_client.
  rewrite (retrieve_opened h b s e (Some st) true
             (log (Execute (SelectCount h b st s e)) w) rows Ht Hb).
  simpl.
  pose proof (fetch_best_spec h b s e (Some st) rows) as Hbest.
  destruct (fetch_best h b s e (Some st) rows); [reflexivity|].
  exfalso.
  destruct (filter (where_exists h b st s e) rows) as [|r l] eqn:F;
    [discriminate Hfound|].
  assert (In r (filter (where_exists h b st s e) rows)) as Hin
    by (rewrite F; now left).
  apply filter_In in Hin as [Hin Hw].
  apply where_exists_retrieve in Hw. rewrite (Hbest r Hin) in Hw.
  discriminate.
Qed.
End NeverReturns.

Section Polling.
Context `{RT : PyRuntime}.

Lemma poll_step fuel self h b s e t0 :
  poll (S fuel) self h b s e t0
  = (t <- default_timer ;;
     if Qltb (t - t0) MAX_POLL_TIME then
       found <- check_if_record_exists_with_status self h b s e
                  COMPLETED ;;
       if (found : bool) then
         r <- retrieve_earliest_record self h b s e (Some COMPLETED)
                true ;;
         ret (second r)
       else sleep POLL_INTERVAL ;;; poll fuel self h b s e t0
     else
       raise (PyException
                "Failed to retrieve result from cache after polling.")).
Proof. reflexivity. Qed.

Lemma Qltb_lt (a b : Q) : Qltb a b = true <-> a < b.
Proof.
  unfold Qltb. rewrite negb_true_iff.
  destruct (Qle_bool b a) eqn:E.
  - apply Qle_bool_iff in E. split; [discriminate|lra].
  - split; [intros _|reflexivity].
    destruct (Qlt_le_dec a b) as [H|H]; [exact H|].
    apply Qle_bool_iff in H. congruence.
Qed.

(** Polling never returns and never uses up its iterations, given as
    many as the time left takes. *)
Lemma poll_raises k self h b s e t0 :
  forall w,
    MAX_POLL_TIME - (timer w - t0)
    <= inject_Z (Z.of_nat k) * POLL_INTERVAL ->
    exists x,
      fst (poll (S k) self h b s e t0 w) = Raise x /\ python_exn x.
Proof.
  induction k as [|k IH]; intros w Hb; rewrite poll_step;
    unfold bind at 1, default_timer, get at 1;
    destruct (Qltb (timer w - t0) MAX_POLL_TIME) eqn:Hq;
    try (eexists; split; [reflexivity|discriminate]).
  - apply Qltb_lt in Hq.
    change (inject_Z (Z.of_nat 0)) with 0 in Hb.
    unfold MAX_POLL_TIME, POLL_INTERVAL in *. lra.
  - unfold bind at 1.
    destruct (check_cases self h b s e COMPLETED w)
      as [(rows & Hc & Ht & _ & E)|(x & E & Hx & _)].
    + pose proof (check_true_then_retrieve_raises self h b s e COMPLETED w)
        as Hr.
      rewrite E in Hr |- *. simpl in Hr.
      destruct (0 <? _)%nat.
      * specialize (Hr eq_refl). unfold bind.
        destruct (retrieve_earliest_record _ _ _ _ _ _ _ _) as [r w'].
        simpl in Hr. subst r. eexists. split; [reflexivity|discriminate].
      * unfold bind at 1, sleep. cbn beta iota.
        apply IH. unfold log, emit. cbn [timer snd].
        rewrite Qred_correct.
        rewrite Nat2Z.inj_succ, <- Z.add_1_r, inject_Z_plus in Hb.
        change (inject_Z 1) with 1 in Hb.
        unfold MAX_POLL_TIME, POLL_INTERVAL in *. lra.
    + destruct (check_if_record_exists_with_status _ _ _ _ _ _ _)
        as [r w']. simpl in E. subst r. now exists x.
Qed.
End Polling.

Section BodyNeverReturns.
Context `{RT : PyRuntime}.

Lemma insert_raises_python self h b t w x :
  fst (insert_operation_started self h b t w) = Raise x -> python_exn x.
Proof.
  unfold insert_operation_started, with_conn, execute_write, bind, uuid4,
    datetime_now, get, emit, set_table, ret, raise; simpl.
  destruct self as [[[|]|]]; simpl; try (intros [= <-]; discriminate).
  destruct (cache_table w) as [rows|]; simpl;
    try (intros [= <-]; discriminate).
  destruct (row_binds _ _); simpl; try (intros [= <-]; discriminate).
  destruct (unwritable w); simpl; try (intros [= <-]; discriminate).
  unfold insert_row.
  destruct (existsb _ rows); simpl; intros [= <-]; discriminate.
Qed.

Lemma compute_raises self func args kwargs h b s e t w :
  exists x,
    fst (compute self func args kwargs h b s e t w) = Raise x
    /\ python_exn x.
Proof.
  unfold compute, bind at 1.
  destruct (insert_operation_started self h b t w) as [[id|x] w1] eqn:E.
  - unfold bind, call_func, emit, ret. simpl.
    destruct (call func args kwargs); simpl;
      eexists; (split; [reflexivity|discriminate]).
  - exists x. split; [reflexivity|].
    apply (insert_raises_python self h b t w). now rewrite E.
Qed.

Lemma lookup_raises self func args kwargs h b s e t range w :
  exists x,
    fst (lookup self func args kwargs h b s e t range w) = Raise x
    /\ python_exn x.
Proof.
  unfold lookup, bind at 1.
  pose proof (check_true_then_retrieve_raises self h b s e COMPLETED w)
    as Hr.
  destruct (check_cases self h b s e COMPLETED w)
    as [(rows & Hc & Ht & _ & E)|(x & E & Hx & _)];
    [|destruct (check_if_record_exists_with_status _ _ _ _ _ _ _)
        as [r w']; simpl in E; subst r; now exists x].
  rewrite E in Hr |- *. simpl in Hr. clear E.
  destruct (0 <? _)%nat.
  { specialize (Hr eq_refl). unfold bind.
    destruct (retrieve_earliest_record _ _ _ _ _ _ _ _) as [r w'].
    simpl in Hr. subst r. eexists. split; [reflexivity|discriminate]. }
  clear Hr. set (w1 := log (Execute (SelectCount h b COMPLETED s e)) w).
  unfold bind at 1.
  destruct (check_cases self h b s e PENDING w1)
    as [(rows1 & _ & Ht1 & _ & E)|(x & E & Hx & _)];
    [|destruct (check_if_record_exists_with_status _ _ _ _ _ _ _)
        as [r w']; simpl in E; subst r; now exists x].
  rewrite E. clear E.
  destruct (0 <? _)%nat.
  { unfold bind at 1, default_timer, get at 1.
    apply poll_raises.
    set (n := inject_Z (Z.of_nat _)).
    assert (n == 3334) as Hn by (vm_compute; reflexivity).
    unfold MAX_POLL_TIME, POLL_INTERVAL. lra. }
  set (w2 := log (Execute (SelectCount h b PENDING s e)) w1).
  unfold bind at 1.
  pose proof (check_true_then_retrieve_raises self h b s e FAILED w2)
    as Hr.
  destruct (check_cases self h b s e FAILED w2)
    as [(rows2 & _ & Ht2 & _ & E)|(x & E & Hx & _)];
    [|destruct (check_if_record_exists_with_status _ _ _ _ _ _ _)
        as [r w']; simpl in E; subst r; now exists x].
  rewrite E in Hr |- *. simpl in Hr. clear E.
  set (w3 := log (Execute (SelectCount h b FAILED s e)) w2) in *.
  destruct (pyfloat_ltb e t) eqn:Hclosed.
  - destruct (0 <? _)%nat.
    + specialize (Hr eq_refl). unfold bind.
      destruct (retrieve_earliest_record _ _ _ _ _ _ _ _) as [r w'].
      simpl in Hr. subst r. eexists. split; [reflexivity|discriminate].
    + unfold bind, ret, raise. simpl.
      eexists. split; [reflexivity|discriminate].
  - assert (forall found : bool,
              (if found
               then if false
                    then r <- retrieve_earliest_record self h b s e
                                (Some FAILED) true ;;
                         raise (PyException (py_str (second r)))
                    else ret tt
               else ret tt) w3 = (Ok tt, w3)) as Hskip
      by (intros [|]; reflexivity).
    unfold bind at 1. rewrite Hskip. apply compute_raises.
Qed.
End BodyNeverReturns.

Section BodyOutcome.
Context `{RT : PyRuntime}.

(** X23.  Whatever the client and the world, lines 296-426 end in a Python
    exception: no path returns a value, and the bound on the polling
    loop is not what ends it. *)
Lemma wrapper_body_never_returns self func args kwargs w :
  exists x,
    fst (wrapper_body self func args kwargs w) = Raise x /\ python_exn x.
Proof.
  assert (forall s e range,
    exists x,
      fst ((function_hash <- call_hash func args
              (filter_keys kwargs reserved_keys) ;;
            lookup self func args (filter_keys kwargs reserved_keys)
              function_hash (branch_of kwargs) s e (now w) range) w)
      = Raise x /\ python_exn x) as H.
  { intros s e range. unfold call_hash.
    destruct (key_in "func" _).
    - exists HashTypeError. split; [reflexivity|discriminate].
    - unfold bind, ret. apply lookup_raises. }
  unfold wrapper_body, bind at 1, datetime_now, get at 1. simpl.
  destruct (get_float kwargs "experiment_start_timestamp" (Finite 0))
    as [[s|]|]; simpl;
    try (exists TimerangeError; split; [reflexivity|discriminate]).
  destruct (isoformat s) as [from|]; simpl;
    try (exists TimerangeError; split; [reflexivity|discriminate]).
  destruct (get_float kwargs "experiment_end_timestamp" PosInf)
    as [[e|]|]; simpl;
    try (exists TimerangeError; split; [reflexivity|discriminate]).
  - destruct (isoformat e) as [to|]; simpl; [apply H|].
    exists TimerangeError. split; [reflexivity|discriminate].
  - apply H.
Qed.

(** X24.  Lines 318-379 on an entered client, for a branch and a window
    that can be bound, the window closed and no row considered in it: the
    three
    existence checks answer no, the missing record failure is raised,
    nothing is written and the operation is not called. *)
Lemma lookup_closed_window_miss func args kwargs h b s e t range w rows :
  cache_table w = Some rows ->
  window_binds b s e = true ->
  (forall r, In r rows -> ~ considered h b s e r) ->
  pyfloat_ltb e t = true ->
  fst (lookup opened_client func args kwargs h b s e t range w)
  = Raise (PyException
             ("Cache does not exist for the given experiment "
              ++ "timerange of between " ++ range ++ "."))
  /\ cache_table (snd (lookup opened_client func args kwargs h b s e t
                         range w)) = Some rows
  /\ calls (trace (snd (lookup opened_client func args kwargs h b s e t
                          range w))) = calls (trace w).
Proof.
  intros Ht Hb Hnone Hclosed.
  assert (forall st,
            (0 <? List.length (filter (where_exists h b st s e) rows))%nat
            = false) as Hno.
  { intros st.
    destruct (0 <? _)%nat eqn:E; [|reflexivity].
    apply check_opened_true in E as (r & Hin & Hc & _).
    now apply Hnone in Hin. }
  set (w1 := log (Execute (SelectCount h b COMPLETED s e)) w).
  set (w2 := log (Execute (SelectCount h b PENDING s e)) w1).
  set (w3 := log (Execute (SelectCount h b FAILED s e)) w2).
  assert (lookup opened_client func args kwargs h b s e t range w
          = (Raise (PyException
                      ("Cache does not exist for the given experiment "
                       ++ "timerange of between " ++ range ++ ".")), w3))
    as ->.
  { unfold lookup, bind at 1.
    rewrite (check_opened h b s e COMPLETED w rows Ht Hb), Hno. fold w1.
    unfold bind at 1.
    rewrite (check_opened h b s e PENDING w1 rows Ht Hb), Hno. fold w2.
    unfold bind at 1.
    rewrite (check_opened h b s e FAILED w2 rows Ht Hb), Hno. fold w3.
    unfold bind, ret. now rewrite Hclosed. }
  simpl. auto.
Qed.
End BodyOutcome.

Section PollingOnEnteredClient.
Context `{RT : PyRuntime}.

(** On an entered client, with no Completed row in the window and no
    other writer, polling goes on until the timer has advanced by the
    maximum, then raises; the table is as it was and the operation has not
    been called. *)
Lemma poll_times_out k h b s e t0 rows :
  (forall r, In r rows -> ~ (considered h b s e r /\ status r = COMPLETED)) ->
  window_binds b s e = true ->
  forall w,
    cache_table w = Some rows ->
    others w = [] ->
    MAX_POLL_TIME - (timer w - t0)
    <= inject_Z (Z.of_nat k) * POLL_INTERVAL ->
    let run := poll (S k) opened_client h b s e t0 w in
    fst run = Raise poll_failed
    /\ cache_table (snd run) = Some rows
    /\ calls (trace (snd run)) = calls (trace w)
    /\ MAX_POLL_TIME <= timer (snd run) - t0.
Proof.
  intros Hnone Hrange.
  assert ((0 <? List.length (filter (where_exists h b COMPLETED s e) rows))
            %nat = false) as Hno.
  { destruct (0 <? _)%nat eqn:E; [|reflexivity].
    apply check_opened_true in E as (r & Hin & Hc & Hs).
    exfalso. apply (Hnone r Hin). auto. }
  assert (forall n w,
            Qltb (timer w - t0) MAX_POLL_TIME = false ->
            poll (S n) opened_client h b s e t0 w = (Raise poll_failed, w))
    as Hstop.
  { intros n w Hq. rewrite poll_step.
    unfold bind, default_timer, get. now rewrite Hq. }
  assert (forall w,
            Qltb (timer w - t0) MAX_POLL_TIME = false ->
            MAX_POLL_TIME <= timer w - t0) as Hover.
  { intros w Hq.
    destruct (Qlt_le_dec (timer w - t0) MAX_POLL_TIME) as [H|H];
      [|exact H].
    apply Qltb_lt in H. congruence. }
  induction k as [|k IH]; intros w Ht Ho Hb run; subst run;
    destruct (Qltb (timer w - t0) MAX_POLL_TIME) eqn:Hq;
    try (rewrite (Hstop _ w Hq); simpl; repeat split; auto).
  - apply Qltb_lt in Hq.
    change (inject_Z (Z.of_nat 0)) with 0 in Hb.
    unfold MAX_POLL_TIME, POLL_INTERVAL in *. lra.
  - set (w1 := log (Execute (SelectCount h b COMPLETED s e)) w).
    set (w2 := snd (sleep POLL_INTERVAL w1)).
    assert (poll (S (S k)) opened_client h b s e t0 w
            = poll (S k) opened_client h b s e t0 w2) as ->.
    { rewrite poll_step.
      unfold bind at 1, default_timer, get at 1. rewrite Hq.
      unfold bind at 1.
      rewrite (check_opened h b s e COMPLETED w rows Ht Hrange), Hno.
      reflexivity. }
    assert (cache_table w2 = Some rows) as Ht2.
    { unfold w2, sleep, interfere. simpl. now rewrite Ho. }
    assert (others w2 = []) as Ho2.
    { unfold w2, sleep, interfere. simpl. now rewrite Ho. }
    assert (timer w2 == timer w + POLL_INTERVAL) as Hw2
      by (unfold w2, sleep, w1, log, emit; cbn [snd timer];
          apply Qred_correct).
    destruct (IH w2 Ht2 Ho2) as (H1 & H2 & H3 & H4).
    { rewrite Hw2.
      rewrite Nat2Z.inj_succ, <- Z.add_1_r, inject_Z_plus in Hb.
      change (inject_Z 1) with 1 in Hb.
      unfold MAX_POLL_TIME, POLL_INTERVAL in *. lra. }
    repeat split; auto.
Qed.

(** X25.  Lines 318-356 on an entered client, for a branch and a window
    that can be bound: a Pending row in the window, no Completed one, no
    other writer.
    The invocation polls and raises after the maximum poll time; it neither
    calls the operation nor changes the table. *)
Lemma lookup_pending_times_out func args kwargs h b s e t range w rows :
  cache_table w = Some rows ->
  window_binds b s e = true ->
  others w = [] ->
  (forall r, In r rows -> ~ (considered h b s e r /\ status r = COMPLETED)) ->
  (exists r, In r rows /\ considered h b s e r /\ status r = PENDING) ->
  let run := lookup opened_client func args kwargs h b s e t range w in
  fst run = Raise poll_failed
  /\ cache_table (snd run) = Some rows
  /\ calls (trace (snd run)) = calls (trace w)
  /\ MAX_POLL_TIME <= timer (snd run) - timer w.
Proof.
  intros Ht Hb Ho Hnone Hpending run. subst run.
  assert ((0 <? List.length (filter (where_exists h b COMPLETED s e) rows))
            %nat = false) as Hno.
  { destruct (0 <? _)%nat eqn:E; [|reflexivity].
    apply check_opened_true in E as (r & Hin & Hc & Hs).
    exfalso. apply (Hnone r Hin). auto. }
  apply check_opened_true in Hpending.
  set (w1 := log (Execute (SelectCount h b COMPLETED s e)) w).
  set (w2 := log (Execute (SelectCount h b PENDING s e)) w1).
  assert (lookup opened_client func args kwargs h b s e t range w
          = poll POLL_FUEL opened_client h b s e (timer w2) w2) as ->.
  { unfold lookup, bind at 1.
    rewrite (check_opened h b s e COMPLETED w rows Ht Hb), Hno. fold w1.
    unfold bind at 1.
    rewrite (check_opened h b s e PENDING w1 rows Ht Hb), Hpending.
    reflexivity. }
  apply (poll_times_out 3334 h b s e (timer w2) rows Hnone Hb w2 Ht Ho).
  set (n := inject_Z (Z.of_nat _)).
  assert (n == 3334) as Hn by (vm_compute; reflexivity).
  unfold MAX_POLL_TIME, POLL_INTERVAL. lra.
Qed.
End PollingOnEnteredClient.

(** ** The other paths of the wrapper on an entered client *)

Section LookupOnEnteredClient.
Context `{RT : PyRuntime}.

(** X26.  Lines 381-426 on an entered client over a writable table, for a
    branch and a request time that can be bound: the Pending row is
    appended, its timestamp
    what the column keeps of the request time, and the operation called,
    then [pickle.dump] raises, whether the operation returned or failed;
    the row stays as inserted. *)
Lemma compute_on_entered_client func args kwargs h b s e t w rows :
  cache_table w = Some rows ->
  row_binds b t = true ->
  unwritable w = false ->
  (forall r, In r rows -> row_idx r <> next_uuid w) ->
  let run := compute opened_client func args kwargs h b s e t w in
  fst run = Raise PickleTypeError
  /\ cache_table (snd run)
     = Some (rows
             ++ [pending_row (next_uuid w) b h (Qfloor (now w))
                   (sqlite_real t)])%list
  /\ calls (trace (snd run)) = S (calls (trace w)).
Proof.
  intros Ht Hb Hw Hfresh run. subst run.
  destruct (insert_opened h b t w rows Ht Hb Hw Hfresh) as (H1 & H2 & H3).
  destruct (insert_operation_started opened_client h b t w) as [r w1] eqn:E.
  simpl in H1, H2, H3. subst r.
  assert (compute opened_client func args kwargs h b s e t w
          = (Raise PickleTypeError, log (Call args kwargs) w1)) as ->.
  { unfold compute, bind at 1. rewrite E.
    unfold bind, call_func, emit, ret, log. simpl.
    now destruct (call func args kwargs). }
  simpl. rewrite H2, H3. auto.
Qed.

(** X27.  Lines 318-333 on an entered client, for a branch and a window
    that can be bound: with a Completed row in the window the retrieval
    raises at
    [pickle.load]; nothing is returned, written or called. *)
Lemma lookup_completed_raises func args kwargs h b s e t range w rows :
  cache_table w = Some rows ->
  window_binds b s e = true ->
  (exists r, In r rows /\ considered h b s e r /\ status r = COMPLETED) ->
  let run := lookup opened_client func args kwargs h b s e t range w in
  fst run = Raise PickleTypeError
  /\ cache_table (snd run) = Some rows
  /\ calls (trace (snd run)) = calls (trace w).
Proof.
  intros Ht Hb Hsome run. subst run.
  apply check_opened_true in Hsome.
  pose proof (check_true_then_retrieve_raises opened_client h b s e
                COMPLETED w) as Hr.
  rewrite (check_opened h b s e COMPLETED w rows Ht Hb), Hsome in Hr.
  specialize (Hr eq_refl). simpl in Hr.
  set (w1 := log (Execute (SelectCount h b COMPLETED s e)) w) in *.
  assert (lookup opened_client func args kwargs h b s e t range w
          = (Raise PickleTypeError,
             log (Execute (SelectBest h b s e (Some COMPLETED))) w1)) as ->.
  { unfold lookup, bind at 1.
    rewrite (check_opened h b s e COMPLETED w rows Ht Hb), Hsome. fold w1.
    unfold bind.
    rewrite (retrieve_opened h b s e (Some COMPLETED) true w1 rows Ht Hb)
      in Hr |- *.
    simpl in Hr. destruct (fetch_best _ _ _ _ _ _); [reflexivity|].
    discriminate Hr. }
  simpl. auto.
Qed.

(** X28.  Lines 358-379 on an entered client, for a branch and a window
    that can be bound: only Failed rows in the window.  With the window
    closed the
    retrieval raises at [pickle.load]; with the window open the code goes
    on to lines 381-426. *)
Lemma lookup_failed_only func args kwargs h b s e t range w rows :
  cache_table w = Some rows ->
  window_binds b s e = true ->
  (forall r, In r rows -> ~ (considered h b s e r /\ status r = COMPLETED)) ->
  (forall r, In r rows -> ~ (considered h b s e r /\ status r = PENDING)) ->
  (exists r, In r rows /\ considered h b s e r /\ status r = FAILED) ->
  let w3 :=
    log (Execute (SelectCount h b FAILED s e))
      (log (Execute (SelectCount h b PENDING s e))
         (log (Execute (SelectCount h b COMPLETED s e)) w)) in
  lookup opened_client func args kwargs h b s e t range w
  = if pyfloat_ltb e t
    then (Raise PickleTypeError,
          log (Execute (SelectBest h b s e (Some FAILED))) w3)
    else compute opened_client func args kwargs h b s e t w3.
Proof.
  intros Ht Hb Hc Hp Hf w3.
  apply no_record_counted in Hc, Hp. apply check_opened_true in Hf.
  set (w1 := log (Execute (SelectCount h b COMPLETED s e)) w) in *.
  set (w2 := log (Execute (SelectCount h b PENDING s e)) w1) in *.
  pose proof (check_true_then_retrieve_raises opened_client h b s e
                FAILED w2) as Hr.
  rewrite (check_opened h b s e FAILED w2 rows Ht Hb), Hf in Hr.
  specialize (Hr eq_refl). simpl in Hr. fold w3 in Hr.
  unfold lookup, bind at 1.
  rewrite (check_opened h b s e COMPLETED w rows Ht Hb), Hc. fold w1.
  unfold bind at 1.
  rewrite (check_opened h b s e PENDING w1 rows Ht Hb), Hp. fold w2.
  unfold bind at 1.
  rewrite (check_opened h b s e FAILED w2 rows Ht Hb), Hf. fold w3.
  destruct (pyfloat_ltb e t).
  - unfold bind.
    rewrite (retrieve_opened h b s e (Some FAILED) true w3 rows Ht Hb)
      in Hr |- *.
    simpl in Hr. destruct (fetch_best _ _ _ _ _ _); [reflexivity|].
    discriminate Hr.
  - reflexivity.
Qed.
End LookupOnEnteredClient.

(** ** The theorems at work on the samples *)

Lemma C9_fingerprint_witness :
  @_hash demo_runtime op_seven [PyInt 1] kw_ab
  = @_hash demo_runtime op_seven [PyInt 1] kw_ba
  /\ @fingerprint demo_runtime op_seven [] kw_branch
     = @fingerprint demo_runtime op_seven [] kw_worker.
Proof.
  destruct (@C9_fingerprint_deterministic_reserved_keys_stripped
              demo_runtime) as (H1 & H2 & _).
  split.
  - apply H1.
    + repeat constructor; simpl; intuition discriminate.
    + repeat constructor; simpl; intuition discriminate.
    + intros k. unfold kw_ab, kw_ba. cbn [dict_get].
      destruct (String.eqb_spec "a" k) as [E|N]; [subst k; reflexivity|].
      destruct (String.eqb "b" k); reflexivity.
  - apply H2.
    + repeat constructor; simpl; intuition discriminate.
    + repeat constructor; simpl; intuition discriminate.
    + intros k Hk. unfold kw_branch, kw_worker. cbn [dict_get].
      destruct (String.eqb_spec "a" k) as [E|N]; [subst k; reflexivity|].
      destruct (String.eqb_spec "cache_branch" k) as [E|N1];
        [exfalso; apply Hk; subst k; simpl; auto|].
      destruct (String.eqb_spec "worker_id" k) as [E|N2];
        [exfalso; apply Hk; subst k; simpl; auto|].
      reflexivity.
Defined.

Lemma C5_retrieval_witness :
  (exists found,
      fst (@check_if_record_exists_with_status demo_runtime opened_client
             (@fingerprint demo_runtime op_seven [] []) 0 0 (Finite 60)
             COMPLETED attempts_world)
      = Ok found
      /\ (found = true
          <-> exists r,
                In r attempts
                /\ considered (@fingerprint demo_runtime op_seven [] []) 0 0
                     (Finite 60) r
                /\ status r = COMPLETED))
  /\ (in_timerange 0 (Finite 10) row_at_5 = true
      /\ in_timerange 6 (Finite 10) row_at_5 = false)
  /\ fst (@retrieve_earliest_record demo_runtime opened_client
            (@fingerprint demo_runtime op_seven [] []) 0 0 (Finite 60)
            (Some COMPLETED) true attempts_world)
     = Raise PickleTypeError.
Proof.
  destruct C5_retrieval_returns_no_record as (H1 & H2 & _ & H4 & _).
  split; [|split].
  - apply (H1 demo_runtime); reflexivity.
  - apply H2. reflexivity.
  - apply (H4 demo_runtime (@fingerprint demo_runtime op_seven [] []) 0%Z 0
             (Finite 60) (Some COMPLETED) true attempts_world attempts
             eq_refl eq_refl).
    exists best_attempt. split; [simpl; auto|].
    unfold matched. simpl. repeat split; lra.
Defined.


(** * Further properties of dsp/utils/cache.py *)

(** ** filter_keys and _hash *)

(** X1.  [filter_keys] removes the ignored keys and nothing else: a lookup in
    the result misses on an ignored key and is the lookup in the input on any
    other; filtering twice is filtering by both lists at once; with nothing
    to ignore the dictionary is returned as it is. *)
Theorem filter_keys_laws (V : Type) (d : dict V) :
  (forall keys k,
      dict_get (filter_keys d keys) k
      = if key_in k keys then None else dict_get d k)
  /\ (forall keys1 keys2,
        filter_keys (filter_keys d keys1) keys2
        = filter_keys d (keys1 ++ keys2)%list)
  /\ filter_keys d [] = d.
Proof.
  split; [|split].
  - intros keys k. apply dict_get_filter_keys.
  - intros keys1 keys2. unfold filter_keys.
    assert (forall k, key_in k (keys1 ++ keys2)%list
                      = key_in k keys1 || key_in k keys2) as Happ
      by (intros k; apply existsb_app).
    induction d as [|[k v] d' IH]; simpl; [reflexivity|].
    rewrite Happ.
    destruct (key_in k keys1); simpl; [exact IH|].
    destruct (key_in k keys2); simpl; [exact IH|]. now rewrite IH.
  - unfold filter_keys, key_in.
    induction d as [|kv d' IH]; [reflexivity|].
    simpl. f_equal. exact IH.
Qed.

Lemma append_assoc (a b c : string) : ((a ++ b) ++ c = a ++ (b ++ c))%string.
Proof. induction a as [|x a IH]; simpl; congruence. Qed.

Lemma concat_cons (sep x : string) (l : list string) :
  l <> [] -> String.concat sep (x :: l) = x ++ sep ++ String.concat sep l.
Proof. destruct l; [congruence|reflexivity]. Qed.

(** Joining does not tell one piece holding the separator from two
    pieces. *)
Lemma concat_split_piece (sep a b : string) (pre post : list string) :
  String.concat sep (pre ++ (a ++ sep ++ b)%string :: post)%list
  = String.concat sep (pre ++ a :: b :: post)%list.
Proof.
  induction pre as [|x pre IH].
  - simpl. destruct post as [|p post]; [reflexivity|].
    now rewrite !append_assoc.
  - rewrite <- !app_comm_cons.
    rewrite !concat_cons by (now destruct pre).
    now rewrite IH.
Qed.

(** X2.  Positional arguments are joined with commas and nothing marks
    where one ends: an argument whose text is the texts of two arguments
    with a comma between has the fingerprint of these two. *)
Theorem hash_comma_collision `{RT : PyRuntime} (func : operation)
    (pre post : list Any) (x y z : Any) (kwargs : dict Any) :
  py_str x = py_str y ++ "," ++ py_str z ->
  _hash func (pre ++ x :: post)%list kwargs
  = _hash func (pre ++ y :: z :: post)%list kwargs.
Proof.
  intros E. unfold _hash. do 3 f_equal.
  rewrite !map_app. simpl. rewrite E.
  now rewrite concat_split_piece.
Qed.

Lemma rendered_insert_sorted `{RT : PyRuntime} (kv : string * Any)
    (l : dict Any) :
  map rendered (insert_sorted key_leb kv l)
  = insert_sorted key_leb (rendered kv) (map rendered l).
Proof.
  induction l as [|y l IH]; simpl; [reflexivity|].
  change (key_leb (rendered kv) (rendered y)) with (key_leb kv y).
  destruct (key_leb kv y); simpl; [reflexivity|now rewrite IH].
Qed.

Lemma rendered_sorted `{RT : PyRuntime} (l : dict Any) :
  map rendered (sorted key_leb l) = sorted key_leb (map rendered l).
Proof.
  induction l as [|x l IH]; simpl; [reflexivity|].
  now rewrite rendered_insert_sorted, IH.
Qed.

(** X3.  The fingerprint knows the operation by its name and the arguments
    by their texts: operations of one name, called with arguments of the
    same texts and keywords of the same names and texts, have one
    fingerprint. *)
Theorem hash_of_name_and_texts `{RT : PyRuntime} (f g : operation)
    (args1 args2 : list Any) (kw1 kw2 : dict Any) :
  func_name f = func_name g ->
  map py_str args1 = map py_str args2 ->
  map rendered kw1 = map rendered kw2 ->
  _hash f args1 kw1 = _hash g args2 kw2.
Proof.
  intros En Ea Ek. unfold _hash. rewrite En, Ea.
  assert (forall kw,
            map (fun kv => fst kv ++ "=" ++ py_str (snd kv))
              (sorted key_leb kw)
            = map (fun r => fst r ++ "=" ++ snd r)
                (sorted key_leb (map rendered kw))) as H.
  { intros kw. rewrite <- rendered_sorted, map_map. reflexivity. }
  now rewrite !H, Ek.
Qed.

(** ** The queries *)

Lemma where_record_spec h b s e r :
  where_record h b s e r = true <-> considered h b s e r.
Proof.
  unfold where_record, considered.
  rewrite !andb_true_iff, String.eqb_eq, Z.eqb_eq, in_timerange_spec.
  tauto.
Qed.

(** X4.  [get_cache_record] on an entered client, for a branch and a
    window that can be bound, never yields a stored result: it returns
    [None] when no row
    has the fingerprint and the branch with a timestamp in the window, and
    raises at [pickle.load] as soon as one has, whatever the status of the
    row; it issues its SELECT and changes nothing else. *)
Theorem get_cache_record_outcome `{RT : PyRuntime} h b s e w rows :
  cache_table w = Some rows ->
  window_binds b s e = true ->
  snd (get_cache_record opened_client h b s e w)
  = log (Execute (SelectRecord h b s e)) w
  /\ ((forall r, In r rows -> ~ considered h b s e r) ->
      fst (get_cache_record opened_client h b s e w) = Ok None)
  /\ ((exists r, In r rows /\ considered h b s e r) ->
      fst (get_cache_record opened_client h b s e w)
      = Raise PickleTypeError).
Proof.
  intros Ht Hb.
  unfold get_cache_record, with_conn, execute_select, bindable, bind, get,
    emit, ret, raise, pickle_load, log.
  simpl. rewrite Ht, Hb.
  destruct (hd_error (filter (where_record h b s e) rows)) as [r|] eqn:E.
  - assert (In r (filter (where_record h b s e) rows)) as Hin.
    { destruct (filter _ rows); [discriminate|].
      injection E as ->. now left. }
    apply filter_In in Hin as [Hin Hw]. apply where_record_spec in Hw.
    simpl. repeat split; auto.
    intros Hnone. now apply Hnone in Hin.
  - simpl. repeat split; auto.
    intros (r & Hin & Hc).
    assert (In r (filter (where_record h b s e) rows)) as Hf
      by (apply filter_In; split; [exact Hin|now apply where_record_spec]).
    destruct (filter _ rows); [contradiction|discriminate].
Qed.

(** X5.  The queries only read: whatever the client and the world, the
    existence check, the retrieval and [get_cache_record] leave the table,
    the file, the clocks and the identifiers as they were (the trace alone
    may grow). *)
Theorem queries_only_read `{RT : PyRuntime} self h b s e st st' wanted w :
  same_store w
    (snd (check_if_record_exists_with_status self h b s e st w))
  /\ same_store w
       (snd (retrieve_earliest_record self h b s e st' wanted w))
  /\ same_store w (snd (get_cache_record self h b s e w)).
Proof.
  unfold same_store.
  destruct self as [[[|]|]].
  - split; [|split].
    + unfold check_if_record_exists_with_status, with_conn, execute_select,
        bind, get, emit. simpl.
      destruct (cache_table w); simpl; [|repeat split; reflexivity].
      destruct (window_binds _ _ _); simpl; repeat split; reflexivity.
    + unfold retrieve_earliest_record, with_conn, execute_select, bind, get,
        emit. simpl.
      destruct (cache_table w) as [rows|]; simpl;
        [|repeat split; reflexivity].
      destruct (window_binds _ _ _); simpl; [|repeat split; reflexivity].
      destruct (fetch_best h b s e st' rows); simpl;
        [|repeat split; reflexivity].
      destruct wanted; simpl; repeat split; reflexivity.
    + unfold get_cache_record, with_conn, execute_select, bind, get, emit.
      simpl.
      destruct (cache_table w) as [rows|]; simpl;
        [|repeat split; reflexivity].
      destruct (window_binds _ _ _); simpl; [|repeat split; reflexivity].
      destruct (hd_error _); simpl; repeat split; reflexivity.
  - repeat split; reflexivity.
  - repeat split; reflexivity.
Qed.

(** X6.  The existence check is monotone in the window: a record found in
    a window is found in every window that starts no later and ends no
    earlier and whose bounds can be bound. *)
Theorem check_monotone_in_window `{RT : PyRuntime} h b st s e s' e' w rows :
  cache_table w = Some rows ->
  window_binds b s' e' = true ->
  s' <= s ->
  pyfloat_le e e' ->
  fst (check_if_record_exists_with_status opened_client h b s e st w)
  = Ok true ->
  fst (check_if_record_exists_with_status opened_client h b s' e' st w)
  = Ok true.
Proof.
  intros Ht Hb' Hs He.
  destruct (window_binds b s e) eqn:Hb;
    [|rewrite (check_unbound _ _ _ _ _ _ rows Ht Hb); discriminate].
  rewrite (check_opened _ _ _ _ _ _ rows Ht Hb),
    (check_opened _ _ _ _ _ _ rows Ht Hb'). simpl.
  intros [= H]. f_equal.
  apply check_opened_true in H as (r & Hin & (Hh & Hbr & Hlo & Hhi) & Hst).
  apply check_opened_true. exists r. split; [exact Hin|]. split; [|exact Hst].
  repeat split; auto; [lra|].
  destruct e as [a|], e' as [a'|]; simpl in *; auto; try contradiction. lra.
Qed.

(** ** Insertion *)

Lemma insert_unbound `{RT : PyRuntime} h b t w rows :
  cache_table w = Some rows ->
  row_binds b t = false ->
  fst (insert_operation_started opened_client h b t w) = Raise OverflowError
  /\ cache_table (snd (insert_operation_started opened_client h b t w))
     = Some rows.
Proof.
  intros Ht Hb.
  unfold insert_operation_started, with_conn, execute_write, bindable, bind,
    uuid4, datetime_now, get, emit, ret, raise. simpl.
  rewrite Ht. simpl. rewrite Hb. simpl. auto.
Qed.

Lemma check_after_insert `{RT : PyRuntime} h b t h' b' st s e w rows :
  cache_table w = Some rows ->
  row_binds b t = true ->
  window_binds b' s e = true ->
  unwritable w = false ->
  (forall r, In r rows -> row_idx r <> next_uuid w) ->
  fst (check_if_record_exists_with_status opened_client h' b' s e st
         (snd (insert_operation_started opened_client h b t w)))
  = Ok ((0 <? List.length (filter (where_exists h' b' st s e) rows))%nat
        || where_exists h' b' st s e
             (pending_row (next_uuid w) b h (Qfloor (now w))
                (sqlite_real t))).
Proof.
  intros Ht Hb Hb' Hw Hfresh.
  destruct (insert_opened h b t w rows Ht Hb Hw Hfresh) as (_ & Ht1 & _).
  rewrite (check_opened _ _ _ _ _ _ _ Ht1 Hb'). simpl. f_equal.
  rewrite filter_app, length_app. simpl.
  change (stored (pending_row (next_uuid w) b h (Qfloor (now w)) t))
    with (pending_row (next_uuid w) b h (Qfloor (now w)) (sqlite_real t)).
  destruct (where_exists h' b' st s e _); simpl.
  - rewrite orb_true_r. apply Nat.ltb_lt. lia.
  - now rewrite Nat.add_0_r, orb_false_r.
Qed.

(** X7.  Insertion and existence check round trip: on an entered client
    over a writable table, for a timestamp that can be bound and that the
    column keeps as it is (a double), and a branch and a window that can
    be bound, once
    [insert_operation_started] has run for a fingerprint, the branch and the
    timestamp, the existence check for that fingerprint, that branch and
    the status Pending answers yes for every window holding the
    timestamp. *)
Theorem insert_then_exists `{RT : PyRuntime} h b t s e w rows :
  cache_table w = Some rows ->
  unwritable w = false ->
  (forall r, In r rows -> row_idx r <> next_uuid w) ->
  kept_exactly t ->
  window_binds b s e = true ->
  s <= t ->
  match e with
  | PosInf => True
  | Finite e' => t <= e'
  end ->
  fst (check_if_record_exists_with_status opened_client h b s e PENDING
         (snd (insert_operation_started opened_client h b t w)))
  = Ok true.
Proof.
  intros Ht Hw Hfresh [Hbinds Hkept] Hb' Hs He.
  assert (row_binds b t = true) as Hb.
  { unfold row_binds. rewrite Hbinds, andb_true_r.
    unfold window_binds in Hb'.
    now apply andb_true_iff in Hb' as [[Hb' _]%andb_true_iff _]. }
  rewrite (check_after_insert _ _ _ _ _ _ _ _ _ _ Ht Hb Hb' Hw Hfresh).
  f_equal. apply orb_true_iff. right.
  apply where_exists_spec. unfold considered. simpl.
  rewrite Hkept. repeat split; [exact Hs|exact He].
Qed.

(** X8.  Insertion is confined to its fingerprint, branch and status: on
    an entered client over a writable table, the existence checks for
    another fingerprint, another branch or a status other than Pending
    answer after [insert_operation_started] what they answered before. *)
Theorem insert_confined `{RT : PyRuntime} h b t h' b' st s e w rows :
  cache_table w = Some rows ->
  unwritable w = false ->
  (forall r, In r rows -> row_idx r <> next_uuid w) ->
  h' <> h \/ b' <> b \/ st <> PENDING ->
  fst (check_if_record_exists_with_status opened_client h' b' s e st
         (snd (insert_operation_started opened_client h b t w)))
  = fst (check_if_record_exists_with_status opened_client h' b' s e st w).
Proof.
  intros Ht Hw Hfresh Hother.
  destruct (row_binds b t) eqn:Hb.
  - destruct (window_binds b' s e) eqn:Hb'.
    + rewrite (check_after_insert _ _ _ _ _ _ _ _ _ _ Ht Hb Hb' Hw Hfresh).
      rewrite (check_opened _ _ _ _ _ _ _ Ht Hb'). simpl. f_equal.
      destruct (where_exists h' b' st s e _) eqn:E; [|apply orb_false_r].
      apply where_exists_spec in E. destruct E as [(Eh & Eb & _) Es].
      simpl in Eh, Eb, Es. exfalso.
      destruct Hother as [H|[H|H]]; congruence.
    + destruct (insert_opened h b t w rows Ht Hb Hw Hfresh) as (_ & Ht1 & _).
      now rewrite (check_unbound _ _ _ _ _ _ _ Ht1 Hb'),
        (check_unbound _ _ _ _ _ _ _ Ht Hb').
  - destruct (insert_unbound h b t w rows Ht Hb) as [_ Ht1].
    destruct (window_binds b' s e) eqn:Hb'.
    + now rewrite (check_opened _ _ _ _ _ _ _ Ht1 Hb'),
        (check_opened _ _ _ _ _ _ _ Ht Hb').
    + now rewrite (check_unbound _ _ _ _ _ _ _ Ht1 Hb'),
        (check_unbound _ _ _ _ _ _ _ Ht Hb').
Qed.

(** X9.  A branch that does not fit in 64 bits cannot be bound: on an
    entered client over an existing table, the existence check, the
    retrieval, [get_cache_record] and the insertion raise OverflowError for
    it, and the table is as it was; lines 318-426 then end at their first
    existence check. *)
Theorem branch_out_of_range_raises `{RT : PyRuntime} h b s e st st' wanted t
    w rows :
  cache_table w = Some rows ->
  in_int64 b = false ->
  (forall func args kwargs range,
      lookup opened_client func args kwargs h b s e t range w
      = (Raise OverflowError,
         log (Execute (SelectCount h b COMPLETED s e)) w))
  /\ fst (check_if_record_exists_with_status opened_client h b s e st w)
     = Raise OverflowError
  /\ fst (retrieve_earliest_record opened_client h b s e st' wanted w)
     = Raise OverflowError
  /\ fst (get_cache_record opened_client h b s e w) = Raise OverflowError
  /\ fst (insert_operation_started opened_client h b t w)
     = Raise OverflowError
  /\ cache_table (snd (insert_operation_started opened_client h b t w))
     = Some rows.
Proof.
  intros Ht Hb.
  assert (window_binds b s e = false) as Hw
    by (unfold window_binds; now rewrite Hb).
  assert (row_binds b t = false) as Hr
    by (unfold row_binds; now rewrite Hb).
  split.
  { intros func args kwargs range. unfold lookup, bind.
    now rewrite (check_unbound _ _ _ _ _ _ _ Ht Hw). }
  rewrite (check_unbound _ _ _ _ _ _ _ Ht Hw),
    (retrieve_unbound _ _ _ _ _ _ _ _ Ht Hw).
  destruct (insert_unbound h b t w rows Ht Hr) as [H1 H2].
  repeat split; auto.
  unfold get_cache_record, with_conn, execute_select, bindable, bind, get,
    emit. simpl. now rewrite Ht, Hw.
Qed.

(** X10.  An insertion that raises has written nothing: whatever the
    client, when [insert_operation_started] raises the table is as it was.
    On an entered client over a writable table, for a branch and a
    timestamp that can be bound, it raises only when the identifier drawn
    is that of a row of
    the table, and what it raises then is IntegrityError. *)
Theorem failed_insert_writes_nothing `{RT : PyRuntime} self h b t w x :
  fst (insert_operation_started self h b t w) = Raise x ->
  cache_table (snd (insert_operation_started self h b t w)) = cache_table w
  /\ (forall rows,
        conn self = Some Opened ->
        cache_table w = Some rows ->
        row_binds b t = true ->
        unwritable w = false ->
        x = IntegrityError /\ exists r, In r rows /\ row_idx r = next_uuid w).
Proof.
  unfold insert_operation_started, with_conn, execute_write, bindable, bind,
    uuid4, datetime_now, get, emit, set_table, ret, raise, insert_row.
  destruct self as [[[|]|]]; simpl;
    try (intros [= <-]; split; [reflexivity|intros; discriminate]).
  destruct (cache_table w) as [rows|]; simpl;
    try (intros [= <-]; split; [reflexivity|intros; discriminate]).
  destruct (row_binds b t); simpl;
    try (intros [= <-]; split; [reflexivity|intros; discriminate]).
  destruct (unwritable w); simpl;
    try (intros [= <-]; split; [reflexivity|intros; discriminate]).
  destruct (existsb _ rows) eqn:X; simpl; [|discriminate].
  intros [= <-]. split; [reflexivity|].
  intros rows' _ [= <-] _ _. split; [reflexivity|].
  apply existsb_exists in X as (r & Hin & Heq).
  apply Nat.eqb_eq in Heq. now exists r.
Qed.

(** ** Entering and leaving the client *)

(** X11.  [__enter__] on every start, whatever the client: when the file
    cannot be opened it raises at [sqlite3.connect], the client and the
    table as they were, nothing but the connection attempted.  Otherwise
    the client is left with its connection open, and the call returns
    nothing and keeps the rows of a table that is there; it creates the
    table, empty, when it is missing; and when the table is missing and the
    file cannot be written to it raises, leaving no table. *)
Theorem enter_keeps_rows `{RT : PyRuntime} self w :
  if unopenable w
  then fst (__enter__ self w) = (Raise OperationalError, self)
       /\ cache_table (snd (__enter__ self w)) = cache_table w
       /\ exists path, trace (snd (__enter__ self w)) = Connect path :: trace w
  else
    match cache_table w with
    | Some rows =>
        fst (__enter__ self w) = (Ok tt, opened_client)
        /\ cache_table (snd (__enter__ self w)) = Some rows
    | None =>
        if unwritable w
        then fst (__enter__ self w) = (Raise OperationalError, opened_client)
             /\ cache_table (snd (__enter__ self w)) = None
        else fst (__enter__ self w) = (Ok tt, opened_client)
             /\ cache_table (snd (__enter__ self w)) = Some []
    end.
Proof.
  unfold __enter__, connect, create_table_if_not_exists, with_lock,
    with_conn, try_except, execute_create, cache_file_path, bind, get, emit,
    set_table, ret, raise.
  destruct (env_path w) as [p|]; [destruct (String.eqb p "")|]; simpl;
    (destruct (unopenable w); simpl; [eauto|];
     destruct (cache_table w) as [rows|]; simpl;
     [auto|destruct (unwritable w); simpl; auto]).
Qed.

(** X12.  The lock does not stay taken: whatever the client and the world,
    [create_table_if_not_exists] releases it last, also when it raises; on a
    client with an open connection the statement lies between the taking
    and the release, on any other client nothing is issued. *)
Theorem create_table_releases_lock `{RT : PyRuntime} self w :
  trace (snd (create_table_if_not_exists self w))
  = match conn self with
    | Some Opened => Release :: Execute CreateTable :: Acquire :: trace w
    | _ => Release :: Acquire :: trace w
    end.
Proof.
  unfold create_table_if_not_exists, with_lock, with_conn, try_except,
    execute_create, bind, get, emit, set_table, ret, raise.
  destruct self as [[[|]|]]; simpl; try reflexivity.
  destruct (cache_table w); simpl; [reflexivity|].
  now destruct (unwritable w).
Qed.

(** X13.  After [__exit__] the client is of no use: [__exit__] on an entered
    client closes the connection and returns nothing, and on the closed
    client the existence check, the retrieval and [get_cache_record] raise
    leaving the world as it was, and the insertion raises leaving the table
    as it was.  On a client that was never entered [__exit__] itself
    raises. *)
Theorem closed_client_raises `{RT : PyRuntime} h b s e st st' wanted t w :
  __exit__ opened_client w = ((Ok tt, closed_client), w)
  /\ fst (__exit__ __init__ w) = (Raise AttributeError, __init__)
  /\ check_if_record_exists_with_status closed_client h b s e st w
     = (Raise ProgrammingError, w)
  /\ retrieve_earliest_record closed_client h b s e st' wanted w
     = (Raise ProgrammingError, w)
  /\ get_cache_record closed_client h b s e w = (Raise ProgrammingError, w)
  /\ fst (insert_operation_started closed_client h b t w)
     = Raise ProgrammingError
  /\ cache_table (snd (insert_operation_started closed_client h b t w))
     = cache_table w.
Proof. repeat split; reflexivity. Qed.

(** ** Fingerprints as patterns *)

Lemma sql_like_percent (s : string) : sql_like "%" s = true.
Proof. induction s as [|c s IH]; simpl; [reflexivity|]. exact IH. Qed.

(** X14.  The retrieval reads the fingerprint as a LIKE pattern: a row the
    existence check counts is one the retrieval for the same status
    matches, whatever the strings; and the fingerprint [%] matches the rows
    of every fingerprint, so that the retrieval then selects by branch,
    window and status alone. *)
Theorem retrieval_matches_by_pattern :
  (forall h b st s e r,
      where_exists h b st s e r = true ->
      where_retrieve h b s e (Some st) r = true)
  /\ (forall b s e st r,
        where_retrieve "%" b s e st r
        = ((branch_idx r =? b)%Z && in_timerange s e r
           && match st with
              | None => true
              | Some st' => status_eqb (status r) st'
              end)).
Proof.
  split.
  - apply where_exists_retrieve.
  - intros b s e st r. unfold where_retrieve.
    now rewrite sql_like_percent.
Qed.

(** X29.  On SHA-256 hex digests, which is what [_hash] hands the store,
    LIKE is equality: between a fingerprint and a row that both are 64
    lower-case hexadecimal digits, the retrieval matches the row iff the
    row has that fingerprint, the branch and a timestamp in the window, and
    the status asked for, if any. *)
Theorem retrieval_on_hex_digests f b s e st r :
  is_hexdigest f = true ->
  is_hexdigest (operation_hash r) = true ->
  (where_retrieve f b s e st r = true
   <-> considered f b s e r /\ status_wanted st r).
Proof.
  intros Hf Hr.
  apply where_retrieve_spec; now apply is_hexdigest_chars.
Qed.

(** ** The arguments of the wrapper *)

(** X15.  The wrapper checks its keywords before it touches the store or
    calls the operation, whatever the client: a start or an end of the
    window that is no float, a start that is infinite, or a bound that
    [datetime.fromtimestamp] does not accept, raises at line 302; and a
    keyword named [func] among those forwarded never gets through the call
    of [_hash].  In each case the world is left as it was. *)
Theorem wrapper_checks_keywords_first `{RT : PyRuntime} self func args
    kwargs w :
  (window_of kwargs = None ->
   wrapper_body self func args kwargs w = (Raise TimerangeError, w))
  /\ (key_in "func" (map fst (forwarded kwargs)) = true ->
      wrapper_body self func args kwargs w = (Raise TimerangeError, w)
      \/ wrapper_body self func args kwargs w = (Raise HashTypeError, w))
  /\ (forall s e,
        window_of kwargs = Some (s, e) ->
        window_text s e = None ->
        wrapper_body self func args kwargs w = (Raise TimerangeError, w)).
Proof.
  unfold window_of, window_text, wrapper_body, forwarded.
  unfold bind at 1, datetime_now, get at 1. simpl.
  destruct (get_float kwargs "experiment_start_timestamp" (Finite 0))
    as [[s|]|]; simpl;
    try (split; [auto|split; [auto|intros ? ? H ?; discriminate H]]).
  destruct (isoformat s) as [from|] eqn:Es; simpl.
  - destruct (get_float kwargs "experiment_end_timestamp" PosInf)
      as [[e|]|]; simpl.
    + split; [discriminate|]. split.
      * intros Hk. destruct (isoformat e) as [to|]; simpl; auto.
        unfold bind, call_hash. rewrite Hk. auto.
      * intros s0 e0 [= <- <-] Htext. rewrite Es in Htext.
        destruct (isoformat e) as [to|]; [discriminate Htext|reflexivity].
    + split; [discriminate|]. split.
      * intros Hk. unfold bind, call_hash. rewrite Hk. auto.
      * intros s0 e0 [= <- <-] Htext. rewrite Es in Htext.
        discriminate Htext.
    + split; [auto|split; [auto|intros ? ? H ?; discriminate H]].
  - destruct (get_float kwargs "experiment_end_timestamp" PosInf);
      (split; [auto|split; [auto|intros; reflexivity]]).
Qed.

(** * Properties of dspy/predict/react.py *)

(** ** Keys of a signature *)

Lemma str_nat_inj (a b : nat) : str_nat a = str_nat b -> a = b.
Proof.
  unfold str_nat. intros E.
  apply Unsigned.to_uint_inj.
  assert (Some (Nat.to_uint a) = Some (Nat.to_uint b)) as H
    by (rewrite <- !NilEmpty.usu; now rewrite E).
  now injection H.
Qed.

Lemma step_key_index (k : string) (i j : nat) :
  step_key k i -> step_key k j -> i = j.
Proof.
  unfold step_key, thought_key, action_key, observation_key.
  intros [Hi|[Hi|Hi]] [Hj|[Hj|Hj]]; rewrite Hi in Hj; simpl in Hj;
    try discriminate Hj; injection Hj as Hj; now apply str_nat_inj.
Qed.

Lemma step_key_not_question (j : nat) : ~ step_key "question" j.
Proof.
  unfold step_key, thought_key, action_key, observation_key.
  intros [H|[H|H]]; simpl in H; discriminate H.
Qed.

Lemma dict_get_app (V : Type) (d l : dict V) (k : string) :
  dict_get (d ++ l)%list k
  = match dict_get d k with
    | Some v => Some v
    | None => dict_get l k
    end.
Proof.
  induction d as [|[k' v'] d IH]; simpl; [reflexivity|].
  now destruct (String.eqb k' k).
Qed.

(** Assigning to a new key appends the item. *)
Lemma dict_set_fresh (V : Type) (d : dict V) (k : string) (v : V) :
  dict_get d k = None -> dict_set d k v = (d ++ [(k, v)])%list.
Proof.
  induction d as [|[k' v'] d IH]; simpl; [reflexivity|].
  destruct (String.eqb k' k); [discriminate|].
  intros H. now rewrite IH.
Qed.

Lemma dict_get_none (V : Type) (d : dict V) (k : string) :
  dict_get d k = None <-> ~ In k (map fst d).
Proof.
  induction d as [|[k' v'] d IH]; simpl; [tauto|].
  destruct (String.eqb_spec k' k) as [->|N].
  - split; [discriminate|]. intros H. exfalso. apply H. now left.
  - rewrite IH. split; [intros H [E|Hin]; [congruence|auto]|tauto].
Qed.

Lemma step_items_keys (F : Type) (n j : nat) (k : string) :
  In k (map fst (@step_items F n j)) ->
  step_key k j /\ (k = observation_key j -> (j < n)%nat).
Proof.
  unfold step_items. simpl.
  intros [<-|[<-|H]].
  - split; [now left|].
    unfold thought_key, observation_key. simpl. discriminate.
  - split; [now right; left|].
    unfold action_key, observation_key. simpl. discriminate.
  - destruct (j <? n)%nat eqn:E; simpl in H; [|contradiction].
    destruct H as [<-|[]]. split; [now right; right|].
    intros _. now apply Nat.ltb_lt.
Qed.

Lemma steps_keys (F : Type) (n : nat) (len a : nat) (k : string) :
  In k (map fst (flat_map (@step_items F n) (seq a len))) ->
  exists j, (a <= j < a + len)%nat /\ step_key k j
            /\ (k = observation_key j -> (j < n)%nat).
Proof.
  revert a. induction len as [|len IH]; intros a; cbn [seq flat_map];
    [contradiction|].
  rewrite map_app, in_app_iff. intros [H|H].
  - apply step_items_keys in H. exists a. split; [lia|exact H].
  - apply IH in H as (j & Hj & H). exists j. split; [lia|exact H].
Qed.

Lemma step_items_nodup (F : Type) (n j : nat) :
  NoDup (map fst (@step_items F n j)).
Proof.
  unfold step_items. destruct (j <? n)%nat; simpl;
    repeat constructor; simpl;
    unfold thought_key, action_key, observation_key; simpl;
    intuition discriminate.
Qed.

Lemma steps_nodup (F : Type) (n : nat) (len a : nat) :
  NoDup (map fst (flat_map (@step_items F n) (seq a len))).
Proof.
  revert a. induction len as [|len IH]; intros a; cbn [seq flat_map];
    [constructor|].
  rewrite map_app.
  apply NoDup_app; [apply step_items_nodup|apply IH|].
  intros k H1 H2.
  apply step_items_keys in H1 as [H1 _].
  apply steps_keys in H2 as (j & Hj & H2 & _).
  pose proof (step_key_index _ _ _ H1 H2). lia.
Qed.

(** The loop appends the items of its steps, as their keys are new. *)
Lemma signature_steps_append (F : Type) (n len a : nat)
    (d : dict (field F)) :
  (forall k j, (a <= j)%nat -> step_key k j -> dict_get d k = None) ->
  fold_left (signature_step n) (seq a len) d
  = (d ++ flat_map (step_items n) (seq a len))%list.
Proof.
  revert a d. induction len as [|len IH]; intros a d Hfree;
    cbn [seq flat_map fold_left].
  - now rewrite app_nil_r.
  - assert (signature_step n d a = (d ++ step_items n a)%list) as ->.
    { unfold signature_step, step_items.
      assert (dict_get d (thought_key a) = None) as HT
        by (apply (Hfree _ a); [lia|now left]).
      assert (dict_get d (action_key a) = None) as HA
        by (apply (Hfree _ a); [lia|now right; left]).
      assert (dict_get d (observation_key a) = None) as HO
        by (apply (Hfree _ a); [lia|now right; right]).
      rewrite (dict_set_fresh _ d (thought_key a)) by exact HT.
      rewrite (dict_set_fresh _ _ (action_key a))
        by (rewrite dict_get_app, HA; reflexivity).
      destruct (a <? n)%nat; [|now rewrite <- app_assoc].
      rewrite (dict_set_fresh _ _ (observation_key a))
        by (rewrite !dict_get_app, HO; reflexivity).
      now rewrite <- !app_assoc. }
    rewrite IH; [now rewrite <- app_assoc|].
    intros k j Hj Hk. rewrite dict_get_app, (Hfree k j) by (try lia; auto).
    apply dict_get_none. intros Hin.
    apply step_items_keys in Hin as [Hin _].
    pose proof (step_key_index _ _ _ Hin Hk). lia.
Qed.

(** ** _generate_signature *)

(** The fold of [_generate_signature] in closed form. *)
Lemma generate_signature_unfold (F : Type) (signature_kwargs : dict F)
    (iters : nat) :
  _generate_signature signature_kwargs iters
  = match dict_get signature_kwargs "question" with
    | None => inl (KeyError "question")
    | Some question =>
        inr (("question", Given question)
             :: flat_map (step_items iters) (seq 1 iters))
    end.
Proof.
  unfold _generate_signature.
  destruct (dict_get signature_kwargs "question") as [q|]; [|reflexivity].
  f_equal. rewrite signature_steps_append; [reflexivity|].
  intros k j _ Hk. cbn [dict_get].
  destruct (String.eqb_spec "question" k) as [<-|_]; [|reflexivity].
  now apply step_key_not_question in Hk.
Qed.

(** X16.  The signature [_generate_signature] builds for [iters] steps
    holds, in this order, the question of the caller's signature, then for
    each step from 1 to [iters] its Thought and its Action and, for every
    step but the last, its Observation; every field is appended, none
    overwritten.  Without a question in the caller's signature it raises
    KeyError. *)
Theorem generate_signature_contents (F : Type) (signature_kwargs : dict F)
    (iters : nat) :
  _generate_signature signature_kwargs iters
  = match dict_get signature_kwargs "question" with
    | None => inl (KeyError "question")
    | Some question =>
        inr (("question", Given question)
             :: flat_map (step_items iters) (seq 1 iters))
    end.
Proof. apply generate_signature_unfold. Qed.

Lemma steps_length (F : Type) (n len a : nat) :
  (a + len <= n)%nat ->
  List.length (flat_map (@step_items F n) (seq a len)) = (3 * len)%nat.
Proof.
  revert a. induction len as [|len IH]; intros a H; cbn [seq flat_map];
    [reflexivity|].
  rewrite length_app, IH by lia.
  unfold step_items.
  assert ((a <? n)%nat = true) as -> by (apply Nat.ltb_lt; lia).
  simpl. lia.
Qed.

Lemma last_step_items (F : Type) (n : nat) :
  @step_items F n n
  = [(thought_key n, thought_field n); (action_key n, action_field n)].
Proof. unfold step_items. now rewrite Nat.ltb_irrefl. Qed.

Lemma signature_keys_nodup (F : Type) (q : F) (n : nat) :
  NoDup (map fst (("question", Given q)
                  :: flat_map (step_items n) (seq 1 n))).
Proof.
  cbn [map fst]. constructor; [|apply steps_nodup].
  intros Hin. apply steps_keys in Hin as (j & _ & Hj & _).
  now apply step_key_not_question in Hj.
Qed.

(** X17.  A signature for [iters] steps has pairwise distinct keys, so no
    field hides another, and it has one field when [iters] is 0 and three
    fields for each step otherwise (the question standing in for the
    Observation of the last step). *)
Theorem generate_signature_keys_distinct (F : Type)
    (signature_kwargs : dict F) (iters : nat) (sig : dict (field F)) :
  _generate_signature signature_kwargs iters = inr sig ->
  NoDup (map fst sig)
  /\ List.length sig = (if (iters =? 0)%nat then 1 else 3 * iters)%nat.
Proof.
  rewrite generate_signature_unfold.
  destruct (dict_get signature_kwargs "question") as [q|]; [|discriminate].
  intros [= <-]. split; [apply signature_keys_nodup|].
  destruct iters as [|m]; [reflexivity|].
  cbn [List.length Nat.eqb].
  rewrite seq_S, flat_map_app, length_app, steps_length by lia.
  cbn [flat_map]. rewrite app_nil_r.
  change (1 + m)%nat with (S m). rewrite last_step_items. simpl. lia.
Qed.

(** X18.  The signature for one step more extends the signature it
    follows: the fields of [iters] steps stay as they are, in their order,
    and behind them come the Observation of step [iters] and the Thought
    and the Action of the new step. *)
Theorem generate_signature_extends (F : Type) (signature_kwargs : dict F)
    (m : nat) (sig : dict (field F)) :
  _generate_signature signature_kwargs (S m) = inr sig ->
  _generate_signature signature_kwargs (S (S m))
  = inr (sig
         ++ [(observation_key (S m), observation_field (S m));
             (thought_key (S (S m)), thought_field (S (S m)));
             (action_key (S (S m)), action_field (S (S m)))])%list.
Proof.
  rewrite !generate_signature_unfold.
  destruct (dict_get signature_kwargs "question") as [q|]; [|discriminate].
  intros H.
  assert (sig = ("question", Given q)
                :: flat_map (step_items (S m)) (seq 1 (S m))) as ->
    by congruence.
  clear H. f_equal. rewrite <- app_comm_cons. f_equal.
  rewrite (seq_S (S m) 1), (seq_S m 1), !flat_map_app.
  cbn [flat_map]. rewrite !app_nil_r.
  change (1 + m)%nat with (S m). change (1 + S m)%nat with (S (S m)).
  rewrite !last_step_items.
  assert (flat_map (@step_items F (S (S m))) (seq 1 m)
          = flat_map (step_items (S m)) (seq 1 m)) as ->.
  { rewrite !flat_map_concat_map. f_equal.
    apply map_ext_in. intros j Hj. apply in_seq in Hj.
    unfold step_items.
    assert ((j <? S (S m))%nat = true) as -> by (apply Nat.ltb_lt; lia).
    assert ((j <? S m)%nat = true) as -> by (apply Nat.ltb_lt; lia).
    reflexivity. }
  rewrite <- !app_assoc. f_equal.
  unfold step_items at 1.
  assert ((S m <? S (S m))%nat = true) as -> by (apply Nat.ltb_lt; lia).
  reflexivity.
Qed.

(** ** __init__ *)

Lemma predictor_signatures_from_nth (F : Type) (signature_kwargs : dict F)
    (steps : list nat) (sigs : list (dict (field F))) :
  predictor_signatures_from signature_kwargs steps = inr sigs ->
  List.length sigs = List.length steps
  /\ forall i n, nth_error steps i = Some n ->
       exists sig, nth_error sigs i = Some sig
                   /\ _generate_signature signature_kwargs n = inr sig.
Proof.
  revert sigs. induction steps as [|n steps IH]; intros sigs; simpl.
  - intros [= <-]. split; [reflexivity|]. intros [|i] n; discriminate.
  - destruct (_generate_signature signature_kwargs n) as [e|sig] eqn:E;
      [discriminate|].
    destruct (predictor_signatures_from signature_kwargs steps)
      as [e|sigs']; [discriminate|].
    intros [= <-]. destruct (IH sigs' eq_refl) as [Hl Hn].
    split; [simpl; now rewrite Hl|].
    intros [|i] k; simpl.
    + intros [= <-]. now exists sig.
    + apply Hn.
Qed.

(** X19.  [__init__] builds one predictor for each step, the predictor at
    index [i] from the signature for [i + 1] steps.  That signature
    declares the field [forward] reads from this predictor, the Action of
    step [i + 1], and does not declare the Observation of that step, which
    [forward] adds itself. *)
Theorem predictors_match_forward (F : Type) (signature_kwargs : dict F)
    (max_iters : nat) (sigs : list (dict (field F))) :
  predictor_signatures signature_kwargs max_iters = inr sigs ->
  List.length sigs = max_iters
  /\ forall i, (i < max_iters)%nat ->
       exists sig,
         nth_error sigs i = Some sig
         /\ _generate_signature signature_kwargs (i + 1) = inr sig
         /\ dict_get sig (action_key (i + 1)) = Some (action_field (i + 1))
         /\ dict_get sig (observation_key (i + 1)) = None.
Proof.
  unfold predictor_signatures. intros H.
  apply predictor_signatures_from_nth in H as [Hl Hn].
  rewrite length_seq in Hl. split; [exact Hl|].
  intros i Hi.
  destruct (Hn i (i + 1)%nat) as (sig & Hsig & Hgen).
  { rewrite nth_error_nth' with (d := O) by (rewrite length_seq; lia).
    rewrite seq_nth by lia. f_equal. lia. }
  exists sig. split; [exact Hsig|]. split; [exact Hgen|].
  rewrite generate_signature_unfold in Hgen.
  destruct (dict_get signature_kwargs "question") as [q|]; [|discriminate].
  injection Hgen as <-. split.
  - apply dict_get_in; [apply signature_keys_nodup|].
    right. apply in_flat_map. exists (i + 1)%nat. split.
    + apply in_seq. lia.
    + rewrite last_step_items. right. now left.
  - apply dict_get_none. intros [E|Hin].
    + unfold observation_key in E. simpl in E. discriminate E.
    + apply steps_keys in Hin as (j & _ & Hj & Hlt).
      assert (step_key (observation_key (i + 1)) (i + 1)) as Hself
        by (now right; right).
      pose proof (step_key_index _ _ _ Hj Hself) as ->.
      specialize (Hlt eq_refl). lia.
Qed.

(** ** forward *)

Lemma hd_split_on_no_sep (sep : ascii) (s : string) :
  has_char sep (hd EmptyString (split_on sep s)) = false.
Proof.
  induction s as [|c s IH]; simpl; [reflexivity|].
  destruct (Ascii.eqb c sep) eqn:E; [reflexivity|].
  destruct (split_on sep s) as [|piece pieces]; simpl in *.
  - now rewrite E.
  - now rewrite E, IH.
Qed.

Lemma split_on_piece (sep : ascii) (pre rest : string) :
  has_char sep pre = false ->
  split_on sep (pre ++ String sep rest) = pre :: split_on sep rest.
Proof.
  induction pre as [|c pre IH]; simpl.
  - intros _. now rewrite Ascii.eqb_refl.
  - intros H. apply orb_false_iff in H as [Hc Hpre].
    rewrite Hc, (IH Hpre). reflexivity.
Qed.

Lemma split_on_not_nil (sep : ascii) (s : string) : split_on sep s <> [].
Proof.
  induction s as [|c s IH]; simpl; [discriminate|].
  destruct (Ascii.eqb c sep); [discriminate|].
  destruct (split_on sep s); discriminate.
Qed.

Lemma dict_get_set_same (V : Type) (d : dict V) (k : string) (v : V) :
  dict_get (dict_set d k v) k = Some v.
Proof.
  induction d as [|[k' v'] d IH]; simpl.
  - now rewrite String.eqb_refl.
  - destruct (String.eqb k' k) eqn:E; simpl; rewrite E; auto.
Qed.

Lemma split_on_app_hd (sep : ascii) (a rest : string) :
  has_char sep a = false ->
  split_on sep (a ++ rest)
  = match split_on sep rest with
    | [] => [a]
    | piece :: pieces => (a ++ piece) :: pieces
    end.
Proof.
  induction a as [|c a IH]; simpl.
  - intros _. destruct (split_on sep rest) eqn:E; [|reflexivity].
    now apply split_on_not_nil in E.
  - intros H. apply orb_false_iff in H as [Hc Ha].
    rewrite Hc, (IH Ha). now destruct (split_on sep rest).
Qed.

Lemma split_on_pieces_no_sep (sep : ascii) (s : string) :
  Forall (fun piece => has_char sep piece = false) (split_on sep s).
Proof.
  induction s as [|c s IH]; simpl; [repeat constructor|].
  destruct (Ascii.eqb c sep) eqn:E; [now constructor|].
  destruct (split_on sep s) as [|piece pieces]; [repeat constructor|].
  - simpl. now rewrite E.
  - inversion IH as [|? ? Hp Hps]; subst.
    constructor; [simpl; now rewrite E, Hp|exact Hps].
Qed.

Lemma hd_split_on_keeps_absent (c sep : ascii) (s : string) :
  has_char c s = false ->
  has_char c (hd EmptyString (split_on sep s)) = false.
Proof.
  induction s as [|d s IH]; simpl; [reflexivity|].
  intros H. apply orb_false_iff in H as [Hd Hs].
  destruct (Ascii.eqb d sep); [reflexivity|].
  specialize (IH Hs).
  destruct (split_on sep s) as [|piece pieces]; simpl in *.
  - now rewrite Hd.
  - now rewrite Hd, IH.
Qed.

Section ForwardFacts.
Variable predictors : nat -> string -> dict string -> dict string.
Variable retrieve : string -> list string.

Lemma append_empty (a : string) : (a ++ "")%string = a.
Proof. induction a as [|c a IH]; simpl; congruence. Qed.

(** X20.  A step whose Action holds [Finish[] ends [forward] at once, and
    the answer is the text behind the first opening bracket of the Action
    up to the next bracket of either kind, or up to the end of the Action
    when no bracket follows, wherever [Finish[] stands in the Action;
    nothing is retrieved and no later predictor is asked. *)
Theorem forward_step_finishes (i : nat) (rest : list nat)
    (kwargs output args : dict string) (question action pre a tail : string) :
  dict_get kwargs "question" = Some question ->
  key_in "question" (map fst (dict_update args output)) = false ->
  dict_get (predictors i question (dict_update args output))
    (action_key (i + 1)) = Some action ->
  action = pre ++ "[" ++ a ++ tail ->
  has_char "[" pre = false ->
  has_char "[" a = false ->
  has_char "]" a = false ->
  stops_answer tail ->
  contains "Finish[" action = true ->
  forward_loop predictors retrieve (i :: rest) kwargs output args
  = inr (Prediction a).
Proof.
  intros Hq Hk Hact Es Hpre Ha1 Ha2 Htail Hfin.
  cbn [forward_loop]. rewrite Hq, Hk, Hact, Hfin.
  rewrite Es.
  change (pre ++ "[" ++ a ++ tail) with (pre ++ String "[" (a ++ tail)).
  rewrite (split_on_piece _ _ _ Hpre), (split_on_app_hd _ _ _ Ha1).
  assert (forall t,
            hd EmptyString
              (split_on "]"
                 (a ++ hd EmptyString (split_on "[" (String "]" t)))) = a)
    as Hclose.
  { intros t. cbn [split_on].
    change (Ascii.eqb "]" "[") with false. cbn iota.
    destruct (split_on "[" t) as [|p ps]; cbn [hd];
      now rewrite (split_on_piece _ _ _ Ha2). }
  assert (hd EmptyString (split_on "]" (a ++ "")) = a) as Hend.
  { rewrite append_empty.
    rewrite <- (append_empty a) at 1.
    rewrite (split_on_app_hd _ _ _ Ha2). cbn. now rewrite append_empty. }
  destruct tail as [|c tail].
  - cbn [split_on]. now rewrite Hend.
  - destruct Htail as [-> | ->].
    + cbn [split_on]. change (Ascii.eqb "[" "[") with true. cbn iota.
      now rewrite Hend.
    + specialize (Hclose tail).
      destruct (split_on "[" (String "]" tail)) as [|p ps] eqn:E;
        [now apply split_on_not_nil in E|].
      cbn [hd] in Hclose. now rewrite Hclose.
Qed.

Lemma forward_loop_answer (steps : list nat)
    (kwargs output args : dict string) (a : string) :
  forward_loop predictors retrieve steps kwargs output args
  = inr (Prediction a) ->
  has_char "[" a = false /\ has_char "]" a = false.
Proof.
  revert output args. induction steps as [|i steps IH]; intros output args;
    cbn [forward_loop]; [discriminate|].
  destruct (dict_get kwargs "question") as [q|]; [|discriminate].
  destruct (key_in "question" _); [discriminate|].
  destruct (dict_get _ (action_key (i + 1))) as [action|]; [|discriminate].
  pose proof (split_on_pieces_no_sep "[" action) as Hpieces.
  destruct (split_on "[" action) as [|p0 [|piece pieces]];
    try discriminate.
  destruct (contains "Finish[" action).
  - intros [= <-].
    inversion Hpieces as [|? ? _ Hrest]; subst.
    inversion Hrest as [|? ? Hpiece _]; subst.
    split; [now apply hd_split_on_keeps_absent|apply hd_split_on_no_sep].
  - destruct (retrieve _) as [|passage passages]; [discriminate|].
    apply IH.
Qed.

(** X21.  An answer of [forward] holds no bracket: whatever the predictors
    and the retriever say, the answer returned has neither an opening nor a
    closing square bracket in it. *)
Theorem forward_answer_has_no_bracket (max_iters : nat)
    (kwargs : dict string) (a : string) :
  forward predictors retrieve max_iters kwargs = inr (Prediction a) ->
  has_char "[" a = false /\ has_char "]" a = false.
Proof. apply forward_loop_answer. Qed.

Lemma forward_loop_last_output (steps : list nat)
    (kwargs output args out : dict string) :
  forward_loop predictors retrieve steps kwargs output args
  = inr (LastOutput out) ->
  match steps with
  | [] => out = output
  | _ => exists passage,
           dict_get out (observation_key (last steps O + 1)) = Some passage
  end.
Proof.
  revert output args. induction steps as [|i steps IH]; intros output args;
    cbn [forward_loop]; [now intros [= <-]|].
  destruct (dict_get kwargs "question") as [q|]; [|discriminate].
  destruct (key_in "question" _); [discriminate|].
  destruct (dict_get _ (action_key (i + 1))) as [action|]; [|discriminate].
  destruct (split_on "[" action) as [|p0 [|piece pieces]];
    try discriminate.
  destruct (contains "Finish[" action); [discriminate|].
  destruct (retrieve _) as [|passage passages]; [discriminate|].
  intros H. apply IH in H.
  destruct steps as [|j steps'].
  - subst out. exists passage. simpl. apply dict_get_set_same.
  - exact H.
Qed.

(** X22.  When the steps run out [forward] returns the last prediction with
    its observation: with no step allowed it returns the empty output,
    asking for nothing, not even the question; with [max_iters] steps,
    an output it returns holds the Observation of step [max_iters].  When
    a step is allowed and the question is missing, it raises KeyError. *)
Theorem forward_runs_out (kwargs : dict string) :
  forward predictors retrieve 0 kwargs = inr (LastOutput [])
  /\ (forall m out,
        forward predictors retrieve (S m) kwargs = inr (LastOutput out) ->
        exists passage,
          dict_get out (observation_key (S m)) = Some passage)
  /\ (dict_get kwargs "question" = None ->
      forall m,
        forward predictors retrieve (S m) kwargs
        = inl (KeyError "question")).
Proof.
  split; [reflexivity|split].
  - intros m out H. unfold forward in H.
    assert (last (seq 0 (S m)) O = m) as L
      by (rewrite seq_S, last_last; reflexivity).
    apply forward_loop_last_output in H.
    rewrite L, Nat.add_1_r in H.
    destruct (seq 0 (S m)) eqn:E; [discriminate E|exact H].
  - intros Hq m. unfold forward. cbn [seq forward_loop]. now rewrite Hq.
Qed.
End ForwardFacts.

(** * The further theorems at work on the samples *)

Lemma hash_comma_collision_witness :
  @_hash demo_runtime op_seven [PyStr "a,b"] []
  = @_hash demo_runtime op_seven [PyStr "a"; PyStr "b"] [].
Proof.
  apply (@hash_comma_collision demo_runtime op_seven [] [] (PyStr "a,b")
           (PyStr "a") (PyStr "b") []).
  reflexivity.
Defined.

Lemma hash_of_name_and_texts_witness :
  @_hash demo_runtime op_seven [PyInt 1] [("a", PyInt 0)]
  = @_hash demo_runtime op_boom [PyStr "1"] [("a", PyStr "0")].
Proof.
  apply (@hash_of_name_and_texts demo_runtime); reflexivity.
Defined.

Lemma get_cache_record_outcome_witness :
  fst (@get_cache_record demo_runtime opened_client
         (@fingerprint demo_runtime op_seven [] []) 0 0 (Finite 60)
         attempts_world)
  = Raise PickleTypeError
  /\ fst (@get_cache_record demo_runtime opened_client
            (@fingerprint demo_runtime op_seven [] []) 0 1000 PosInf
            attempts_world)
     = Ok None.
Proof.
  split.
  - apply (@get_cache_record_outcome demo_runtime
             (@fingerprint demo_runtime op_seven [] []) 0%Z 0 (Finite 60)
             attempts_world attempts eq_refl eq_refl).
    exists best_attempt. split; [simpl; auto|].
    unfold considered. simpl. repeat split; lra.
  - apply (@get_cache_record_outcome demo_runtime
             (@fingerprint demo_runtime op_seven [] []) 0%Z 1000 PosInf
             attempts_world attempts eq_refl eq_refl).
    intros r Hin (_ & _ & H & _).
    simpl in Hin. destruct Hin as [<-|[<-|[<-|[<-|[]]]]]; simpl in H; lra.
Defined.

Lemma check_monotone_in_window_witness :
  fst (@check_if_record_exists_with_status demo_runtime opened_client
         (@fingerprint demo_runtime op_seven [] []) 0 0 PosInf COMPLETED
         attempts_world)
  = Ok true.
Proof.
  apply (@check_monotone_in_window demo_runtime
           (@fingerprint demo_runtime op_seven [] []) 0%Z COMPLETED 55
           (Finite 58) 0 PosInf attempts_world attempts eq_refl eq_refl).
  - lra.
  - exact I.
  - reflexivity.
Defined.

Lemma insert_then_exists_witness :
  fst (@check_if_record_exists_with_status demo_runtime opened_client "h" 0
         0 PosInf PENDING
         (snd (@insert_operation_started demo_runtime opened_client "h" 0
                 100 entered_world)))
  = Ok true.
Proof.
  apply (@insert_then_exists demo_runtime "h" 0%Z 100 0 PosInf entered_world
           [] eq_refl eq_refl).
  - intros r [].
  - split; reflexivity.
  - reflexivity.
  - lra.
  - exact I.
Defined.

Lemma insert_confined_witness :
  fst (@check_if_record_exists_with_status demo_runtime opened_client "h" 1
         0 PosInf PENDING
         (snd (@insert_operation_started demo_runtime opened_client "h" 0
                 100 entered_world)))
  = fst (@check_if_record_exists_with_status demo_runtime opened_client "h"
           1 0 PosInf PENDING entered_world).
Proof.
  apply (@insert_confined demo_runtime "h" 0%Z 100 "h" 1%Z PENDING 0 PosInf
           entered_world [] eq_refl eq_refl).
  - intros r [].
  - right. left. discriminate.
Defined.

Lemma branch_out_of_range_raises_witness :
  fst (@check_if_record_exists_with_status demo_runtime opened_client "h"
         (2 ^ 63) 0 PosInf PENDING attempts_world)
  = Raise OverflowError
  /\ fst (@insert_operation_started demo_runtime opened_client "h" (2 ^ 63)
            100 attempts_world)
     = Raise OverflowError.
Proof.
  destruct (@branch_out_of_range_raises demo_runtime "h" (2 ^ 63)%Z 0 PosInf
              PENDING None false 100 attempts_world attempts eq_refl eq_refl)
    as (_ & H1 & _ & _ & H4 & _).
  split; [exact H1|exact H4].
Defined.

Lemma failed_insert_writes_nothing_witness :
  cache_table
    (snd (@insert_operation_started demo_runtime opened_client "h" 0 100
            taken_id_world))
  = cache_table taken_id_world
  /\ fst (@insert_operation_started demo_runtime opened_client "h" 0 100
            taken_id_world)
     = Raise IntegrityError.
Proof.
  destruct (@failed_insert_writes_nothing demo_runtime opened_client "h" 0%Z
              100 taken_id_world IntegrityError eq_refl) as [H _].
  split; [exact H|reflexivity].
Defined.

Lemma retrieval_on_hex_digests_witness :
  where_retrieve (@fingerprint demo_runtime op_seven [] []) 0 0 (Finite 60)
    None best_attempt = true
  <-> considered (@fingerprint demo_runtime op_seven [] []) 0 0 (Finite 60)
        best_attempt
      /\ status_wanted None best_attempt.
Proof.
  apply retrieval_on_hex_digests; reflexivity.
Defined.

Lemma retrieval_matches_by_pattern_witness :
  where_retrieve (@fingerprint demo_runtime op_seven [] []) 0 0 PosInf
    (Some COMPLETED) best_attempt = true.
Proof.
  apply (proj1 retrieval_matches_by_pattern). reflexivity.
Defined.

Lemma wrapper_checks_keywords_first_witness :
  @wrapper_body demo_runtime opened_client op_seven []
    [("experiment_start_timestamp", PyStr "soon")] entered_world
  = (Raise TimerangeError, entered_world)
  /\ (@wrapper_body demo_runtime opened_client op_seven []
        [("func", PyInt 1)] entered_world
      = (Raise TimerangeError, entered_world)
      \/ @wrapper_body demo_runtime opened_client op_seven []
           [("func", PyInt 1)] entered_world
         = (Raise HashTypeError, entered_world))
  /\ @wrapper_body demo_runtime opened_client op_seven []
       [("experiment_end_timestamp", PyInt (10 ^ 12))] entered_world
     = (Raise TimerangeError, entered_world).
Proof.
  split; [|split].
  - apply (@wrapper_checks_keywords_first demo_runtime). reflexivity.
  - apply (@wrapper_checks_keywords_first demo_runtime). reflexivity.
  - apply (proj2 (proj2 (@wrapper_checks_keywords_first demo_runtime
                           opened_client op_seven []
                           [("experiment_end_timestamp", PyInt (10 ^ 12))]
                           entered_world)) 0 (Finite (inject_Z (10 ^ 12))));
      reflexivity.
Defined.

Lemma lookup_closed_window_miss_witness :
  fst (@lookup demo_runtime opened_client op_seven [] [] "h" 0 0 (Finite 60)
         100 "then and now" entered_world)
  = Raise (PyException
             ("Cache does not exist for the given experiment "
              ++ "timerange of between " ++ "then and now" ++ ".")).
Proof.
  apply (@lookup_closed_window_miss demo_runtime op_seven [] [] "h" 0%Z 0
           (Finite 60) 100 "then and now" entered_world [] eq_refl eq_refl).
  - intros r [].
  - reflexivity.
Defined.

Lemma lookup_pending_times_out_witness :
  fst (@lookup demo_runtime opened_client op_seven [] []
         (@fingerprint demo_runtime op_seven [] []) 0 0 PosInf 100 "t"
         (world_at_100 (Some [earlier_attempt PENDING None]) []))
  = Raise poll_failed.
Proof.
  apply (@lookup_pending_times_out demo_runtime op_seven [] []
           (@fingerprint demo_runtime op_seven [] []) 0%Z 0 PosInf 100 "t"
           (world_at_100 (Some [earlier_attempt PENDING None]) [])
           [earlier_attempt PENDING None] eq_refl eq_refl eq_refl).
  - intros r [<-|[]] [_ H]. discriminate H.
  - exists (earlier_attempt PENDING None).
    split; [now left|]. split; [|reflexivity].
    unfold considered. simpl. repeat split. lra.
Defined.

Lemma compute_on_entered_client_witness :
  fst (@compute demo_runtime opened_client op_seven [] [] "h" 0 0 PosInf 100
         entered_world)
  = Raise PickleTypeError.
Proof.
  apply (@compute_on_entered_client demo_runtime op_seven [] [] "h" 0%Z 0
           PosInf 100 entered_world [] eq_refl eq_refl eq_refl).
  intros r [].
Defined.

Lemma lookup_completed_raises_witness :
  fst (@lookup demo_runtime opened_client op_seven [] []
         (@fingerprint demo_runtime op_seven [] []) 0 0 PosInf 100 "t"
         attempts_world)
  = Raise PickleTypeError.
Proof.
  apply (@lookup_completed_raises demo_runtime op_seven [] []
           (@fingerprint demo_runtime op_seven [] []) 0%Z 0 PosInf 100 "t"
           attempts_world attempts eq_refl eq_refl).
  exists best_attempt. split; [simpl; auto|]. split; [|reflexivity].
  unfold considered. simpl. repeat split. lra.
Defined.

Lemma lookup_failed_only_witness :
  @lookup demo_runtime opened_client op_seven [] []
    (@fingerprint demo_runtime op_seven [] []) 0 0 (Finite 60) 100 "t"
    (world_at_100 (Some [earlier_attempt FAILED (Some "boom")]) [])
  = (Raise PickleTypeError,
     log (Execute
            (SelectBest (@fingerprint demo_runtime op_seven [] []) 0 0
               (Finite 60) (Some FAILED)))
       (log (Execute
               (SelectCount (@fingerprint demo_runtime op_seven [] []) 0
                  FAILED 0 (Finite 60)))
          (log (Execute
                  (SelectCount (@fingerprint demo_runtime op_seven [] []) 0
                     PENDING 0 (Finite 60)))
             (log (Execute
                     (SelectCount (@fingerprint demo_runtime op_seven [] [])
                        0 COMPLETED 0 (Finite 60)))
                (world_at_100
                   (Some [earlier_attempt FAILED (Some "boom")]) []))))).
Proof.
  apply (@lookup_failed_only demo_runtime op_seven [] []
           (@fingerprint demo_runtime op_seven [] []) 0%Z 0 (Finite 60) 100
           "t" (world_at_100 (Some [earlier_attempt FAILED (Some "boom")]) [])
           [earlier_attempt FAILED (Some "boom")] eq_refl eq_refl).
  - intros r [<-|[]] [_ H]. discriminate H.
  - intros r [<-|[]] [_ H]. discriminate H.
  - exists (earlier_attempt FAILED (Some "boom")).
    split; [now left|]. split; [|reflexivity].
    unfold considered. simpl. repeat split; lra.
Defined.

Lemma generate_signature_keys_distinct_witness :
  NoDup (map fst (signature_of 2))
  /\ List.length (signature_of 2) = 6%nat.
Proof.
  apply (generate_signature_keys_distinct unit [("question", tt)] 2).
  reflexivity.
Defined.

Lemma generate_signature_extends_witness :
  _generate_signature [("question", tt)] 2
  = inr (signature_of 1
         ++ [(observation_key 1, observation_field 1);
             (thought_key 2, thought_field 2);
             (action_key 2, action_field 2)])%list.
Proof.
  apply (generate_signature_extends unit [("question", tt)] 0). reflexivity.
Defined.

Lemma predictors_match_forward_witness :
  exists sig,
    nth_error [signature_of 1; signature_of 2] 1 = Some sig
    /\ _generate_signature [("question", tt)] 2 = inr sig
    /\ dict_get sig (action_key 2) = Some (action_field 2)
    /\ dict_get sig (observation_key 2) = None.
Proof.
  apply (proj2 (predictors_match_forward unit [("question", tt)] 2
                  [signature_of 1; signature_of 2] eq_refl) 1%nat).
  lia.
Defined.

Lemma forward_step_finishes_witness :
  forward_loop nesting_predictors echo_retrieve [0; 1]%nat asked [] []
  = inr (Prediction "a").
Proof.
  apply (forward_step_finishes nesting_predictors echo_retrieve 0 [1%nat]
           asked [] [] "q" "Finish[a[b]]" "Finish" "a" "[b]]");
    try reflexivity.
  left. reflexivity.
Defined.

Lemma forward_answer_has_no_bracket_witness :
  has_char "[" "x" = false /\ has_char "]" "x" = false.
Proof.
  apply (forward_answer_has_no_bracket finishing_predictors echo_retrieve 2
           asked "x").
  reflexivity.
Defined.

Lemma forward_runs_out_witness :
  (exists passage,
      dict_get searching_output (observation_key 2) = Some passage)
  /\ forward searching_predictors echo_retrieve 1 [] = inl (KeyError "question").
Proof.
  destruct (forward_runs_out searching_predictors echo_retrieve asked)
    as (_ & H & _).
  destruct (forward_runs_out searching_predictors echo_retrieve [])
    as (_ & _ & H').
  split.
  - apply (H 1%nat). reflexivity.
  - apply H'. reflexivity.
Defined.
